(** * Runtime schema engine of the auto-generated CRUD + RBAC platform

    A shallow embedding of the backend's core:
    - [model-definitions.service.ts]  (validation, schema synthesis, publish, delete),
    - [model-definition.cache.service.ts] (the model registry),
    - [dynamic-api.service.ts] (the dynamic query engine),
    - [rbac.guard.ts] (the access decision point),
    followed by the properties the specification states about them.

    JavaScript numbers are IEEE-754 doubles, so they are embedded as Rocq's
    primitive floats.  Built-ins of the language whose definition is not part
    of the repository (parsing a number out of a string, printing a number,
    parsing a date) are fields of the class [JsRuntime]; what the PostgreSQL
    server decides on its own (rejecting a statement, how the catalog prints a
    default expression) are fields of the class [PgServer]. *)

From Stdlib Require Import PrimFloat FloatOps Uint63 Ascii String DecimalString ZArith.
From stdpp Require Import gmap strings list.

Open Scope string_scope.
Open Scope list_scope.
Open Scope stdpp_scope.

(** ** JavaScript strings *)

Module JsString.

Definition code (c : ascii) : nat := nat_of_ascii c.

Definition isUpper (c : ascii) : bool := Nat.leb 65 (code c) && Nat.leb (code c) 90.
Definition isLower (c : ascii) : bool := Nat.leb 97 (code c) && Nat.leb (code c) 122.
Definition isDigit (c : ascii) : bool := Nat.leb 48 (code c) && Nat.leb (code c) 57.
Definition isUnderscore (c : ascii) : bool := Nat.eqb (code c) 95.

  (** The class [\w] of regular expressions. *)
Definition isWordChar (c : ascii) : bool :=
    isUpper c || isLower c || isDigit c || isUnderscore c.

Definition lowerChar (c : ascii) : ascii :=
    if isUpper c then ascii_of_nat (code c + 32) else c.
Definition upperChar (c : ascii) : ascii :=
    if isLower c then ascii_of_nat (code c - 32) else c.

Fixpoint mapChars (f : ascii → ascii) (s : string) : string :=
    match s with
    | EmptyString => EmptyString
    | String c s' => String (f c) (mapChars f s')
    end.

Fixpoint allChars (p : ascii → bool) (s : string) : bool :=
    match s with
    | EmptyString => true
    | String c s' => p c && allChars p s'
    end.

  (** [s.toLowerCase()] and [s.toUpperCase()].  Every string the program
      lower-cases is compared with ASCII text only. *)
Definition toLowerCase (s : string) : string := mapChars lowerChar s.
Definition toUpperCase (s : string) : string := mapChars upperChar s.

  (** [s.includes(sub)]. *)
Fixpoint includes (s sub : string) : bool :=
    String.prefix sub s ||
    match s with
    | EmptyString => false
    | String _ s' => includes s' sub
    end.

  (** [arr.includes(x)] on an array of strings. *)
Definition arrayIncludes (arr : list string) (x : string) : bool :=
    existsb (String.eqb x) arr.

  (** The maximal runs of word characters of a string, left to right; [acc]
      is the run being read, reversed. *)
Fixpoint wordRunsFrom (acc : list ascii) (s : string) : list string :=
    match s with
    | EmptyString =>
        match acc with [] => [] | _ => [string_of_list_ascii (rev acc)] end
    | String c s' =>
        if isWordChar c then wordRunsFrom (c :: acc) s'
        else match acc with
             | [] => wordRunsFrom [] s'
             | _ => string_of_list_ascii (rev acc) :: wordRunsFrom [] s'
             end
    end.
Definition wordRuns (s : string) : list string := wordRunsFrom [] s.

  (** [s.replace(/'/g, "''")]. *)
Fixpoint doubleQuotes (s : string) : string :=
    match s with
    | EmptyString => EmptyString
    | String c s' =>
        if Nat.eqb (code c) 39 then String c (String c (doubleQuotes s'))
        else String c (doubleQuotes s')
    end.

  (** [s.split(sep).pop()]: what follows the last occurrence of [sep], the
      whole string when there is none.  [sep] is not empty where it is used. *)
Fixpoint afterLast (sep s : string) : string :=
    match s with
    | EmptyString => EmptyString
    | String c s' =>
        if includes s' sep then afterLast sep s'
        else if String.prefix sep s
             then String.substring (String.length sep) (String.length s) s
             else s
    end.

  (** [s.split('\n')[0]]. *)
Fixpoint firstLine (s : string) : string :=
    match s with
    | EmptyString => EmptyString
    | String c s' => if Nat.eqb (code c) 10 then EmptyString else String c (firstLine s')
    end.

Definition isEmpty (s : string) : bool :=
    match s with EmptyString => true | _ => false end.

End JsString.

(** ** JavaScript values *)

Class JsRuntime := {
  (** [Number(s)] on a string *)
  StringToNumber : string → float;
  (** [String(n)] on a number *)
  NumberToString : float → string;
  (** [parseInt(s, 10)] *)
  parseInt10 : string → float;
  (** [new Date(s).getTime()] *)
  DateParse : string → float;
  (** [String(d)] on a date of the given time value *)
  DateToString : float → string;
}.

Module Js.

  (** The values a request body, a row or a definition document can hold.
      [JObj] stands for arrays and plain objects and carries the string its
      [toString] returns. *)
Inductive JsValue :=
  | JUndefined
  | JNull
  | JBool (b : bool)
  | JNum (n : float)
  | JStr (s : string)
  | JDate (t : float)
  | JObj (repr : string).

Definition isNaN (n : float) : bool := PrimFloat.is_nan n.

  (** [Boolean(v)], the truthiness of [if (v)] and [!v] *)
Definition truthy (v : JsValue) : bool :=
    match v with
    | JUndefined | JNull => false
    | JBool b => b
    | JNum n => negb (PrimFloat.is_zero n || isNaN n)
    | JStr s => negb (JsString.isEmpty s)
    | JDate _ | JObj _ => true
    end.

  (** [a === b] *)
Definition strictEq (a b : JsValue) : bool :=
    match a, b with
    | JUndefined, JUndefined => true
    | JNull, JNull => true
    | JBool x, JBool y => Bool.eqb x y
    | JNum x, JNum y => PrimFloat.eqb x y
    | JStr x, JStr y => String.eqb x y
    | _, _ => false   (* two objects are equal only when they are the same object *)
    end.

  (** Truthiness of an optional string property ([undefined] when absent). *)
Definition truthyStr (o : option string) : bool :=
    match o with
    | Some s => negb (JsString.isEmpty s)
    | None => false
    end.

  (** Truthiness of an optional boolean property. *)
Definition truthyBool (o : option bool) : bool :=
    match o with Some b => b | None => false end.

Section Conversions.
Context `{JsRuntime}.

    (** [Number(v)] *)
Definition ToNumber (v : JsValue) : float :=
      match v with
      | JUndefined => PrimFloat.nan
      | JNull => 0%float
      | JBool b => if b then 1%float else 0%float
      | JNum n => n
      | JStr s => StringToNumber s
      | JDate t => t
      | JObj repr => StringToNumber repr
      end.

    (** [String(v)] *)
Definition ToString (v : JsValue) : string :=
      match v with
      | JUndefined => "undefined"
      | JNull => "null"
      | JBool b => if b then "true" else "false"
      | JNum n => NumberToString n
      | JStr s => s
      | JDate t => DateToString t
      | JObj repr => repr
      end.
End Conversions.

  (** A plain object ([Record<string, any>]): own properties in insertion
      order. *)
Definition JsObject := list (string * JsValue).

Fixpoint getProp (o : JsObject) (k : string) : option JsValue :=
    match o with
    | [] => None
    | (k', v) :: o' => if String.eqb k' k then Some v else getProp o' k
    end.

  (** [Object.prototype.hasOwnProperty.call(o, k)], the built-in *)
Definition hasOwn (o : JsObject) (k : string) : bool :=
    match getProp o k with Some _ => true | None => false end.

  (** [o[k]] for an own property, or for a name [Object.prototype] does not
      have *)
Definition readProp (o : JsObject) (k : string) : JsValue :=
    match getProp o k with Some v => v | None => JUndefined end.

  (** The properties every plain object inherits from [Object.prototype]. *)
Definition objectPrototypeMembers : list string :=
    ["constructor"; "__defineGetter__"; "__defineSetter__"; "hasOwnProperty";
     "__lookupGetter__"; "__lookupSetter__"; "isPrototypeOf";
     "propertyIsEnumerable"; "toString"; "valueOf"; "__proto__";
     "toLocaleString"].

  (** What [o[k]] reads when [o] has no own property [k]: the prototype
      itself for [__proto__], the built-in function for the other members of
      [Object.prototype], [undefined] for every other name. *)
Definition inheritedProp (k : string) : JsValue :=
    if String.eqb k "__proto__" then JObj "[object Object]"
    else if JsString.arrayIncludes objectPrototypeMembers k
         then JObj ("function " +:+ k +:+ "() { [native code] }")
         else JUndefined.

  (** [o[k]], read through the prototype chain *)
Definition lookupProp (o : JsObject) (k : string) : JsValue :=
    match getProp o k with Some v => v | None => inheritedProp k end.

  (** The own data property [k] of [o] is written: an existing property keeps
      its place, a new one goes last. *)
Fixpoint assignOwn (o : JsObject) (k : string) (v : JsValue) : JsObject :=
    match o with
    | [] => [(k, v)]
    | (k', v') :: o' =>
        if String.eqb k' k then (k', v) :: o' else (k', v') :: assignOwn o' k v
    end.

  (** [o[k] = v] on an object below [Object.prototype].  For [__proto__],
      unless [o] has an own property of that name, the assignment runs the
      accessor of [Object.prototype]: it changes the prototype when [v] is an
      object and does nothing otherwise, and [o] gets no own property. *)
Definition setProp (o : JsObject) (k : string) (v : JsValue) : JsObject :=
    if String.eqb k "__proto__" && negb (hasOwn o k) then o
    else assignOwn o k v.

  (** [delete o[k]] *)
Definition deleteProp (o : JsObject) (k : string) : JsObject :=
    List.filter (λ kv, negb (String.eqb kv.1 k)) o.

  (** [Object.keys(o)] *)
Definition keys (o : JsObject) : list string := map fst o.

End Js.
Export Js.

(** ** Exceptions and results *)

(** The exceptions the backend throws.  [InternalServerError] is
    [new HttpException(msg, HttpStatus.INTERNAL_SERVER_ERROR)]; [PrismaError]
    is what the database client throws when the server rejects a statement;
    [TypeError] is the error of the language itself, which no handler of the
    backend maps to a status (the caller gets a 500). *)
Inductive Exception :=
| BadRequestException (message : string)
| NotFoundException (message : string)
| ForbiddenException (message : string)
| InternalServerError (message : string)
| PrismaError (message : string)
| TypeError (message : string).

(** [e.message] *)
Definition errorMessage (e : Exception) : string :=
  match e with
  | BadRequestException m | NotFoundException m | ForbiddenException m
  | InternalServerError m | PrismaError m | TypeError m => m
  end.

Inductive Result (A : Type) :=
| Ok (a : A)
| Throw (e : Exception).
Arguments Ok {A} a.
Arguments Throw {A} e.

#[global] Instance result_ret : MRet Result := λ A a, Ok a.
#[global] Instance result_bind : MBind Result := λ A B f m,
  match m with
  | Ok a => f a
  | Throw e => Throw e
  end.

(** [if (cond) throw e;] *)
Definition throwIf (cond : bool) (e : Exception) : Result unit :=
  if cond then Throw e else Ok ().

(** [data.hasOwnProperty(k)] on a request body.  The method is looked up
    through [data]: an own property of that name shadows the built-in, and
    the value a JSON body gives it is never a function, so the call throws. *)
Definition hasOwnProperty (data : JsObject) (k : string) : Result bool :=
  match getProp data "hasOwnProperty" with
  | Some _ => Throw (TypeError "data.hasOwnProperty is not a function")
  | None => Ok (hasOwn data k)
  end.

(** ** model.types.ts *)

Inductive FieldType := TString | TNumber | TBoolean | TRelation | TDate.

#[global] Instance FieldType_eq_dec : EqDecision FieldType.
Proof. solve_decision. Defined.

(** The string a field type is in the source. *)
Definition fieldTypeName (t : FieldType) : string :=
  match t with
  | TString => "string"
  | TNumber => "number"
  | TBoolean => "boolean"
  | TRelation => "relation"
  | TDate => "date"
  end.

(** [required?], [unique?] and [targetModel?] are [None] when absent;
    [default?: any] is [JUndefined] when absent. *)
Record FieldDefinition := {
  fieldName : string;
  fieldType : FieldType;
  required : option bool;
  unique : option bool;
  fieldDefault : JsValue;
  targetModel : option string;
}.

Record ModelDefinition := {
  name : string;
  tableName : option string;
  ownerField : option string;
  fields : list FieldDefinition;
  rbac : option (gmap string (list string));
}.

Record DbColumnInfo := {
  column_name : string;
  data_type : string;
  is_nullable : string;
  column_default : option string;
}.

(** ** model-definitions.service.ts: identifiers and default values *)

Definition RESERVED_NAMES : list string := ["user"; "migration"; "enum"].

(** [/^[a-zA-Z_][a-zA-Z0-9_]*$/.test(name) && name.length > 0] *)
Definition isValidIdentifier (name : string) : bool :=
  match name with
  | EmptyString => false
  | String c rest =>
      (JsString.isUpper c || JsString.isLower c || JsString.isUnderscore c)
      && JsString.allChars JsString.isWordChar rest
  end
  && Nat.ltb 0 (String.length name).

Definition forbiddenKeywords : list string :=
  ["DROP"; "DELETE"; "INSERT"; "UPDATE"; "ALTER"; "CREATE"; "TABLE"; "SCHEMA"; "SELECT"].

(** [new RegExp(`\\b(${forbidden.join('|')})\\b`, 'i').test(valueStr)]: a
    keyword between two word boundaries is a maximal run of word characters
    that is the keyword up to case. *)
Definition mentionsForbiddenKeyword (valueStr : string) : bool :=
  existsb (λ w, JsString.arrayIncludes forbiddenKeywords (JsString.toUpperCase w))
          (JsString.wordRuns valueStr).

Section DefaultValues.
Context `{JsRuntime}.

Definition isValidDefaultValue (value : JsValue) (type : FieldType) : bool :=
    if strictEq value JNull || strictEq value JUndefined
       || strictEq value (JStr EmptyString) then true
    else
      let valueStr := ToString value in
      if JsString.includes valueStr ";" || JsString.includes valueStr "--" then false
      else if mentionsForbiddenKeyword valueStr then false
      else if bool_decide (type = TNumber) && isNaN (StringToNumber valueStr) then false
      else if bool_decide (type = TBoolean)
              && negb (String.eqb (JsString.toLowerCase valueStr) "true")
              && negb (String.eqb (JsString.toLowerCase valueStr) "false") then false
      else if bool_decide (type = TDate) && isNaN (DateParse valueStr) then false
      else true.

  (** [value !== undefined && value !== null && value !== ''] *)
Definition hasDefault (value : JsValue) : bool :=
    negb (strictEq value JUndefined) && negb (strictEq value JNull)
    && negb (strictEq value (JStr EmptyString)).

Definition quoteDefaultValue (value : JsValue) (type : FieldType) : Result string :=
    match type with
    | TString | TDate =>
        Ok ("'" +:+ JsString.doubleQuotes (ToString value) +:+ "'")
    | TBoolean =>
        Ok (if String.eqb (JsString.toLowerCase (ToString value)) "true"
            then "TRUE" else "FALSE")
    | TNumber | TRelation =>
        let num := ToNumber value in
        if isNaN num
        then Throw (BadRequestException
                      ("Invalid numeric default value: " +:+ ToString value))
        else Ok (NumberToString num)
    end.

Definition getDefaultValueForType (type : FieldType) : JsValue :=
    match type with
    | TString => JStr EmptyString
    | TNumber => JNum 0%float
    | TBoolean => JBool false
    | TDate => JStr "1970-01-01T00:00:00Z"
    | TRelation => JNull
    end.

End DefaultValues.

(** ** model-definitions.service.ts: type mapping *)

Definition mapDbTypeToFieldType (dbType : string) : option FieldType :=
  let lowerType := JsString.toLowerCase dbType in
  if JsString.includes lowerType "text" || JsString.includes lowerType "char"
     || JsString.includes lowerType "uuid" then Some TString
  else if JsString.includes lowerType "int" || JsString.includes lowerType "float"
          || JsString.includes lowerType "double"
          || JsString.includes lowerType "numeric"
          || JsString.includes lowerType "decimal" then Some TNumber
  else if JsString.includes lowerType "bool" then Some TBoolean
  else if JsString.includes lowerType "timestamp"
          || JsString.includes lowerType "date" then Some TDate
  else None.

(** The [default: return null] branch is for a type outside the union
    [FieldType] and has no counterpart here. *)
Definition mapFieldTypeToSqlType (fieldType : FieldType) : option string :=
  match fieldType with
  | TString => Some "TEXT"
  | TNumber => Some "FLOAT"
  | TBoolean => Some "BOOLEAN"
  | TDate => Some "TIMESTAMP WITH TIME ZONE"
  | TRelation => Some "INTEGER"
  end.

(** ** The SQL the backend sends *)

(** The double-quote character, which delimits identifiers in SQL text. *)
Definition dquote : string := String (ascii_of_nat 34) EmptyString.

(** A column clause as [mapFieldToSql] writes it:
    [<name> <type> (REFERENCES <target>(id) ON DELETE SET NULL)? (NOT NULL)?
    (UNIQUE)? (DEFAULT <default>)?], the parts kept apart. *)
Record ColumnSql := {
  col_name : string;
  col_type : string;
  col_references : option string;
  col_not_null : bool;
  col_unique : bool;
  col_default : option string;
}.

(** One constructor per statement template of the two services. *)
Inductive Sql :=
(* CREATE TABLE IF NOT EXISTS t (id SERIAL PRIMARY KEY, createdAt ..., updatedAt ..., columns) *)
| CreateTableIfNotExists (table : string) (userDefinedFields : list ColumnSql)
(* CREATE OR REPLACE FUNCTION update_updated_at_column() ... *)
| CreateUpdatedAtFunction
(* DROP TRIGGER IF EXISTS set_updated_at ON t *)
| DropTriggerIfExists (table : string)
(* CREATE TRIGGER set_updated_at BEFORE UPDATE ON t ... *)
| CreateTrigger (table : string)
(* DROP TABLE IF EXISTS t CASCADE *)
| DropTableIfExistsCascade (table : string)
(* ALTER TABLE t ADD COLUMN c *)
| AddColumn (table : string) (c : ColumnSql)
(* ALTER TABLE t DROP COLUMN IF EXISTS c CASCADE *)
| DropColumnIfExistsCascade (table column : string)
(* ALTER TABLE t ALTER COLUMN c TYPE ty using *)
| AlterColumnType (table column sqlType usingClause : string)
(* UPDATE t SET c = literal WHERE c IS NULL *)
| UpdateWhereNull (table column literal : string)
(* ALTER TABLE t ALTER COLUMN c SET NOT NULL / DROP NOT NULL *)
| SetNotNull (table column : string)
| DropNotNull (table column : string)
(* ALTER TABLE t ALTER COLUMN c SET DEFAULT d / DROP DEFAULT *)
| SetDefault (table column defaultSql : string)
| DropDefault (table column : string)
(* INSERT INTO t (columns) VALUES (values) RETURNING * *)
| InsertReturning (table : string) (columns : list string) (values : list JsValue)
(* SELECT * FROM t WHERE id = $1 *)
| SelectById (table : string) (id : float)
(* UPDATE t SET k1 = $1, ... WHERE id = $n RETURNING * *)
| UpdateReturning (table : string) (setClauses : JsObject) (id : float)
(* DELETE FROM t WHERE id = $1 RETURNING id *)
| DeleteReturningId (table : string) (id : float)
(* SELECT column_name, data_type, is_nullable, column_default
   FROM information_schema.columns WHERE table_name = $1 *)
| SelectColumns (table : string).

(** ** The database *)

Record Table := {
  tbl_columns : list DbColumnInfo;
  tbl_rows : list JsObject;
  tbl_serial : float;          (* next value of the id sequence *)
  tbl_trigger : bool;          (* set_updated_at is installed *)
  (* the identity of the table in the catalog: a table dropped and created
     again under the same name is another table *)
  tbl_oid : nat;
  (* the foreign keys of the table, each [column REFERENCES table(id) ON
     DELETE SET NULL] with the referenced table given by its identity; a key
     whose table is gone is a key that DROP TABLE ... CASCADE removed *)
  tbl_foreign_keys : list (string * nat);
}.

(** What the server decides outside this catalog model. *)
Class PgServer := {
  (** the server refuses the statement in this state (a cast that fails on
      the stored data, a violated constraint, a lost connection), with the
      message of the error *)
  pg_rejects : gmap string Table → Sql → option string;
  (** how [information_schema] prints the default expression of a column of
      the given data type *)
  pg_default_text : string → string → string;
  (** the value of an SQL literal or default expression *)
  pg_literal : string → JsValue;
  (** the value of a column after [ALTER COLUMN TYPE ty USING ...] *)
  pg_convert : string → string → JsValue → JsValue;
}.

Module Pg.

  (** [data_type] of [information_schema.columns] for a declared type. *)
Definition dataType (sqlType : string) : string :=
    if String.eqb sqlType "FLOAT" then "double precision"
    else JsString.toLowerCase sqlType.

Definition systemColumns (table : string) : list DbColumnInfo :=
    [ {| column_name := "id"; data_type := "integer"; is_nullable := "NO";
         column_default := Some ("nextval('" +:+ table +:+ "_id_seq'::regclass)") |};
      {| column_name := "createdAt"; data_type := "timestamp with time zone";
         is_nullable := "YES"; column_default := Some "CURRENT_TIMESTAMP" |};
      {| column_name := "updatedAt"; data_type := "timestamp with time zone";
         is_nullable := "YES"; column_default := Some "CURRENT_TIMESTAMP" |} ].

Definition columnNames (cols : list DbColumnInfo) : list string :=
    map column_name cols.

Definition hasColumn (t : Table) (c : string) : bool :=
    JsString.arrayIncludes (columnNames (tbl_columns t)) c.

Fixpoint noDuplicates (l : list string) : bool :=
    match l with
    | [] => true
    | x :: l' => negb (JsString.arrayIncludes l' x) && noDuplicates l'
    end.

Definition isNull (v : JsValue) : bool :=
    match v with JNull | JUndefined => true | _ => false end.

Inductive Outcome :=
  | Failed (message : string)
  | Done (rows : list JsObject) (db : gmap string Table).

Section Server.
Context `{PgServer}.

Definition columnInfo (c : ColumnSql) : DbColumnInfo :=
      {| column_name := col_name c;
         data_type := dataType (col_type c);
         is_nullable := if col_not_null c then "NO" else "YES";
         column_default := pg_default_text (dataType (col_type c)) <$> col_default c |}.

    (** the referenced table exists ([self] is the table being created) *)
Definition referenceOk (db : gmap string Table) (self : string) (c : ColumnSql) : bool :=
      match col_references c with
      | None => true
      | Some target =>
          String.eqb target self || bool_decide (is_Some (db !! target))
      end.

Definition initialValue (c : DbColumnInfo) : JsValue :=
      match column_default c with
      | Some d => pg_literal d
      | None => JNull
      end.

Definition mapColumn (c : string) (f : DbColumnInfo → DbColumnInfo)
        (cols : list DbColumnInfo) : list DbColumnInfo :=
      map (λ ci, if String.eqb (column_name ci) c then f ci else ci) cols.

Definition withColumns (t : Table) (cols : list DbColumnInfo) : Table :=
      {| tbl_columns := cols; tbl_rows := tbl_rows t;
         tbl_serial := tbl_serial t; tbl_trigger := tbl_trigger t;
         tbl_oid := tbl_oid t; tbl_foreign_keys := tbl_foreign_keys t |}.
Definition withRows (t : Table) (rows : list JsObject) : Table :=
      {| tbl_columns := tbl_columns t; tbl_rows := rows;
         tbl_serial := tbl_serial t; tbl_trigger := tbl_trigger t;
         tbl_oid := tbl_oid t; tbl_foreign_keys := tbl_foreign_keys t |}.
Definition withTrigger (t : Table) (b : bool) : Table :=
      {| tbl_columns := tbl_columns t; tbl_rows := tbl_rows t;
         tbl_serial := tbl_serial t; tbl_trigger := b;
         tbl_oid := tbl_oid t; tbl_foreign_keys := tbl_foreign_keys t |}.
Definition withForeignKeys (t : Table) (fks : list (string * nat)) : Table :=
      {| tbl_columns := tbl_columns t; tbl_rows := tbl_rows t;
         tbl_serial := tbl_serial t; tbl_trigger := tbl_trigger t;
         tbl_oid := tbl_oid t; tbl_foreign_keys := fks |}.

    (** an identity no table and no foreign key of the database has *)
Definition freshOid (db : gmap string Table) : nat :=
      S (map_fold (λ _ t n,
                     Nat.max n (Nat.max (tbl_oid t)
                                        (list_max (map snd (tbl_foreign_keys t)))))
                  0 db).

    (** the foreign key a column clause declares, on the table [self] of
        identity [oid]: the referenced table is [self] or a table of [db] *)
Definition foreignKeyOf (db : gmap string Table) (self : string) (oid : nat)
        (c : ColumnSql) : list (string * nat) :=
      match col_references c with
      | None => []
      | Some target =>
          if String.eqb target self then [(col_name c, oid)]
          else match db !! target with
               | Some t => [(col_name c, tbl_oid t)]
               | None => []
               end
      end.

    (** ON DELETE SET NULL on one row of a table with the foreign keys [fks]:
        every column that references the table [oid] and holds the deleted
        [id] becomes NULL *)
Definition setNull (oid : nat) (id : float) (fks : list (string * nat))
        (row : JsObject) : JsObject :=
      fold_left (λ r fk, if Nat.eqb fk.2 oid && strictEq (readProp r fk.1) (JNum id)
                         then assignOwn r fk.1 JNull else r)
                fks row.

Definition onDeleteSetNull (oid : nat) (id : float) (u : Table) : Table :=
      withRows u (map (setNull oid id (tbl_foreign_keys u)) (tbl_rows u)).

    (** the action would put NULL in a NOT NULL column of [u] *)
Definition setNullRefusedBy (oid : nat) (id : float) (u : Table) : bool :=
      existsb (λ r,
                 existsb (λ fk, Nat.eqb fk.2 oid
                                && strictEq (readProp r fk.1) (JNum id)
                                && existsb (λ ci, String.eqb (column_name ci) fk.1
                                                  && String.eqb (is_nullable ci) "NO")
                                           (tbl_columns u))
                         (tbl_foreign_keys u))
              (tbl_rows u).

Definition setNullRefused (oid : nat) (id : float) (db : gmap string Table) : bool :=
      existsb (λ kv, setNullRefusedBy oid id kv.2) (map_to_list db).

Definition rowHasId (id : float) (row : JsObject) : bool :=
      strictEq (readProp row "id") (JNum id).

    (** the table without its rows of the given id *)
Definition withoutId (id : float) (t : Table) : Table :=
      withRows t (List.filter (λ r, negb (rowHasId id r)) (tbl_rows t)).

    (** the row an INSERT stores: every column of the table, in order, with
        the bound value, the system value or the column default *)
Definition insertedRow (now : float) (t : Table) (given : JsObject) : JsObject :=
      map (λ ci,
             let c := column_name ci in
             (c, match getProp given c with
                 | Some v => v
                 | None =>
                     if String.eqb c "id" then JNum (tbl_serial t)
                     else if String.eqb c "createdAt" || String.eqb c "updatedAt"
                          then JDate now
                          else initialValue ci
                 end))
          (tbl_columns t).

Definition violatesNotNull (t : Table) (row : JsObject) : bool :=
      existsb (λ ci, String.eqb (is_nullable ci) "NO"
                     && isNull (readProp row (column_name ci)))
              (tbl_columns t).

Definition applySets (sets : JsObject) (row : JsObject) : JsObject :=
      fold_left (λ r kv, assignOwn r kv.1 kv.2) sets row.

Definition noSuchTable (table : string) : Outcome :=
      Failed ("relation " +:+ dquote +:+ table +:+ dquote +:+ " does not exist").
Definition noSuchColumn (table column : string) : Outcome :=
      Failed ("column " +:+ dquote +:+ column +:+ dquote +:+ " of relation "
              +:+ dquote +:+ table +:+ dquote +:+ " does not exist").

    (** a statement on an existing column of an existing table *)
Definition onColumn (db : gmap string Table) (table column : string)
        (k : Table → Outcome) : Outcome :=
      match db !! table with
      | None => noSuchTable table
      | Some t => if hasColumn t column then k t else noSuchColumn table column
      end.

    (** One statement, at server time [now]. *)
Definition exec (now : float) (q : Sql) (db : gmap string Table) : Outcome :=
      match pg_rejects db q with
      | Some msg => Failed msg
      | None =>
        match q with
        | CreateTableIfNotExists table cols =>
            match db !! table with
            | Some _ => Done [] db
            | None =>
                if negb (forallb (referenceOk db table) cols)
                then Failed "referenced relation does not exist"
                else if negb (noDuplicates (columnNames (systemColumns table)
                                            ++ map col_name cols))
                then Failed "column specified more than once"
                else Done [] (<[table :=
                       {| tbl_columns := systemColumns table ++ map columnInfo cols;
                          tbl_rows := []; tbl_serial := 1%float;
                          tbl_trigger := false;
                          tbl_oid := freshOid db;
                          tbl_foreign_keys :=
                            concat (map (foreignKeyOf db table (freshOid db)) cols)
                       |}]> db)
            end
        | CreateUpdatedAtFunction => Done [] db
        | DropTriggerIfExists table =>
            match db !! table with
            | None => Done [] db
            | Some t => Done [] (<[table := withTrigger t false]> db)
            end
        | CreateTrigger table =>
            match db !! table with
            | None => noSuchTable table
            | Some t =>
                if tbl_trigger t then Failed "trigger set_updated_at already exists"
                else Done [] (<[table := withTrigger t true]> db)
            end
        | DropTableIfExistsCascade table => Done [] (delete table db)
        | AddColumn table c =>
            match db !! table with
            | None => noSuchTable table
            | Some t =>
                if hasColumn t (col_name c) then Failed "column already exists"
                else if negb (referenceOk db table c)
                then Failed "referenced relation does not exist"
                else
                  let ci := columnInfo c in
                  if col_not_null c && Nat.ltb 0 (length (tbl_rows t))
                     && isNull (initialValue ci)
                  then Failed "column contains null values"
                  else Done [] (<[table :=
                         withForeignKeys
                           (withRows (withColumns t (tbl_columns t ++ [ci]))
                              (map (λ r, r ++ [(col_name c, initialValue ci)])
                                   (tbl_rows t)))
                           (tbl_foreign_keys t
                            ++ foreignKeyOf db table (tbl_oid t) c)]> db)
            end
        | DropColumnIfExistsCascade table column =>
            match db !! table with
            | None => noSuchTable table
            | Some t =>
                Done [] (<[table :=
                  withForeignKeys
                    (withRows
                       (withColumns t (filter (λ ci, column_name ci ≠ column)
                                              (tbl_columns t)))
                       (map (λ r, deleteProp r column) (tbl_rows t)))
                    (filter (λ fk, fk.1 ≠ column) (tbl_foreign_keys t))]> db)
            end
        | AlterColumnType table column sqlType usingClause =>
            onColumn db table column (λ t,
              Done [] (<[table :=
                withRows
                  (withColumns t
                     (mapColumn column
                        (λ ci, {| column_name := column_name ci;
                                  data_type := dataType sqlType;
                                  is_nullable := is_nullable ci;
                                  column_default := column_default ci |})
                        (tbl_columns t)))
                  (map (λ r, assignOwn r column
                               (pg_convert sqlType usingClause (readProp r column)))
                       (tbl_rows t))]> db))
        | UpdateWhereNull table column literal =>
            onColumn db table column (λ t,
              Done [] (<[table :=
                withRows t
                  (map (λ r, if isNull (readProp r column)
                             then assignOwn r column (pg_literal literal) else r)
                       (tbl_rows t))]> db))
        | SetNotNull table column =>
            onColumn db table column (λ t,
              if existsb (λ r, isNull (readProp r column)) (tbl_rows t)
              then Failed "column contains null values"
              else Done [] (<[table :=
                withColumns t
                  (mapColumn column
                     (λ ci, {| column_name := column_name ci;
                               data_type := data_type ci;
                               is_nullable := "NO";
                               column_default := column_default ci |})
                     (tbl_columns t))]> db))
        | DropNotNull table column =>
            onColumn db table column (λ t,
              Done [] (<[table :=
                withColumns t
                  (mapColumn column
                     (λ ci, {| column_name := column_name ci;
                               data_type := data_type ci;
                               is_nullable := "YES";
                               column_default := column_default ci |})
                     (tbl_columns t))]> db))
        | SetDefault table column defaultSql =>
            onColumn db table column (λ t,
              Done [] (<[table :=
                withColumns t
                  (mapColumn column
                     (λ ci, {| column_name := column_name ci;
                               data_type := data_type ci;
                               is_nullable := is_nullable ci;
                               column_default :=
                                 Some (pg_default_text (data_type ci) defaultSql) |})
                     (tbl_columns t))]> db))
        | DropDefault table column =>
            onColumn db table column (λ t,
              Done [] (<[table :=
                withColumns t
                  (mapColumn column
                     (λ ci, {| column_name := column_name ci;
                               data_type := data_type ci;
                               is_nullable := is_nullable ci;
                               column_default := None |})
                     (tbl_columns t))]> db))
        | InsertReturning table columns values =>
            match db !! table with
            | None => noSuchTable table
            | Some t =>
                if negb (forallb (hasColumn t) columns)
                then Failed "column of relation does not exist"
                else
                  let row := insertedRow now t (zip columns values) in
                  if violatesNotNull t row
                  then Failed "null value violates not-null constraint"
                  else Done [row]
                         (<[table :=
                            {| tbl_columns := tbl_columns t;
                               tbl_rows := tbl_rows t ++ [row];
                               tbl_serial := (tbl_serial t + 1)%float;
                               tbl_trigger := tbl_trigger t;
                               tbl_oid := tbl_oid t;
                               tbl_foreign_keys := tbl_foreign_keys t |}]> db)
            end
        | SelectById table id =>
            match db !! table with
            | None => noSuchTable table
            | Some t => Done (List.filter (rowHasId id) (tbl_rows t)) db
            end
        | UpdateReturning table sets id =>
            match db !! table with
            | None => noSuchTable table
            | Some t =>
                if negb (forallb (hasColumn t) (keys sets))
                then Failed "column of relation does not exist"
                else
                  let upd r :=
                    let r' := applySets sets r in
                    if tbl_trigger t then assignOwn r' "updatedAt" (JDate now) else r' in
                  let rows' :=
                    map (λ r, if rowHasId id r then upd r else r) (tbl_rows t) in
                  if existsb (violatesNotNull t) rows'
                  then Failed "null value violates not-null constraint"
                  else Done (List.filter (rowHasId id) rows')
                            (<[table := withRows t rows']> db)
            end
        | DeleteReturningId table id =>
            match db !! table with
            | None => noSuchTable table
            | Some t =>
                let deleted := List.filter (rowHasId id) (tbl_rows t) in
                let db' := <[table := withoutId id t]> db in
                if Nat.eqb (length deleted) 0 then Done [] db
                else if setNullRefused (tbl_oid t) id db'
                then Failed "null value violates not-null constraint"
                else Done (map (λ r, [("id", readProp r "id")]) deleted)
                          (onDeleteSetNull (tbl_oid t) id <$> db')
            end
        | SelectColumns table => Done [] db
        end
      end.

    (** [$transaction]: the statements in order, all of them or none. *)
Fixpoint transaction (now : float) (qs : list Sql) (db : gmap string Table)
        : Outcome :=
      match qs with
      | [] => Done [] db
      | q :: qs' =>
          match exec now q db with
          | Failed msg => Failed msg
          | Done _ db' => transaction now qs' db'
          end
      end.

    (** The rows of the catalog query of [getTableSchema]; [None] when the
        query fails. *)
Definition selectColumns (db : gmap string Table) (table : string)
        : option (list DbColumnInfo) :=
      match pg_rejects db (SelectColumns table) with
      | Some _ => None
      | None => Some (match db !! table with
                      | Some t => tbl_columns t
                      | None => []
                      end)
      end.

End Server.
End Pg.

(** ** The state of the backend *)

(** The database, the [models] directory (one document per model name; a
    document is kept as the definition it parses to), the in-memory registry
    and the clock. *)
Record World := {
  database : gmap string Table;
  documents : gmap string ModelDefinition;
  cache : gmap string ModelDefinition;
  now : float;
}.

Definition M (A : Type) : Type := World → Result A * World.

#[global] Instance M_ret : MRet M := λ A a w, (Ok a, w).
#[global] Instance M_bind : MBind M := λ A B f m w,
  match m w with
  | (Ok a, w') => f a w'
  | (Throw e, w') => (Throw e, w')
  end.

Definition throw {A} (e : Exception) : M A := λ w, (Throw e, w).
Definition lift {A} (r : Result A) : M A := λ w, (r, w).
Definition getWorld : M World := λ w, (Ok w, w).

(** [try { m } catch (e) { h e }] *)
Definition tryCatch {A} (m : M A) (h : Exception → M A) : M A := λ w,
  match m w with
  | (Throw e, w') => h e w'
  | r => r
  end.

Definition setDatabase (db : gmap string Table) : M unit := λ w,
  (Ok (), {| database := db; documents := documents w; cache := cache w; now := now w |}).
Definition setDocuments (docs : gmap string ModelDefinition) : M unit := λ w,
  (Ok (), {| database := database w; documents := docs; cache := cache w; now := now w |}).
Definition setCache (c : gmap string ModelDefinition) : M unit := λ w,
  (Ok (), {| database := database w; documents := documents w; cache := c; now := now w |}).

Fixpoint mapResult {A B} (f : A → Result B) (l : list A) : Result (list B) :=
  match l with
  | [] => Ok []
  | x :: l' => y ← f x; ys ← mapResult f l'; Ok (y :: ys)
  end.

(** A length or a count in a template string. *)
Definition natToString (n : nat) : string :=
  match n with
  | O => "0"
  | _ => DecimalString.NilEmpty.string_of_uint (Nat.to_uint n)
  end.

Section Prisma.
Context `{PgServer}.

  (** [prisma.$queryRaw] and [prisma.$executeRawUnsafe] of one statement. *)
Definition queryRaw (q : Sql) : M (list JsObject) := λ w,
    match Pg.exec (now w) q (database w) with
    | Pg.Failed msg => (Throw (PrismaError msg), w)
    | Pg.Done rows db => (Ok rows, {| database := db; documents := documents w;
                                      cache := cache w; now := now w |})
    end.

  (** [prisma.$transaction] of a list of statements. *)
Definition runTransaction (qs : list Sql) : M unit := λ w,
    match Pg.transaction (now w) qs (database w) with
    | Pg.Failed msg => (Throw (PrismaError msg), w)
    | Pg.Done _ db => (Ok (), {| database := db; documents := documents w;
                                 cache := cache w; now := now w |})
    end.
End Prisma.

(** ** model-definition.cache.service.ts *)

Module ModelDefinitionCacheService.

Definition withTableName (md : ModelDefinition) (t : string) : ModelDefinition :=
    {| name := name md; tableName := Some t; ownerField := ownerField md;
       fields := fields md; rbac := rbac md |}.

  (** A missing document is logged and leaves the registry as it is. *)
Definition loadModel (modelName : string) : M unit :=
    w ← getWorld;
    match documents w !! modelName with
    | None => mret ()
    | Some modelDef =>
        let modelDef :=
          if negb (truthyStr (tableName modelDef))
          then withTableName modelDef (JsString.toLowerCase (name modelDef))
          else modelDef in
        setCache (<[modelName := modelDef]> (cache w))
    end.

Definition removeModel (modelName : string) : M unit :=
    w ← getWorld;
    setCache (delete modelName (cache w)).

Definition getModel (registry : gmap string ModelDefinition) (modelName : string)
      : Result ModelDefinition :=
    match registry !! modelName with
    | Some modelDef => Ok modelDef
    | None => Throw (NotFoundException
                       ("Model definition for '" +:+ modelName
                        +:+ "' not found or not cached."))
    end.

End ModelDefinitionCacheService.

(** ** model-definitions.service.ts *)

Module ModelDefinitionsService.

  (** [{ message, changes? }] *)
Record Response := {
    message : string;
    changes : option (list string);
  }.

  (** [{ ...response, model }] *)
Record PublishResponse := {
    response : Response;
    model : ModelDefinition;
  }.

Definition identifierRule : string :=
    " It must start with a letter or underscore and contain only letters, numbers, or underscores.".

  (** [`${modelDefinition.tableName}`] *)
Definition tableNameText (md : ModelDefinition) : string :=
    match tableName md with Some t => t | None => "undefined" end.

Definition findField (fs : list FieldDefinition) (n : string) : option FieldDefinition :=
    List.find (λ f, String.eqb (fieldName f) n) fs.

Section Service.
Context `{JsRuntime} `{PgServer}.

    (** *** validateModelDefinition *)

    (** the [if (field.type === 'relation')] block of the loop; the registry
        lookup throws by itself when the target is unknown *)
Definition validateRelation (registry : gmap string ModelDefinition)
        (field : FieldDefinition) : Result unit :=
      if bool_decide (fieldType field = TRelation) then
        throwIf (negb (truthyStr (targetModel field)))
          (BadRequestException ("Target model is required for relation field '"
                                +:+ fieldName field +:+ "'."));;
        let target := default EmptyString (targetModel field) in
        throwIf (negb (isValidIdentifier target))
          (BadRequestException ("Invalid target model name '" +:+ target
                                +:+ "' for relation field '" +:+ fieldName field +:+ "'."));;
        ModelDefinitionCacheService.getModel registry target;;
        Ok ()
      else Ok ().

    (** the loop [for (const field of modelDefinition.fields)], with the set
        [fieldNames] of the lower-cased names seen so far *)
Fixpoint validateFields (registry : gmap string ModelDefinition)
        (modelName : string) (fieldNames : gset string)
        (fs : list FieldDefinition) : Result unit :=
      match fs with
      | [] => Ok ()
      | field :: rest =>
          throwIf (negb (isValidIdentifier (fieldName field)))
            (BadRequestException
               ("Invalid field name '" +:+ fieldName field
                +:+ "'. Field names must start with a letter or underscore and contain only letters, numbers, or underscores."));;
          throwIf (bool_decide (JsString.toLowerCase (fieldName field) ∈ fieldNames))
            (BadRequestException
               ("Duplicate field name '" +:+ fieldName field +:+ "' in model '"
                +:+ modelName +:+ "'."));;
          validateRelation registry field;;
          throwIf (negb (strictEq (fieldDefault field) JUndefined)
                   && negb (isValidDefaultValue (fieldDefault field) (fieldType field)))
            (BadRequestException
               ("Invalid or unsafe default value for field '" +:+ fieldName field
                +:+ "' of type '" +:+ fieldTypeName (fieldType field) +:+ "'."));;
          validateFields registry modelName
            ({[JsString.toLowerCase (fieldName field)]} ∪ fieldNames) rest
      end.

Definition validateOwnerField (md : ModelDefinition) : Result unit :=
      if truthyStr (ownerField md) then
        let owner := default EmptyString (ownerField md) in
        throwIf (negb (isValidIdentifier owner))
          (BadRequestException ("The ownerField name '" +:+ owner
                                +:+ "' is not valid." +:+ identifierRule));;
        match findField (fields md) owner with
        | Some ownerFieldDef =>
            throwIf (negb (bool_decide (fieldType ownerFieldDef = TNumber)))
              (BadRequestException
                 ("The ownerField '" +:+ owner
                  +:+ "' must be of type 'number' (to store user IDs)."))
        | None => Ok ()
        end
      else Ok ().

    (** [fields] is an array in every definition, so of
        [!modelDefinition.name || !modelDefinition.fields] only the name can
        be falsy. *)
Definition validateModelDefinition (registry : gmap string ModelDefinition)
        (md : ModelDefinition) : Result unit :=
      throwIf (JsString.isEmpty (name md))
        (BadRequestException "Model name and fields array are required.");;
      throwIf (negb (isValidIdentifier (name md)))
        (BadRequestException ("Model name '" +:+ name md +:+ "' is not valid."
                              +:+ identifierRule));;
      throwIf (JsString.arrayIncludes RESERVED_NAMES (JsString.toLowerCase (name md)))
        (BadRequestException ("The model name '" +:+ name md
                              +:+ "' is a reserved keyword. Please choose a different name."));;
      throwIf (truthyStr (tableName md)
               && negb (isValidIdentifier (default EmptyString (tableName md))))
        (BadRequestException ("Table name '" +:+ default EmptyString (tableName md)
                              +:+ "' is not valid." +:+ identifierRule));;
      validateFields registry (name md) ∅ (fields md);;
      validateOwnerField md.

    (** *** Schema synthesis *)

Definition mapFieldToSql (field : FieldDefinition) : Result ColumnSql :=
      throwIf (negb (isValidIdentifier (fieldName field)))
        (BadRequestException ("Invalid field name '" +:+ fieldName field
                              +:+ "' for SQL identifier."));;
      match mapFieldTypeToSqlType (fieldType field) with
      | None =>
          Throw (BadRequestException
                   ("Unsupported field type: " +:+ fieldTypeName (fieldType field)))
      | Some sqlType =>
          references ←
            (if bool_decide (fieldType field = TRelation) then
               throwIf (negb (truthyStr (targetModel field)))
                 (BadRequestException ("Target model is required for relation field '"
                                       +:+ fieldName field +:+ "'."));;
               let target := default EmptyString (targetModel field) in
               throwIf (negb (isValidIdentifier target))
                 (BadRequestException ("Invalid target model name '" +:+ target
                                       +:+ "' for relation field '"
                                       +:+ fieldName field +:+ "'."));;
               Ok (Some (JsString.toLowerCase target))
             else Ok None);
          defaultSql ←
            (if hasDefault (fieldDefault field) then
               throwIf (negb (isValidDefaultValue (fieldDefault field) (fieldType field)))
                 (BadRequestException
                    ("Invalid default value for field '" +:+ fieldName field
                     +:+ "'. Potential SQL injection or type mismatch detected."));;
               d ← quoteDefaultValue (fieldDefault field) (fieldType field);
               Ok (Some d)
             else Ok None);
          Ok {| col_name := fieldName field;
                col_type := sqlType;
                col_references := references;
                col_not_null := truthyBool (required field);
                col_unique := truthyBool (unique field);
                col_default := defaultSql |}
      end.

Definition createTable (md : ModelDefinition) : M Response :=
      if Nat.eqb (length (fields md)) 0 then
        throw (BadRequestException "A model must have at least one valid field.")
      else
        let tableName := tableNameText md in
        userDefinedFields ← lift (mapResult mapFieldToSql (fields md));
        tryCatch
          (runTransaction [ CreateTableIfNotExists tableName userDefinedFields;
                            CreateUpdatedAtFunction;
                            DropTriggerIfExists tableName;
                            CreateTrigger tableName ];;
           mret {| message := "Model '" +:+ name md
                              +:+ "' published and table created successfully!";
                   changes := None |})
          (λ error,
             throw (InternalServerError
                      "Failed to create database table. Check field names, types, or if a table with this name already exists.")).

    (** *** migrateTable: the plan *)

Definition protectedColumns (md : ModelDefinition) : list string :=
      ["id"; "createdAt"; "updatedAt"]
      ++ (if truthyStr (ownerField md)
          then [default EmptyString (ownerField md)] else []).

Definition existingColumnNames (currentSchema : list DbColumnInfo) : list string :=
      map column_name currentSchema.
Definition newFieldNames (md : ModelDefinition) : list string :=
      map fieldName (fields md).

Definition columnsToAdd (md : ModelDefinition) (currentSchema : list DbColumnInfo)
        : list FieldDefinition :=
      List.filter
        (λ field, negb (JsString.arrayIncludes (existingColumnNames currentSchema)
                                               (fieldName field)))
        (fields md).

Definition columnsToDrop (md : ModelDefinition) (currentSchema : list DbColumnInfo)
        : list string :=
      List.filter
        (λ col, negb (JsString.arrayIncludes (newFieldNames md) col)
                && negb (JsString.arrayIncludes (protectedColumns md) col))
        (existingColumnNames currentSchema).

    (** A plan: [migrationQueries] and [migrationLog], which grow together. *)
Definition Plan : Type := list Sql * list string.
Definition planApp (p q : Plan) : Plan := (p.1 ++ q.1, p.2 ++ q.2).

Definition addColumnPlan (tableName : string) (field : FieldDefinition)
        : Result Plan :=
      fieldSql ← mapFieldToSql field;
      Ok ([AddColumn tableName fieldSql],
          ["➕ Adding column: " +:+ fieldName field +:+ " ("
           +:+ fieldTypeName (fieldType field) +:+ ")"]).

Definition dropColumnPlan (tableName : string) (columnName : string) : Plan :=
      ([DropColumnIfExistsCascade tableName columnName],
       ["➖ Removing column: " +:+ columnName]).

Definition usingClauseFor (field : FieldDefinition) : string :=
      let q := dquote +:+ fieldName field +:+ dquote in
      match fieldType field with
      | TString => "USING " +:+ q +:+ "::TEXT"
      | TNumber => "USING CASE WHEN " +:+ q +:+ "::TEXT ~ '^[0-9.]+$' THEN " +:+ q
                   +:+ "::TEXT::FLOAT ELSE 0 END"
      | TBoolean => "USING CASE WHEN " +:+ q +:+ "::TEXT ILIKE 'true' THEN TRUE WHEN "
                    +:+ q +:+ "::TEXT ILIKE 'false' THEN FALSE ELSE NULL END"
      | TDate => "USING " +:+ q +:+ "::TIMESTAMP WITH TIME ZONE"
      | TRelation => EmptyString
      end.

Definition typeChangePlan (tableName : string) (field : FieldDefinition)
        (existingColumn : DbColumnInfo) : Plan :=
      match mapDbTypeToFieldType (data_type existingColumn),
            mapFieldTypeToSqlType (fieldType field) with
      | Some currentFieldType, Some newSqlType =>
          if negb (bool_decide (currentFieldType = fieldType field)) then
            ([AlterColumnType tableName (fieldName field) newSqlType
                (usingClauseFor field)],
             ["🔄 Changing column type: " +:+ fieldName field +:+ " ("
              +:+ fieldTypeName currentFieldType +:+ " → "
              +:+ fieldTypeName (fieldType field) +:+ ")"])
          else ([], [])
      | _, _ => ([], [])
      end.

Definition nullabilityPlan (tableName : string) (field : FieldDefinition)
        (existingColumn : DbColumnInfo) : Result Plan :=
      let isCurrentlyNullable := String.eqb (is_nullable existingColumn) "YES" in
      let shouldBeRequired := bool_decide (required field = Some true) in
      if shouldBeRequired && isCurrentlyNullable then
        (* [defaultValue !== undefined] holds for every type *)
        literal ← quoteDefaultValue (getDefaultValueForType (fieldType field))
                                    (fieldType field);
        Ok ([UpdateWhereNull tableName (fieldName field) literal;
             SetNotNull tableName (fieldName field)],
            ["➡️ Setting default for NULLs before making '" +:+ fieldName field
             +:+ "' NOT NULL.";
             "🔒 Making column required: " +:+ fieldName field])
      else if negb shouldBeRequired && negb isCurrentlyNullable then
        Ok ([DropNotNull tableName (fieldName field)],
            ["🔓 Making column optional: " +:+ fieldName field])
      else Ok ([], []).

Definition defaultPlan (tableName : string) (field : FieldDefinition)
        (existingColumn : DbColumnInfo) : Result Plan :=
      newDefaultSql ←
        (if hasDefault (fieldDefault field)
         then d ← quoteDefaultValue (fieldDefault field) (fieldType field); Ok (Some d)
         else Ok None);
      let currentDefaultSql := column_default existingColumn in
      if negb (bool_decide (newDefaultSql = currentDefaultSql)) then
        if truthyStr newDefaultSql then
          let d := default EmptyString newDefaultSql in
          Ok ([SetDefault tableName (fieldName field) d],
              ["➡️ Setting default for '" +:+ fieldName field +:+ "' to " +:+ d +:+ "."])
        else if truthyStr currentDefaultSql then
          Ok ([DropDefault tableName (fieldName field)],
              ["➡️ Removing default for '" +:+ fieldName field +:+ "'."])
        else Ok ([], [])
      else Ok ([], []).

    (** the body of [for (const field of newFields)] *)
Definition fieldPlan (md : ModelDefinition) (currentSchema : list DbColumnInfo)
        (field : FieldDefinition) : Result Plan :=
      match List.find (λ c, String.eqb (column_name c) (fieldName field)) currentSchema with
      | Some existingColumn =>
          if negb (JsString.arrayIncludes (protectedColumns md) (fieldName field)) then
            let tableName := tableNameText md in
            let p1 := typeChangePlan tableName field existingColumn in
            p2 ← nullabilityPlan tableName field existingColumn;
            p3 ← defaultPlan tableName field existingColumn;
            Ok (planApp p1 (planApp p2 p3))
          else Ok ([], [])
      | None => Ok ([], [])
      end.

Definition concatPlans (ps : list Plan) : Plan :=
      fold_right planApp ([], []) ps.

    (** [migrationQueries] and [migrationLog] when the three loops are over *)
Definition migrationPlan (md : ModelDefinition) (currentSchema : list DbColumnInfo)
        : Result Plan :=
      adds ← mapResult (addColumnPlan (tableNameText md)) (columnsToAdd md currentSchema);
      let drops := map (dropColumnPlan (tableNameText md)) (columnsToDrop md currentSchema) in
      changes ← mapResult (fieldPlan md currentSchema) (fields md);
      Ok (planApp (concatPlans adds) (planApp (concatPlans drops) (concatPlans changes))).

Definition upToDate (md : ModelDefinition) : Response :=
      {| message := "ℹ️ Model '" +:+ name md
                    +:+ "' is already up to date — no schema changes needed.";
         changes := Some [] |}.

Definition migrateTable (md : ModelDefinition) (currentSchema : list DbColumnInfo)
        : M Response :=
      plan ← lift (migrationPlan md currentSchema);
      let migrationQueries := plan.1 in
      let migrationLog := plan.2 in
      if Nat.eqb (length migrationQueries) 0 then mret (upToDate md)
      else
        tryCatch
          (runTransaction migrationQueries;;
           mret {| message := "✅ Model '" +:+ name md +:+ "' updated successfully with "
                              +:+ natToString (length migrationQueries)
                              +:+ " schema change(s).";
                   changes := Some migrationLog |})
          (λ error,
             throw (InternalServerError
                      ("Failed to update database schema: " +:+ errorMessage error))).

    (** a failed catalog query is logged and read as no columns *)
Definition getTableSchema (tableName : string) : M (list DbColumnInfo) :=
      w ← getWorld;
      mret (default [] (Pg.selectColumns (database w) tableName)).

    (** *** publishModel *)

Definition defaultRbac : gmap string (list string) :=
      <["Admin" := ["all"]]> (<["Manager" := ["create"; "read"; "update"]]>
        (<["Viewer" := ["read"]]> ∅)).

    (** the definition after the three in-place completions of [publishModel]:
        table name, default policy, owner field *)
Definition completeDefinition (md : ModelDefinition) : ModelDefinition :=
      let tableName' :=
        if truthyStr (tableName md) then tableName md
        else Some (JsString.toLowerCase (name md)) in
      let rbac' := match rbac md with Some r => Some r | None => Some defaultRbac end in
      let fields' :=
        if truthyStr (ownerField md)
           && negb (bool_decide (is_Some (findField (fields md)
                                            (default EmptyString (ownerField md)))))
        then fields md ++ [ {| fieldName := default EmptyString (ownerField md);
                               fieldType := TNumber;
                               required := Some false;
                               unique := None;
                               fieldDefault := JUndefined;
                               targetModel := None |} ]
        else fields md in
      {| name := name md; tableName := tableName'; ownerField := ownerField md;
         fields := fields'; rbac := rbac' |}.

    (** [fs.writeFileSync(filePath, JSON.stringify(modelDefinition, null, 2))] *)
Definition writeDocument (modelName : string) (md : ModelDefinition) : M unit :=
      w ← getWorld;
      setDocuments (<[modelName := md]> (documents w)).

Definition publishModel (modelDefinition : ModelDefinition) : M PublishResponse :=
      w ← getWorld;
      lift (validateModelDefinition (cache w) modelDefinition);;
      let modelName := name modelDefinition in
      let modelDefinition := completeDefinition modelDefinition in
      currentSchema ← getTableSchema (tableNameText modelDefinition);
      let tableExists := Nat.ltb 0 (length currentSchema) in
      response ← (if negb tableExists then createTable modelDefinition
                  else migrateTable modelDefinition currentSchema);
      writeDocument modelName modelDefinition;;
      ModelDefinitionCacheService.loadModel modelName;;
      mret {| response := response; model := modelDefinition |}.

    (** *** deleteModel *)

Definition deleteModel (modelName : string) : M string :=
      if negb (isValidIdentifier modelName) then
        throw (BadRequestException "Invalid model name provided.")
      else
        let tableName := JsString.toLowerCase modelName in
        w ← getWorld;
        if negb (bool_decide (is_Some (documents w !! modelName))) then
          throw (NotFoundException ("Model definition file for '" +:+ modelName
                                    +:+ "' not found."))
        else
          tryCatch
            (queryRaw (DropTableIfExistsCascade tableName);;
             w' ← getWorld;
             setDocuments (delete modelName (documents w'));;
             ModelDefinitionCacheService.removeModel modelName;;
             mret ("Model '" +:+ modelName +:+ "' and its table deleted successfully."))
            (λ error,
               throw (InternalServerError
                        "Failed to delete model and table due to a database error.")).

End Service.
End ModelDefinitionsService.

(** ** dynamic-api.service.ts *)

Module DynamicApiService.
Section Service.
Context `{JsRuntime} `{PgServer}.

    (** the registry throws before [if (!model)] is reached *)
Definition getModel (modelName : string) : M ModelDefinition :=
      w ← getWorld;
      lift (ModelDefinitionCacheService.getModel (cache w) modelName).

    (** one turn of [for (const field of fields)] on [sanitizedData]; the
        call of [data.hasOwnProperty] can throw *)
Definition sanitizeField (data : JsObject) (sanitizedData : JsObject)
        (field : FieldDefinition) : Result JsObject :=
      let key := fieldName field in
      hasOwnProperty data key ≫= λ own : bool,
      if own then
        let value := readProp data key in
        if strictEq value JNull || strictEq value JUndefined
           || strictEq value (JStr EmptyString) then Ok sanitizedData
        else if bool_decide (fieldType field = TNumber)
                || bool_decide (fieldType field = TRelation) then
          let numValue := ToNumber value in
          if isNaN numValue then Ok sanitizedData
          else Ok (setProp sanitizedData key (JNum numValue))
        else if bool_decide (fieldType field = TBoolean) then
          Ok (setProp sanitizedData key (JBool (truthy value)))
        else Ok (setProp sanitizedData key value)
      else Ok sanitizedData.

Fixpoint sanitizeFields (data : JsObject) (sanitizedData : JsObject)
        (fields : list FieldDefinition) : Result JsObject :=
      match fields with
      | [] => Ok sanitizedData
      | field :: rest =>
          sanitizedData' ← sanitizeField data sanitizedData field;
          sanitizeFields data sanitizedData' rest
      end.

Definition validateAndSanitizeData (data : JsObject) (fields : list FieldDefinition)
        : Result JsObject :=
      sanitizeFields data [] fields.

    (** The same loop on a body without an own [hasOwnProperty], where every
        call is the built-in and none throws ([coerced_spec] relates the
        two); the lemmas on the coerced payload are stated on it. *)
Definition coerceField (data : JsObject) (sanitizedData : JsObject)
        (field : FieldDefinition) : JsObject :=
      let key := fieldName field in
      if hasOwn data key then
        let value := readProp data key in
        if strictEq value JNull || strictEq value JUndefined
           || strictEq value (JStr EmptyString) then sanitizedData
        else if bool_decide (fieldType field = TNumber)
                || bool_decide (fieldType field = TRelation) then
          let numValue := ToNumber value in
          if isNaN numValue then sanitizedData
          else setProp sanitizedData key (JNum numValue)
        else if bool_decide (fieldType field = TBoolean) then
          setProp sanitizedData key (JBool (truthy value))
        else setProp sanitizedData key value
      else sanitizedData.

Definition coerced (data : JsObject) (fields : list FieldDefinition) : JsObject :=
      fold_left (coerceField data) fields [].

    (** [model.tableName || model.name.toLowerCase()] *)
Definition tableOf (model : ModelDefinition) : string :=
      if truthyStr (tableName model) then default EmptyString (tableName model)
      else JsString.toLowerCase (name model).

    (** [e.message.split('ERROR: ').pop()?.split('\n')[0] || e.message] *)
Definition trimmedMessage (e : Exception) : string :=
      let line := JsString.firstLine (JsString.afterLast "ERROR: " (errorMessage e)) in
      if JsString.isEmpty line then errorMessage e else line.

    (** [if (model.ownerField && ownerId !== undefined)
        sanitizedData[model.ownerField] = ownerId] *)
Definition withOwner (model : ModelDefinition) (ownerId : option float)
        (sanitizedData : JsObject) : JsObject :=
      match ownerId with
      | Some owner =>
          if truthyStr (ownerField model)
          then setProp sanitizedData (default EmptyString (ownerField model)) (JNum owner)
          else sanitizedData
      | None => sanitizedData
      end.

    (** [sanitizedData] of [create], after the owner is forced *)
Definition createData (model : ModelDefinition) (data : JsObject)
        (ownerId : option float) : Result JsObject :=
      sanitizedData ← validateAndSanitizeData data (fields model);
      Ok (withOwner model ownerId sanitizedData).

    (** the INSERT statement of [create] *)
Definition createQuery (model : ModelDefinition) (sanitizedData : JsObject) : Sql :=
      InsertReturning (tableOf model) (keys sanitizedData) (map snd sanitizedData).

    (** [ownerId] is [None] when the argument is [undefined]; the result is
        [result[0] || null].  The payload is coerced before the [try]. *)
Definition create (modelName : string) (data : JsObject) (ownerId : option float)
        : M (option JsObject) :=
      model ← getModel modelName;
      sanitizedData ← lift (createData model data ownerId);
      if Nat.eqb (length (keys sanitizedData)) 0 then
        throw (BadRequestException "Cannot create record with empty data.")
      else
        tryCatch
          (result ← queryRaw (createQuery model sanitizedData);
           mret (head result))
          (λ e, throw (BadRequestException (trimmedMessage e))).

Definition findOne (modelName : string) (id : float) : M JsObject :=
      model ← getModel modelName;
      result ← queryRaw (SelectById (tableOf model) id);
      match result with
      | [] => throw (NotFoundException ("Record with ID " +:+ NumberToString id
                                        +:+ " not found in " +:+ modelName +:+ "."))
      | record :: _ => mret record
      end.

    (** [sanitizedData] of [update], after the stamp *)
Definition updateData (model : ModelDefinition) (data : JsObject) (stamp : float)
        : Result JsObject :=
      sanitizedData ← validateAndSanitizeData data (fields model);
      Ok (setProp sanitizedData "updatedAt" (JDate stamp)).

    (** the UPDATE statement of [update] *)
Definition updateQuery (model : ModelDefinition) (id : float)
        (sanitizedData : JsObject) : Sql :=
      UpdateReturning (tableOf model) sanitizedData id.

    (** The payload is coerced and stamped before the [try]. *)
Definition update (modelName : string) (id : float) (data : JsObject) : M JsObject :=
      model ← getModel modelName;
      w ← getWorld;
      sanitizedData ← lift (updateData model data (now w));
      if Nat.leb (length (keys sanitizedData)) 1 then
        throw (BadRequestException "No valid fields provided for update.")
      else
        tryCatch
          (result ← queryRaw (updateQuery model id sanitizedData);
           match result with
           | [] => throw (NotFoundException
                            ("Record with ID " +:+ NumberToString id +:+ " not found in "
                             +:+ modelName +:+ " to update."))
           | row :: _ => mret row
           end)
          (λ e, throw (BadRequestException (trimmedMessage e))).

Definition delete (modelName : string) (id : float) : M string :=
      model ← getModel modelName;
      findOne modelName id;;
      queryRaw (DeleteReturningId (tableOf model) id);;
      mret ("Record " +:+ NumberToString id +:+ " from " +:+ modelName
            +:+ " deleted successfully.").

End Service.
End DynamicApiService.

(** ** rbac.guard.ts *)

Module RbacGuard.

  (** [request.user], as the JWT strategy leaves it *)
Record User := {
    role : string;
    sub : float;
  }.

  (** What the guard reads of the execution context: the [IS_PUBLIC_KEY]
      metadata of the route, [request.user], [request.method],
      [request.params.modelName] and [request.params.id]. *)
Record Request := {
    isPublic : bool;
    user : option User;
    method : string;
    paramModelName : option string;
    paramId : option string;
  }.

  (** the [switch (method)]; [None] is the [default: return true] *)
Definition requiredPermissionOf (method : string) : option string :=
    if String.eqb method "POST" then Some "create"
    else if String.eqb method "GET" then Some "read"
    else if String.eqb method "PUT" || String.eqb method "PATCH" then Some "update"
    else if String.eqb method "DELETE" then Some "delete"
    else None.

  (** [modelDef.rbac?.[userRole] || []] *)
Definition rolePermissionsOf (modelDef : ModelDefinition) (userRole : string)
      : list string :=
    match rbac modelDef with
    | Some policy => default [] (policy !! userRole)
    | None => []
    end.

Definition hasRolePermission (modelDef : ModelDefinition) (userRole : string)
      (requiredPermission : string) : bool :=
    JsString.arrayIncludes (rolePermissionsOf modelDef userRole) requiredPermission
    || JsString.arrayIncludes (rolePermissionsOf modelDef userRole) "all".

  (** [!user || !user.role || !user.sub] *)
Definition authenticationMissing (u : option User) : bool :=
    match u with
    | None => true
    | Some u => negb (truthy (JStr (role u))) || negb (truthy (JNum (sub u)))
    end.

Section Guard.
Context `{JsRuntime} `{PgServer}.

    (** [params.id ? parseInt(params.id, 10) : null] *)
Definition recordIdOf (paramId : option string) : JsValue :=
      if truthyStr paramId then JNum (parseInt10 (default EmptyString paramId))
      else JNull.

Definition ownershipCheck (modelName : string) (modelDef : ModelDefinition)
        (u : User) (recordId : JsValue) : M bool :=
      if negb (truthy recordId) then
        throw (BadRequestException
                 "An ID is required to perform an update or delete operation.")
      else
        record ← DynamicApiService.findOne modelName (ToNumber recordId);
        let ownerValue := readProp record (default EmptyString (ownerField modelDef)) in
        if negb (strictEq ownerValue (JNum (sub u))) then
          throw (ForbiddenException
                   "You do not have permission to modify this record because you are not the owner.")
        else mret true.

Definition canActivate (request : Request) : M bool :=
      if isPublic request then mret true
      else if authenticationMissing (user request) then
        throw (ForbiddenException "User authentication information missing.")
      else
        match user request with
        | None => throw (ForbiddenException "User authentication information missing.")
        | Some u =>
            let recordId := recordIdOf (paramId request) in
            if negb (truthyStr (paramModelName request)) then mret true
            else
              let modelName := default EmptyString (paramModelName request) in
              match requiredPermissionOf (method request) with
              | None => mret true
              | Some requiredPermission =>
                  w ← getWorld;
                  modelDef ← lift (ModelDefinitionCacheService.getModel (cache w) modelName);
                  let userRole := role u in
                  if negb (hasRolePermission modelDef userRole requiredPermission) then
                    throw (ForbiddenException
                             ("Your role ('" +:+ userRole +:+ "') does not have the '"
                              +:+ requiredPermission +:+ "' permission for '"
                              +:+ modelName +:+ "'."))
                  else if (String.eqb requiredPermission "update"
                           || String.eqb requiredPermission "delete")
                          && truthyStr (ownerField modelDef)
                          && negb (String.eqb (role u) "Admin") then
                    ownershipCheck modelName modelDef u recordId
                  else mret true
              end
        end.

End Guard.
End RbacGuard.

(** ** Outcomes of validation *)

(** The two ways validation can fail: a BadRequest, or the NotFound of the
    registry for the target of a relation field. *)
Definition validationError (registry : gmap string ModelDefinition)
    (fs : list FieldDefinition) (e : Exception) : Prop :=
  (∃ msg, e = BadRequestException msg)
  ∨ (∃ msg g target, e = NotFoundException msg ∧ g ∈ fs
                     ∧ fieldType g = TRelation ∧ targetModel g = Some target
                     ∧ registry !! target = None).

(** ** The catalog row of a created column *)

(** What the catalog shows for the column [createTable] makes of a field
    that has no default value. *)
Definition createdColumn (f : FieldDefinition) : DbColumnInfo :=
  {| column_name := fieldName f;
     data_type := Pg.dataType (default EmptyString (mapFieldTypeToSqlType (fieldType f)));
     is_nullable := if truthyBool (required f) then "NO" else "YES";
     column_default := None |}.

(** ** A concrete runtime, a concrete server and sample data

    The properties below hold for every [JsRuntime] and every [PgServer].
    This module fixes one of each, small enough to compute, and the sample
    definitions of the end-to-end test ([Product], with its owner field and
    its three roles) and of the relation scenarios. *)

Module Demo.

  (** The integer a double is, when it is one. *)
Definition floatToZ (f : float) : option Z :=
    match Prim2SF f with
    | SpecFloat.S754_zero _ => Some 0%Z
    | SpecFloat.S754_finite s m e =>
        let magnitude :=
          if (0 <=? e)%Z then Some (Z.pos m * 2 ^ e)%Z
          else if (Z.pos m mod 2 ^ (- e) =? 0)%Z then Some (Z.pos m / 2 ^ (- e))%Z
          else None in
        (λ z : Z, if s then (- z)%Z else z) <$> magnitude
    | _ => None
    end.

  (** Prints the integers; the sample data holds no other number. *)
Definition numberToString (f : float) : string :=
    match floatToZ f with
    | Some z => NilZero.string_of_int (Z.to_int z)
    | None => "NaN"
    end.

  (** The value of the leading decimal digits of [s], after [acc]. *)
Fixpoint leadingDigits (acc : option Z) (s : string) : option Z :=
    match s with
    | EmptyString => acc
    | String c s' =>
        if JsString.isDigit c
        then leadingDigits
               (Some (default 0%Z acc * 10 + Z.of_nat (JsString.code c - 48))%Z) s'
        else acc
    end.

Definition ofZ (z : Z) : float := PrimFloat.of_uint63 (Uint63.of_Z z).

Definition parseInt (s : string) : float :=
    match leadingDigits None s with
    | Some z => ofZ z
    | None => PrimFloat.nan
    end.

  (** [Number(s)] for the empty string and the unsigned decimal integers. *)
Definition stringToNumber (s : string) : float :=
    if JsString.isEmpty s then 0%float
    else if JsString.allChars JsString.isDigit s then parseInt s
    else PrimFloat.nan.

  (** A date is read as valid when it starts with a digit. *)
Definition dateParse (s : string) : float :=
    match s with
    | String c _ => if JsString.isDigit c then 0%float else PrimFloat.nan
    | EmptyString => PrimFloat.nan
    end.

Definition runtime : JsRuntime :=
    {| StringToNumber := stringToNumber;
       NumberToString := numberToString;
       parseInt10 := parseInt;
       DateParse := dateParse;
       DateToString := λ t, "Date(" +:+ numberToString t +:+ ")" |}.

  (** A server that rejects nothing beyond the catalog rules, prints a
      default as it was written and reads a literal as text. *)
Definition server : PgServer :=
    {| pg_rejects := λ _ _, None;
       pg_default_text := λ _ d, d;
       pg_literal := λ s, JStr s;
       pg_convert := λ _ _ v, v |}.

Definition plainField (n : string) (t : FieldType) : FieldDefinition :=
    {| fieldName := n; fieldType := t; required := None; unique := None;
       fieldDefault := JUndefined; targetModel := None |}.

Definition relationField (n target : string) : FieldDefinition :=
    {| fieldName := n; fieldType := TRelation; required := None; unique := None;
       fieldDefault := JUndefined; targetModel := Some target |}.

  (** the policy of the end-to-end test *)
Definition productPolicy : gmap string (list string) :=
    <["Admin" := ["all"]]> (<["Manager" := ["create"; "read"; "update"]]>
      (<["Viewer" := ["read"]]> ∅)).

  (** the definition the end-to-end test publishes *)
Definition product : ModelDefinition :=
    {| name := "Product"; tableName := None; ownerField := Some "creatorId";
       fields := [plainField "name" TString]; rbac := Some productPolicy |}.

Definition customer : ModelDefinition :=
    {| name := "Customer"; tableName := None; ownerField := None;
       fields := [plainField "name" TString]; rbac := None |}.

  (** a model with one relation field *)
Definition invoice : ModelDefinition :=
    {| name := "Invoice"; tableName := None; ownerField := None;
       fields := [relationField "customer" "Customer"]; rbac := None |}.

  (** a model stored in a table that is not its lower-cased name *)
Definition client : ModelDefinition :=
    {| name := "Client"; tableName := Some "clients_tbl"; ownerField := None;
       fields := [plainField "name" TString]; rbac := None |}.

  (** a relation to [Client], whose table is not called [client] *)
Definition contract : ModelDefinition :=
    {| name := "Contract"; tableName := None; ownerField := None;
       fields := [relationField "client" "Client"]; rbac := None |}.

  (** an unregistered relation target before a field name with a hyphen *)
Definition broken : ModelDefinition :=
    {| name := "Broken"; tableName := None; ownerField := None;
       fields := [relationField "owner" "Missing"; plainField "bad-name" TString];
       rbac := None |}.

Definition emptyWorld : World :=
    {| database := ∅; documents := ∅; cache := ∅; now := 1000%float |}.

Definition after {A} (m : M A) (w : World) : World := (m w).2.

Definition publish (md : ModelDefinition) : M ModelDefinitionsService.PublishResponse :=
    @ModelDefinitionsService.publishModel runtime server md.

  (** [Product] published, then one product created by the manager 7. *)
Definition shop : World :=
    after (@DynamicApiService.create runtime server "Product"
             [("name", JStr "Manager Product"); ("price", JNum 100%float)]
             (Some 7%float))
          (after (publish product) emptyWorld).

  (** [Customer] then [Invoice] published, once each. *)
Definition ledger : World :=
    after (publish invoice) (after (publish customer) emptyWorld).

  (** [Client] published. *)
Definition agency : World := after (publish client) emptyWorld.

Definition request (m : string) (r : string) (s : float) (idParam : option string)
      : RbacGuard.Request :=
    {| RbacGuard.isPublic := false;
       RbacGuard.user := Some {| RbacGuard.role := r; RbacGuard.sub := s |};
       RbacGuard.method := m;
       RbacGuard.paramModelName := Some "Product";
       RbacGuard.paramId := idParam |}.

End Demo.


(** ** The column a statement alters *)

(** The column of an ALTER COLUMN or backfill statement; [None] for every
    other statement. *)
Definition alteredColumn (q : Sql) : option string :=
  match q with
  | AlterColumnType _ column _ _ | UpdateWhereNull _ column _
  | SetNotNull _ column | DropNotNull _ column
  | SetDefault _ column _ | DropDefault _ column => Some column
  | _ => None
  end.

(** The column of an ADD COLUMN statement. *)
Definition addedColumn (q : Sql) : option string :=
  match q with
  | AddColumn _ c => Some (col_name c)
  | _ => None
  end.

(** ** dynamic-api.service.ts: the queries of findAll *)

Module FindAll.

(** [{ page?, limit?, search? }], the query string of the request *)
Record Options := {
  page : option string;
  limit : option string;
  search : option string;
}.

(** One operand of the OR of the WHERE clause: the column compared with
    ILIKE, whether it is cast to text first, and the bound pattern. *)
Record Condition := {
  cond_column : string;
  cond_as_text : bool;
  cond_pattern : string;
}.

(** [dataQuery] and [countQuery]: the table, the conditions of the shared
    WHERE clause (none: no WHERE clause), and the bound LIMIT and OFFSET of
    the data query. *)
Record Queries := {
  q_table : string;
  q_where : list Condition;
  q_limit : float;
  q_offset : float;
}.

Section Builder.
Context `{JsRuntime}.
(** [String.prototype.trim] *)
Variable trim : string → string.

(** [Number(options.x)] of an optional query parameter *)
Definition numberOf (o : option string) : float :=
  ToNumber (match o with Some s => JStr s | None => JUndefined end).

(** [Number(options.page) || 1] *)
Definition pageOf (options : Options) : float :=
  if truthy (JNum (numberOf (page options))) then numberOf (page options)
  else 1%float.

(** [Number(options.limit) || 10] *)
Definition limitOf (options : Options) : float :=
  if truthy (JNum (numberOf (limit options))) then numberOf (limit options)
  else 10%float.

(** [options.search?.trim() || ''] *)
Definition searchOf (options : Options) : string :=
  match search options with
  | Some s => trim s
  | None => EmptyString
  end.

Definition searchableFields (model : ModelDefinition) : list FieldDefinition :=
  List.filter (λ field, bool_decide (fieldType field = TString)
                        || bool_decide (fieldType field = TNumber))
              (fields model).

Definition conditionOf (searchText : string) (field : FieldDefinition) : Condition :=
  {| cond_column := fieldName field;
     cond_as_text := bool_decide (fieldType field = TNumber);
     cond_pattern := "%" +:+ searchText +:+ "%" |}.

Definition whereClauseOf (model : ModelDefinition) (searchText : string)
    : list Condition :=
  if truthy (JStr searchText) then map (conditionOf searchText) (searchableFields model)
  else [].

Definition queriesOf (model : ModelDefinition) (options : Options) : Queries :=
  {| q_table := DynamicApiService.tableOf model;
     q_where := whereClauseOf model (searchOf options);
     q_limit := limitOf options;
     q_offset := ((pageOf options - 1) * limitOf options)%float |}.

End Builder.
End FindAll.

(** ** The record form of the admin interface

    [convertFieldValue] of [types.ts] and the payload [handleSubmit] of
    [AddNewRecordForm.tsx] builds with it. *)

Module Frontend.

(** A value, or [throw new Error(message)]. *)
Inductive Outcome (A : Type) :=
| Value (a : A)
| Error (message : string).
Arguments Value {A} a.
Arguments Error {A} message.

(** The values the form submits for a field of the given type: a number
    that is not NaN, a boolean, a non-empty string. *)
Definition submitted (t : FieldType) (c : JsValue) : Prop :=
  match t with
  | TNumber | TRelation => ∃ n, c = JNum n ∧ isNaN n = false
  | TBoolean => ∃ b, c = JBool b
  | TString | TDate => ∃ s, c = JStr s ∧ s ≠ EmptyString
  end.

Section Form.
Context `{JsRuntime}.

(** [type] is the type of a field; [string] and [date] take the [default]
    branch of the switch. *)
Definition convertFieldValue (value : JsValue) (type : FieldType) : Outcome JsValue :=
  if strictEq value (JStr EmptyString) || strictEq value JNull
     || strictEq value JUndefined then Value JUndefined
  else
    match type with
    | TNumber | TRelation =>
        let num := ToNumber value in
        if isNaN num then Error "must be a number" else Value (JNum num)
    | TBoolean =>
        Value (JBool (String.eqb (JsString.toLowerCase (ToString value)) "true"))
    | TString | TDate => Value (JStr (ToString value))
    end.

(** [value === "" || value === null || value === undefined] *)
Definition isBlank (value : JsValue) : bool :=
  strictEq value (JStr EmptyString) || strictEq value JNull
  || strictEq value JUndefined.

(** one turn of the [forEach] of [handleSubmit] on [submitData] *)
Definition submitField (formData submitData : JsObject) (field : FieldDefinition)
    : Outcome JsObject :=
  let value := lookupProp formData (fieldName field) in
  if bool_decide (fieldType field = TRelation) && isBlank value then Value submitData
  else if negb (truthyBool (required field))
          && (strictEq value JNull || strictEq value JUndefined) then Value submitData
  else if negb (truthyBool (required field))
          && (bool_decide (fieldType field = TNumber)
              || bool_decide (fieldType field = TRelation))
          && strictEq value (JStr EmptyString) then Value submitData
  else
    match convertFieldValue value (fieldType field) with
    | Value convertedValue =>
        if negb (strictEq convertedValue JUndefined)
        then Value (setProp submitData (fieldName field) convertedValue)
        else Value submitData
    | Error message =>
        Error ("Invalid value for " +:+ fieldName field +:+ ": " +:+ message)
    end.

Fixpoint submitFields (formData submitData : JsObject) (fs : list FieldDefinition)
    : Outcome JsObject :=
  match fs with
  | [] => Value submitData
  | field :: rest =>
      match submitField formData submitData field with
      | Value submitData' => submitFields formData submitData' rest
      | Error message => Error message
      end
  end.

(** [submitData] of [handleSubmit]: the fields other than the owner field,
    in order. *)
Definition submitDataOf (model : ModelDefinition) (formData : JsObject)
    : Outcome JsObject :=
  submitFields formData []
    (List.filter (λ field, negb (bool_decide (ownerField model = Some (fieldName field))))
                 (fields model)).

End Form.
End Frontend.

(** ** More sample data *)

Module Demo2.

Definition isSpace (c : ascii) : bool :=
  Nat.eqb (JsString.code c) 32
  || (Nat.leb 9 (JsString.code c) && Nat.leb (JsString.code c) 13).

Fixpoint trimStart (s : string) : string :=
  match s with
  | String c s' => if isSpace c then trimStart s' else s
  | EmptyString => EmptyString
  end.

(** [trim] on the ASCII white space. *)
Definition reverse (s : string) : string :=
  string_of_list_ascii (rev (list_ascii_of_string s)).

Definition trim (s : string) : string :=
  reverse (trimStart (reverse (trimStart s))).

(** a model with no text and no number field *)
Definition flags : ModelDefinition :=
  {| name := "Flag"; tableName := None; ownerField := None;
     fields := [Demo.plainField "enabled" TBoolean; Demo.plainField "since" TDate];
     rbac := None |}.

(** a product with a price and a flag *)
Definition item : ModelDefinition :=
  {| name := "Item"; tableName := None; ownerField := Some "creatorId";
     fields := [Demo.plainField "name" TString; Demo.plainField "price" TNumber;
                Demo.plainField "active" TBoolean];
     rbac := Some Demo.productPolicy |}.

(** [Product] republished with [name] removed and [price] added *)
Definition repriced : ModelDefinition :=
  {| name := "Product"; tableName := None; ownerField := Some "creatorId";
     fields := [Demo.plainField "price" TNumber]; rbac := None |}.

(** [Product] republished with [name] turned into a required number with a
    default *)
Definition retyped : ModelDefinition :=
  {| name := "Product"; tableName := None; ownerField := Some "creatorId";
     fields := [ {| fieldName := "name"; fieldType := TNumber; required := Some true;
                    unique := None; fieldDefault := JStr "5"; targetModel := None |} ];
     rbac := None |}.

(** the catalog rows of [product] in [Demo.shop] *)
Definition productSchema : list DbColumnInfo :=
  Pg.systemColumns "product"
  ++ [ {| column_name := "name"; data_type := "text";
          is_nullable := "YES"; column_default := None |};
       {| column_name := "creatorId"; data_type := "double precision";
          is_nullable := "YES"; column_default := None |} ].




(** a text field with a default value that holds a quote *)
Definition nickname : FieldDefinition :=
  {| fieldName := "nickname"; fieldType := TString; required := None;
     unique := None; fieldDefault := JStr "it's"; targetModel := None |}.

End Demo2.

(** * Properties *)

(** ** Arrays, objects and the state monad *)

Lemma arrayIncludes_true (arr : list string) (x : string) :
  JsString.arrayIncludes arr x = true ↔ x ∈ arr.
Proof.
  unfold JsString.arrayIncludes. rewrite existsb_exists. split.
  - intros (y & Hy & Heq). apply String.eqb_eq in Heq. subst y.
    by apply list_elem_of_In.
  - intros Hx. exists x. split; [by apply list_elem_of_In | apply String.eqb_refl].
Qed.

Lemma arrayIncludes_false (arr : list string) (x : string) :
  JsString.arrayIncludes arr x = false ↔ x ∉ arr.
Proof.
  rewrite <- arrayIncludes_true. destruct (JsString.arrayIncludes arr x); split;
    intros Hx; try done; exfalso; by apply Hx.
Qed.

Lemma isEmpty_false (s : string) : JsString.isEmpty s = false ↔ s ≠ EmptyString.
Proof. destruct s; simpl; split; intros; try done. Qed.

Lemma truthyStr_Some (s : string) : s ≠ EmptyString → truthyStr (Some s) = true.
Proof. intros Hs. simpl. apply isEmpty_false in Hs. by rewrite Hs. Qed.

Lemma world_eta (w : World) :
  {| database := database w; documents := documents w; cache := cache w;
     now := now w |} = w.
Proof. by destruct w. Qed.

Lemma getProp_assignOwn_eq (o : JsObject) (k : string) (v : JsValue) :
  getProp (assignOwn o k v) k = Some v.
Proof.
  induction o as [| [k' v'] o IH]; simpl.
  - by rewrite String.eqb_refl.
  - destruct (String.eqb k' k) eqn:E; simpl; rewrite E; [done | apply IH].
Qed.

Lemma getProp_assignOwn_ne (o : JsObject) (k k' : string) (v : JsValue) :
  k ≠ k' → getProp (assignOwn o k v) k' = getProp o k'.
Proof.
  intros Hne. induction o as [| [k0 v0] o IH]; simpl.
  - destruct (String.eqb k k') eqn:E; [apply String.eqb_eq in E; done | done].
  - destruct (String.eqb k0 k) eqn:E; simpl.
    + apply String.eqb_eq in E. subst k0.
      destruct (String.eqb k k') eqn:E'; [apply String.eqb_eq in E'; done | done].
    + destruct (String.eqb k0 k'); [done | apply IH].
Qed.

(** An assignment to any name but [__proto__] is an own property. *)
Lemma getProp_setProp_eq (o : JsObject) (k : string) (v : JsValue) :
  k ≠ "__proto__" → getProp (setProp o k v) k = Some v.
Proof.
  intros Hk. unfold setProp. apply String.eqb_neq in Hk. rewrite Hk. simpl.
  apply getProp_assignOwn_eq.
Qed.

Lemma getProp_setProp_ne (o : JsObject) (k k' : string) (v : JsValue) :
  k ≠ k' → getProp (setProp o k v) k' = getProp o k'.
Proof.
  intros Hne. unfold setProp.
  destruct (String.eqb k "__proto__" && negb (hasOwn o k)); [done |].
  by apply getProp_assignOwn_ne.
Qed.

(** An assignment to [__proto__] leaves an object without that own property
    as it is. *)
Lemma setProp_proto (o : JsObject) (v : JsValue) :
  getProp o "__proto__" = None → setProp o "__proto__" v = o.
Proof. intros Ho. unfold setProp, hasOwn. by rewrite Ho. Qed.

Lemma getProp_keys (o : JsObject) (k : string) :
  k ∈ keys o ↔ is_Some (getProp o k).
Proof.
  unfold keys. induction o as [| [k' v'] o IH]; simpl.
  - split; [by intros ?%elem_of_nil | by intros [? ?]].
  - rewrite elem_of_cons, IH. destruct (String.eqb k' k) eqn:E.
    + apply String.eqb_eq in E. subst. split; eauto.
    + apply String.eqb_neq in E. split; [intros [-> | ?]; done | by right].
Qed.

Lemma getProp_deleteProp_ne (o : JsObject) (k k' : string) :
  k ≠ k' → getProp (deleteProp o k) k' = getProp o k'.
Proof.
  intros Hne. unfold deleteProp. induction o as [| [k0 v0] o IH]; [done |].
  simpl. destruct (String.eqb k0 k) eqn:Hk; simpl.
  - apply String.eqb_eq in Hk. subst k0. rewrite IH.
    destruct (String.eqb k k') eqn:E; [apply String.eqb_eq in E; done | done].
  - by rewrite IH.
Qed.

(** ** Schema synthesis: protected columns (C8) *)

Section ProtectedColumns.
Import ModelDefinitionsService.

Lemma columnsToDrop_spec (md : ModelDefinition) (currentSchema : list DbColumnInfo)
      (col : string) :
    col ∈ columnsToDrop md currentSchema ↔
    col ∈ existingColumnNames currentSchema
    ∧ (col ∉ newFieldNames md) ∧ (col ∉ protectedColumns md).
  Proof.
    unfold columnsToDrop. rewrite list_elem_of_In, filter_In, andb_true_iff,
      !negb_true_iff, !arrayIncludes_false, <- list_elem_of_In. tauto.
  Qed.

  (** C8.  Whatever the new field list and the live schema are, the set of
      columns [migrateTable] computes for dropping holds neither [id],
      [createdAt] nor [updatedAt], nor the owner field of a model that
      declares one, even when these columns are absent from the new field
      list. *)
Theorem protected_columns_never_dropped
      (md : ModelDefinition) (currentSchema : list DbColumnInfo) :
    ("id" ∉ columnsToDrop md currentSchema)
    ∧ ("createdAt" ∉ columnsToDrop md currentSchema)
    ∧ ("updatedAt" ∉ columnsToDrop md currentSchema)
    ∧ ∀ owner, ownerField md = Some owner → owner ≠ EmptyString →
               owner ∉ columnsToDrop md currentSchema.
  Proof.
    repeat split; try (intros (_ & _ & Hp)%columnsToDrop_spec; apply Hp;
      unfold protectedColumns; set_solver).
    intros owner Ho Hne (_ & _ & Hp)%columnsToDrop_spec. apply Hp.
    unfold protectedColumns. rewrite Ho, truthyStr_Some by done. simpl. set_solver.
  Qed.

Lemma protected_columns_never_dropped_witness :
    let schema := Pg.systemColumns "product"
                  ++ [ {| column_name := "name"; data_type := "text";
                          is_nullable := "YES"; column_default := None |};
                       {| column_name := "creatorId"; data_type := "double precision";
                          is_nullable := "YES"; column_default := None |} ] in
    let md := {| name := "Product"; tableName := Some "product";
                 ownerField := Some "creatorId";
                 fields := [Demo.plainField "price" TNumber]; rbac := None |} in
    columnsToDrop md schema = ["name"]
    ∧ "creatorId" ∉ columnsToDrop md schema.
  Proof.
    split; [reflexivity |].
    apply (protected_columns_never_dropped _ _); [reflexivity | discriminate].
  Defined.

End ProtectedColumns.

(** ** The access decision point (C1, C2) *)

Section AccessDecision.
Context `{JsRuntime} `{PgServer}.
Import RbacGuard.

Lemma hasRolePermission_true (modelDef : ModelDefinition) (userRole permission : string) :
  hasRolePermission modelDef userRole permission = true ↔
  permission ∈ rolePermissionsOf modelDef userRole
  ∨ "all" ∈ rolePermissionsOf modelDef userRole.
Proof.
  unfold hasRolePermission. by rewrite orb_true_iff, !arrayIncludes_true.
Qed.

Lemma hasRolePermission_false (modelDef : ModelDefinition) (userRole permission : string) :
  hasRolePermission modelDef userRole permission = false ↔
  (permission ∉ rolePermissionsOf modelDef userRole)
  ∧ ("all" ∉ rolePermissionsOf modelDef userRole).
Proof.
  unfold hasRolePermission. by rewrite orb_false_iff, !arrayIncludes_false.
Qed.

(** The guard on a resource route: steps 5 to 7 of the decision, once the
    route is not public, the principal is authenticated and the registry
    knows the model. *)
Lemma canActivate_resource (request : Request) (w : World) (u : User)
    (modelName permission : string) (modelDef : ModelDefinition) :
  isPublic request = false →
  user request = Some u →
  authenticationMissing (Some u) = false →
  paramModelName request = Some modelName → modelName ≠ EmptyString →
  requiredPermissionOf (method request) = Some permission →
  cache w !! modelName = Some modelDef →
  canActivate request w =
    if negb (hasRolePermission modelDef (role u) permission) then
      (Throw (ForbiddenException
                ("Your role ('" +:+ role u +:+ "') does not have the '"
                 +:+ permission +:+ "' permission for '" +:+ modelName +:+ "'.")), w)
    else if (String.eqb permission "update" || String.eqb permission "delete")
            && truthyStr (ownerField modelDef)
            && negb (String.eqb (role u) "Admin")
    then ownershipCheck modelName modelDef u (recordIdOf (paramId request)) w
    else (Ok true, w).
Proof.
  intros Hpub Hu Hauth Hm Hne Hperm Hc. unfold canActivate.
  rewrite Hpub, Hu, Hauth, Hm, truthyStr_Some, Hperm by done. simpl.
  unfold mbind, M_bind, getWorld, lift, ModelDefinitionCacheService.getModel.
  rewrite Hc.
  destruct (hasRolePermission modelDef (role u) permission); simpl; [| done].
  by destruct ((String.eqb permission "update" || String.eqb permission "delete")
               && truthyStr (ownerField modelDef) && negb (String.eqb (role u) "Admin")).
Qed.

(** Reading a row that exists. *)
Lemma findOne_existing (w : World) (modelName : string) (modelDef : ModelDefinition)
    (id : float) (t : Table) (record : JsObject) (others : list JsObject) :
  cache w !! modelName = Some modelDef →
  pg_rejects (database w) (SelectById (DynamicApiService.tableOf modelDef) id) = None →
  database w !! DynamicApiService.tableOf modelDef = Some t →
  List.filter (Pg.rowHasId id) (tbl_rows t) = record :: others →
  DynamicApiService.findOne modelName id w = (Ok record, w).
Proof.
  intros Hc Hrej Ht Hrow. unfold DynamicApiService.findOne, DynamicApiService.getModel.
  unfold mbind, M_bind, getWorld, lift, ModelDefinitionCacheService.getModel.
  rewrite Hc. unfold queryRaw, Pg.exec. rewrite Hrej, Ht, Hrow. simpl.
  by rewrite world_eta.
Qed.

(** C2.  On a route that names a registered model, when the policy entry of
    the caller's role (no entry: the empty list) holds neither the permission
    the verb requires nor [all], the request is refused with a Forbidden
    error, whatever the database holds and whoever owns the record. *)
Theorem role_gate (request : Request) (w : World) (u : User)
    (modelName permission : string) (modelDef : ModelDefinition) :
  isPublic request = false →
  user request = Some u →
  paramModelName request = Some modelName → modelName ≠ EmptyString →
  cache w !! modelName = Some modelDef →
  requiredPermissionOf (method request) = Some permission →
  permission ∉ rolePermissionsOf modelDef (role u) →
  "all" ∉ rolePermissionsOf modelDef (role u) →
  ∃ msg, canActivate request w = (Throw (ForbiddenException msg), w).
Proof.
  intros Hpub Hu Hm Hne Hc Hperm Hp Hall.
  destruct (authenticationMissing (Some u)) eqn:Hauth.
  - eexists. unfold canActivate. by rewrite Hpub, Hu, Hauth.
  - erewrite canActivate_resource by done.
    assert (hasRolePermission modelDef (role u) permission = false) as ->
      by by apply hasRolePermission_false.
    simpl. by eexists.
Qed.

(** C1, as the code has it.  On a model that declares an owner field, for an
    update or delete request of an authenticated principal whose role holds
    the required permission (or [all]), aimed at a record that exists: an
    [Admin] is let through whatever the owner value is; any other principal
    is let through when the owner value of the record is strictly equal to
    the principal's identity and refused with a Forbidden error when it is
    not. *)
Theorem ownership_gate (request : Request) (w : World) (u : User)
    (modelName permission owner idParam : string) (modelDef : ModelDefinition)
    (t : Table) (record : JsObject) (others : list JsObject) :
  isPublic request = false →
  user request = Some u →
  role u ≠ EmptyString →
  truthy (JNum (sub u)) = true →
  paramModelName request = Some modelName → modelName ≠ EmptyString →
  requiredPermissionOf (method request) = Some permission →
  permission ∈ ["update"; "delete"] →
  cache w !! modelName = Some modelDef →
  ownerField modelDef = Some owner → owner ≠ EmptyString →
  permission ∈ rolePermissionsOf modelDef (role u)
  ∨ "all" ∈ rolePermissionsOf modelDef (role u) →
  paramId request = Some idParam → idParam ≠ EmptyString →
  truthy (JNum (parseInt10 idParam)) = true →
  pg_rejects (database w)
    (SelectById (DynamicApiService.tableOf modelDef) (parseInt10 idParam)) = None →
  database w !! DynamicApiService.tableOf modelDef = Some t →
  List.filter (Pg.rowHasId (parseInt10 idParam)) (tbl_rows t) = record :: others →
  (role u = "Admin" → canActivate request w = (Ok true, w))
  ∧ (role u ≠ "Admin" →
     strictEq (readProp record owner) (JNum (sub u)) = true →
     canActivate request w = (Ok true, w))
  ∧ (role u ≠ "Admin" →
     strictEq (readProp record owner) (JNum (sub u)) = false →
     ∃ msg, canActivate request w = (Throw (ForbiddenException msg), w)).
Proof.
  intros Hpub Hu Hrole Hsub Hm Hne Hperm Hkind Hc Ho Hone Hhas Hid Hidne Htruthy
    Hrej Ht Hrow.
  assert (authenticationMissing (Some u) = false) as Hauth.
  { unfold authenticationMissing. rewrite Hsub. simpl.
    apply isEmpty_false in Hrole. by rewrite Hrole. }
  apply hasRolePermission_true in Hhas.
  assert ((String.eqb permission "update" || String.eqb permission "delete") = true)
    as Hupd.
  { apply elem_of_cons in Hkind as [-> | Hkind]; [done |].
    apply elem_of_cons in Hkind as [-> | Hkind]; [done |]. by apply elem_of_nil in Hkind. }
  assert (ownershipCheck modelName modelDef u (recordIdOf (paramId request)) w =
          if negb (strictEq (readProp record owner) (JNum (sub u)))
          then (Throw (ForbiddenException
                  "You do not have permission to modify this record because you are not the owner."), w)
          else (Ok true, w)) as Hcheck.
  { unfold ownershipCheck, recordIdOf. rewrite Hid, truthyStr_Some by done.
    cbn [from_option id]. rewrite Htruthy. cbn [negb ToNumber].
    unfold mbind at 1. unfold M_bind. erewrite findOne_existing by done.
    rewrite Ho. cbn [from_option id].
    by destruct (strictEq (readProp record owner) (JNum (sub u))). }
  erewrite canActivate_resource by done. rewrite Hhas, Hupd, Ho.
  rewrite truthyStr_Some by done. cbn [negb andb].
  split; [| split].
  - intros ->. done.
  - intros Hna Heq. apply String.eqb_neq in Hna. rewrite Hna. cbn [negb].
    by rewrite Hcheck, Heq.
  - intros Hna Hneq. apply String.eqb_neq in Hna. rewrite Hna. cbn [negb].
    rewrite Hcheck, Hneq. by eexists.
Qed.

End AccessDecision.

Section AccessDecisionExamples.
Import RbacGuard.
#[local] Existing Instance Demo.runtime.
#[local] Existing Instance Demo.server.

Lemma role_gate_witness :
  ∃ msg, canActivate (Demo.request "DELETE" "Manager" 7%float (Some "1")) Demo.shop
         = (Throw (ForbiddenException msg), Demo.shop).
Proof.
  apply (role_gate (Demo.request "DELETE" "Manager" 7%float (Some "1")) Demo.shop
           {| role := "Manager"; sub := 7%float |} "Product" "delete"
           (ModelDefinitionsService.completeDefinition Demo.product)).
  - reflexivity.
  - reflexivity.
  - reflexivity.
  - discriminate.
  - vm_compute. reflexivity.
  - reflexivity.
  - apply arrayIncludes_false. vm_compute. reflexivity.
  - apply arrayIncludes_false. vm_compute. reflexivity.
Defined.

Lemma ownership_gate_witness :
  canActivate (Demo.request "PUT" "Manager" 7%float (Some "1")) Demo.shop
    = (Ok true, Demo.shop)
  ∧ ∃ msg, canActivate (Demo.request "PUT" "Manager" 8%float (Some "1")) Demo.shop
           = (Throw (ForbiddenException msg), Demo.shop).
Proof.
  pose (row := [("id", JNum 1%float); ("createdAt", JDate 1000%float);
                ("updatedAt", JDate 1000%float); ("name", JStr "Manager Product");
                ("creatorId", JNum 7%float)] : JsObject).
  pose (t := {| tbl_columns :=
                  Pg.systemColumns "product"
                  ++ [ {| column_name := "name"; data_type := "text";
                          is_nullable := "YES"; column_default := None |};
                       {| column_name := "creatorId"; data_type := "double precision";
                          is_nullable := "YES"; column_default := None |} ];
                tbl_rows := [row]; tbl_serial := 2%float; tbl_trigger := true;
                tbl_oid := 1; tbl_foreign_keys := [] |}).
  split.
  - apply (ownership_gate (Demo.request "PUT" "Manager" 7%float (Some "1")) Demo.shop
             {| role := "Manager"; sub := 7%float |} "Product" "update" "creatorId" "1"
             (ModelDefinitionsService.completeDefinition Demo.product) t row []);
      try reflexivity; try discriminate.
    + set_solver.
    + left. apply arrayIncludes_true. vm_compute. reflexivity.
  - apply (ownership_gate (Demo.request "PUT" "Manager" 8%float (Some "1")) Demo.shop
             {| role := "Manager"; sub := 8%float |} "Product" "update" "creatorId" "1"
             (ModelDefinitionsService.completeDefinition Demo.product) t row []);
      try reflexivity; try discriminate.
    + set_solver.
    + left. apply arrayIncludes_true. vm_compute. reflexivity.
Defined.

(** The first part of C1 read without the role gate fails on the repository's
    own end-to-end scenario: the manager 7 owns product 1 ([creatorId] is 7),
    the model declares [creatorId] as its owner field, and the manager's
    DELETE is refused, because the [Manager] entry of the policy has no
    [delete]. *)
Lemma ownership_gate_counterexample :
  ownerField Demo.product = Some "creatorId"
  ∧ (∃ t record,
       database Demo.shop !! "product" = Some t
       ∧ List.filter (Pg.rowHasId 1%float) (tbl_rows t) = [record]
       ∧ strictEq (readProp record "creatorId") (JNum 7%float) = true)
  ∧ canActivate (Demo.request "DELETE" "Manager" 7%float (Some "1")) Demo.shop
    = (Throw (ForbiddenException
                "Your role ('Manager') does not have the 'delete' permission for 'Product'."),
       Demo.shop).
Proof.
  split; [reflexivity |]. split.
  - eexists _, _. split; [vm_compute; reflexivity |]. split; vm_compute; reflexivity.
  - vm_compute. reflexivity.
Qed.

End AccessDecisionExamples.

(** ** The dynamic query engine: coercion (C6, C9) *)

Section Coercion.
Context `{JsRuntime}.
Import DynamicApiService.

(** [value === null || value === undefined || value === ''] *)
Lemma dropped_iff (v : JsValue) :
  strictEq v JNull || strictEq v JUndefined || strictEq v (JStr EmptyString) = true
  ↔ v = JStr EmptyString ∨ v = JNull ∨ v = JUndefined.
Proof.
  destruct v as [| | b | n | s | t | r]; try destruct s; simpl;
    (split; [first [done | auto] | intros [? | [? | ?]]; done]).
Qed.

Lemma coerceField_other (data acc : JsObject) (field : FieldDefinition) (k : string) :
  fieldName field ≠ k →
  getProp (coerceField data acc field) k = getProp acc k.
Proof.
  intros Hne. unfold coerceField.
  repeat match goal with
         | |- context [if ?b then _ else _] => destruct b
         end; try done; by rewrite getProp_setProp_ne.
Qed.

Lemma coerced_other (data : JsObject) (fs : list FieldDefinition) (acc : JsObject)
    (k : string) :
  k ∉ map fieldName fs →
  getProp (fold_left (coerceField data) fs acc) k = getProp acc k.
Proof.
  revert acc. induction fs as [| f fs IH]; intros acc Hk; [done |].
  simpl in *. apply not_elem_of_cons in Hk as [Hne Hk].
  rewrite IH by done. by apply coerceField_other.
Qed.

(** What the coercion leaves under the name of a field whose name no other
    field has: the outcome of that field's own turn. *)
Lemma coerced_field (data : JsObject) (fs : list FieldDefinition)
    (field : FieldDefinition) :
  NoDup (map fieldName fs) → field ∈ fs →
  ∃ acc, getProp acc (fieldName field) = None
         ∧ getProp (coerced data fs) (fieldName field)
           = getProp (coerceField data acc field) (fieldName field).
Proof.
  intros Hnd Hin. apply list_elem_of_split in Hin as (l1 & l2 & ->).
  rewrite map_app in Hnd. simpl in Hnd.
  apply NoDup_app in Hnd as (_ & Hdisj & Hnd2).
  apply NoDup_cons in Hnd2 as [Hnot2 _].
  assert (fieldName field ∉ map fieldName l1) as Hnot1.
  { intros Hin1. apply (Hdisj _ Hin1). by left. }
  exists (fold_left (coerceField data) l1 []).
  split; [by rewrite coerced_other |].
  unfold coerced. rewrite fold_left_app. simpl.
  by rewrite coerced_other.
Qed.

Lemma sanitizeField_spec (data acc : JsObject) (field : FieldDefinition) :
  sanitizeField data acc field =
    if hasOwn data "hasOwnProperty"
    then Throw (TypeError "data.hasOwnProperty is not a function")
    else Ok (coerceField data acc field).
Proof.
  unfold sanitizeField, coerceField, hasOwnProperty, hasOwn.
  destruct (getProp data "hasOwnProperty"); [done |].
  cbn [mbind result_bind].
  destruct (getProp data (fieldName field)); [| done].
  repeat match goal with
         | |- context [if ?b then _ else _] => destruct b
         end; done.
Qed.

(** The loop throws at its first call of [data.hasOwnProperty] when the body
    has an own property of that name, and is the coercion otherwise. *)
Lemma sanitizeFields_spec (data acc : JsObject) (fs : list FieldDefinition) :
  sanitizeFields data acc fs =
    if hasOwn data "hasOwnProperty" && negb (Nat.eqb (length fs) 0)
    then Throw (TypeError "data.hasOwnProperty is not a function")
    else Ok (fold_left (coerceField data) fs acc).
Proof.
  revert acc. induction fs as [| f fs IH]; intros acc.
  - simpl. by rewrite andb_false_r.
  - cbn [sanitizeFields length Nat.eqb negb]. rewrite andb_true_r.
    rewrite sanitizeField_spec.
    destruct (hasOwn data "hasOwnProperty") eqn:Hown; [done |].
    cbn [mbind result_bind]. rewrite IH. by rewrite ?Hown.
Qed.

Lemma validateAndSanitizeData_spec (data : JsObject) (fs : list FieldDefinition) :
  validateAndSanitizeData data fs =
    if hasOwn data "hasOwnProperty" && negb (Nat.eqb (length fs) 0)
    then Throw (TypeError "data.hasOwnProperty is not a function")
    else Ok (coerced data fs).
Proof. apply sanitizeFields_spec. Qed.

Lemma coerced_spec (data : JsObject) (fs : list FieldDefinition) :
  getProp data "hasOwnProperty" = None →
  validateAndSanitizeData data fs = Ok (coerced data fs).
Proof.
  intros Hown. rewrite validateAndSanitizeData_spec. unfold hasOwn. by rewrite Hown.
Qed.

Lemma validateAndSanitizeData_Ok (data sanitizedData : JsObject)
    (fs : list FieldDefinition) :
  validateAndSanitizeData data fs = Ok sanitizedData → sanitizedData = coerced data fs.
Proof.
  rewrite validateAndSanitizeData_spec. destruct (_ && _); [done |]. by intros [= <-].
Qed.

(** A body with an own property [hasOwnProperty] makes the coercion throw as
    soon as the model has a field. *)
Lemma validateAndSanitizeData_throws (data : JsObject) (fs : list FieldDefinition) :
  is_Some (getProp data "hasOwnProperty") → fs ≠ [] →
  validateAndSanitizeData data fs
  = Throw (TypeError "data.hasOwnProperty is not a function").
Proof.
  intros [v Hv] Hfs. rewrite validateAndSanitizeData_spec. unfold hasOwn. rewrite Hv.
  by destruct fs.
Qed.

Lemma coerceField_boolean (data acc : JsObject) (field : FieldDefinition)
    (v : JsValue) :
  fieldName field ≠ "__proto__" →
  fieldType field = TBoolean →
  getProp data (fieldName field) = Some v →
  getProp (coerceField data acc field) (fieldName field) =
    if strictEq v JNull || strictEq v JUndefined || strictEq v (JStr EmptyString)
    then getProp acc (fieldName field)
    else Some (JBool (truthy v)).
Proof.
  intros Hname Hty Hv. unfold coerceField, hasOwn, readProp. rewrite Hv, Hty.
  destruct (strictEq v JNull || strictEq v JUndefined || strictEq v (JStr EmptyString));
    [done |].
  simpl. by apply getProp_setProp_eq.
Qed.

(** Boolean coercion is truthiness on every body without an own
    [hasOwnProperty] and for every field not named [__proto__]: the coerced
    payload holds [Boolean(value)]; every non-empty string, the string
    [false] among them, becomes [true]; the field is left out exactly for
    the empty string, [null] and [undefined]; and [false] comes out exactly
    for the boolean [false] and the falsy numbers (zero and NaN). *)
Lemma boolean_coercion (data : JsObject) (fs : list FieldDefinition)
    (field : FieldDefinition) (v : JsValue) :
  getProp data "hasOwnProperty" = None →
  fieldName field ≠ "__proto__" →
  NoDup (map fieldName fs) → field ∈ fs →
  fieldType field = TBoolean →
  getProp data (fieldName field) = Some v →
  ∃ sanitizedData,
    validateAndSanitizeData data fs = Ok sanitizedData
    ∧ (∀ s, v = JStr s → s ≠ EmptyString →
            getProp sanitizedData (fieldName field) = Some (JBool true))
    ∧ (getProp sanitizedData (fieldName field) = None
       ↔ v = JStr EmptyString ∨ v = JNull ∨ v = JUndefined)
    ∧ (getProp sanitizedData (fieldName field) = Some (JBool false)
       ↔ v = JBool false
         ∨ ∃ n, v = JNum n ∧ (PrimFloat.is_zero n || isNaN n = true)).
Proof.
  intros Hown Hname Hnd Hin Hty Hv.
  exists (coerced data fs). split; [by apply coerced_spec |].
  destruct (coerced_field data fs field Hnd Hin) as (acc & Hacc & ->).
  rewrite (coerceField_boolean data acc field v Hname Hty Hv), Hacc.
  pose proof (dropped_iff v) as Hd.
  destruct (strictEq v JNull || strictEq v JUndefined || strictEq v (JStr EmptyString))
    eqn:E.
  - apply proj1 in Hd. specialize (Hd eq_refl). split; [| split].
    + intros s -> Hs. destruct Hd as [[= ->] | [? | ?]]; done.
    + done.
    + split; [done |]. intros [-> | (n & -> & _)]; destruct Hd as [? | [? | ?]]; done.
  - assert (¬ (v = JStr EmptyString ∨ v = JNull ∨ v = JUndefined)) as Hnd'.
    { intros Hx. apply Hd in Hx. done. }
    split; [| split].
    + intros s -> Hs. simpl. apply isEmpty_false in Hs. by rewrite Hs.
    + split; [done | intros; by exfalso].
    + destruct v as [| | b | n | s | t | r]; simpl; try (by exfalso; auto).
      * destruct b; split; [done | | auto | auto].
        intros [? | (n & ? & _)]; done.
      * destruct (PrimFloat.is_zero n || isNaN n) eqn:En; simpl.
        -- split; [| done]. intros _. right. by exists n.
        -- split; [done |]. intros [? | (m & [= <-] & Hm)]; [done |].
           rewrite En in Hm. done.
      * destruct s; [exfalso; auto |]. simpl.
        split; [done |]. intros [? | (n & ? & _)]; done.
      * split; [done |]. intros [? | (n & ? & _)]; done.
      * split; [done |]. intros [? | (n & ? & _)]; done.
Qed.

(** The coerced payload has only declared fields that the payload has. *)
Lemma coerced_keys (data : JsObject) (fs : list FieldDefinition) (k : string) :
  k ∈ keys (coerced data fs) →
  k ∈ map fieldName fs ∧ hasOwn data k = true.
Proof.
  unfold coerced. rewrite getProp_keys.
  assert (∀ acc, is_Some (getProp (fold_left (coerceField data) fs acc) k) →
                 is_Some (getProp acc k)
                 ∨ (k ∈ map fieldName fs ∧ hasOwn data k = true)) as Hgen.
  { induction fs as [| f fs IH]; intros acc Hs; [by left |].
    simpl in Hs. apply IH in Hs as [Hs | [Hin Hown]].
    - destruct (decide (fieldName f = k)) as [<- | Hne].
      + destruct (hasOwn data (fieldName f)) eqn:Hown.
        * right. split; [simpl; by left | done].
        * left. unfold coerceField in Hs. by rewrite Hown in Hs.
      + left. by rewrite coerceField_other in Hs.
    - right. split; [simpl; by right | done]. }
  intros Hs. apply Hgen in Hs as [[? [=]] | ?]. done.
Qed.

Lemma sanitize_keys (data sanitizedData : JsObject) (fs : list FieldDefinition)
    (k : string) :
  validateAndSanitizeData data fs = Ok sanitizedData →
  k ∈ keys sanitizedData →
  k ∈ map fieldName fs ∧ hasOwn data k = true.
Proof. intros ->%validateAndSanitizeData_Ok. apply coerced_keys. Qed.

Lemma coerceField_deleteProp (data acc : JsObject) (field : FieldDefinition)
    (key : string) :
  fieldName field ≠ key →
  coerceField (deleteProp data key) acc field = coerceField data acc field.
Proof.
  intros Hne. unfold coerceField, hasOwn, readProp.
  by rewrite getProp_deleteProp_ne.
Qed.

Lemma coerced_deleteProp (data : JsObject) (fs : list FieldDefinition) (key : string) :
  key ∉ map fieldName fs →
  coerced (deleteProp data key) fs = coerced data fs.
Proof.
  unfold coerced. generalize ([] : JsObject).
  induction fs as [| f fs IH]; intros acc Hk; [done |].
  simpl in *. apply not_elem_of_cons in Hk as [Hne Hk].
  rewrite coerceField_deleteProp by done. by apply IH.
Qed.

(** The safelist on every key but [hasOwnProperty]: a payload key that is not
    the name of a declared field never is a key of the coerced payload, and
    unless it is [hasOwnProperty] the coercion, and so the INSERT of [create]
    and the UPDATE of [update], are those of the payload without the key. *)
Lemma undeclared_key_is_dropped (model : ModelDefinition) (data : JsObject)
    (key : string) :
  key ∉ map fieldName (fields model) →
  (∀ sanitizedData,
     validateAndSanitizeData data (fields model) = Ok sanitizedData →
     key ∉ keys sanitizedData)
  ∧ (key ≠ "hasOwnProperty" →
     validateAndSanitizeData (deleteProp data key) (fields model)
     = validateAndSanitizeData data (fields model)
     ∧ (∀ ownerId, createData model (deleteProp data key) ownerId
                   = createData model data ownerId)
     ∧ (∀ stamp, updateData model (deleteProp data key) stamp
                 = updateData model data stamp)).
Proof.
  intros Hk. split.
  - intros sanitizedData Hs Hin. by apply (sanitize_keys _ _ _ _ Hs) in Hin as [? _].
  - intros Hne.
    assert (validateAndSanitizeData (deleteProp data key) (fields model)
            = validateAndSanitizeData data (fields model)) as Heq.
    { rewrite !validateAndSanitizeData_spec. unfold hasOwn.
      rewrite getProp_deleteProp_ne by done. by rewrite coerced_deleteProp. }
    split; [done |]. split.
    + intros ownerId. unfold createData. by rewrite Heq.
    + intros stamp. unfold updateData. by rewrite Heq.
Qed.

(** The columns [create] writes are declared fields of the payload and the
    owner field; those [update] writes are declared fields of the payload
    and [updatedAt]. *)
Lemma create_columns (model : ModelDefinition) (data sanitizedData : JsObject)
    (ownerId : option float) (c : string) :
  createData model data ownerId = Ok sanitizedData →
  c ∈ keys sanitizedData →
  c ∈ map fieldName (fields model) ∨ ownerField model = Some c.
Proof.
  unfold createData.
  destruct (validateAndSanitizeData data (fields model)) as [s0 |] eqn:Hs; [| done].
  intros [= <-] Hc. unfold withOwner in Hc.
  destruct ownerId as [o |]; [| left; by apply (sanitize_keys _ _ _ _ Hs) in Hc as [? _]].
  destruct (ownerField model) as [owner |] eqn:Ho; simpl in Hc;
    [| left; by apply (sanitize_keys _ _ _ _ Hs) in Hc as [? _]].
  destruct (JsString.isEmpty owner); simpl in Hc;
    [left; by apply (sanitize_keys _ _ _ _ Hs) in Hc as [? _] |].
  destruct (decide (owner = c)) as [-> | Hne]; [by right | left].
  apply getProp_keys in Hc. rewrite getProp_setProp_ne in Hc by done.
  apply getProp_keys in Hc. by apply (sanitize_keys _ _ _ _ Hs) in Hc as [? _].
Qed.

Lemma update_columns (model : ModelDefinition) (data sanitizedData : JsObject)
    (stamp : float) (c : string) :
  updateData model data stamp = Ok sanitizedData →
  c ∈ keys sanitizedData →
  c ∈ map fieldName (fields model) ∨ c = "updatedAt".
Proof.
  unfold updateData.
  destruct (validateAndSanitizeData data (fields model)) as [s0 |] eqn:Hs; [| done].
  intros [= <-] Hc.
  destruct (decide ("updatedAt" = c)) as [<- | Hne]; [by right | left].
  apply getProp_keys in Hc. rewrite getProp_setProp_ne in Hc by done.
  apply getProp_keys in Hc. by apply (sanitize_keys _ _ _ _ Hs) in Hc as [? _].
Qed.

End Coercion.

Section CoercionExamples.
Import DynamicApiService.
#[local] Existing Instance Demo.runtime.
#[local] Existing Instance Demo.server.

(** C9, where the code departs from it.  On the body [{active: "false"}] the
    boolean field is coerced to [true], as the claim says.  With one more
    key, [hasOwnProperty], nothing is coerced: the call
    [data.hasOwnProperty(key)] throws a TypeError.  And a boolean field
    named [__proto__] is left out although the body gives it a non-empty
    string: the assignment [sanitizedData[key] = true] adds no property. *)
Theorem boolean_field_is_lost_to_the_prototype :
  validateAndSanitizeData [("active", JStr "false")]
    [Demo.plainField "active" TBoolean]
  = Ok [("active", JBool true)]
  ∧ validateAndSanitizeData [("active", JStr "false"); ("hasOwnProperty", JNum 1%float)]
      [Demo.plainField "active" TBoolean]
    = Throw (TypeError "data.hasOwnProperty is not a function")
  ∧ validateAndSanitizeData [("__proto__", JStr "yes")]
      [Demo.plainField "__proto__" TBoolean]
    = Ok [].
Proof. repeat split. Qed.

(** C6, where the code departs from it.  [Product] declares the field
    [name].  The undeclared key [price] is dropped: the record is created
    from [name] alone.  The undeclared key [hasOwnProperty] is not: [create]
    and [update] throw a TypeError before any statement is built, and the
    world is as it was. *)
Theorem undeclared_key_hasOwnProperty_is_a_type_error :
  (∃ row w', create "Product" [("name", JStr "x"); ("price", JNum 1%float)]
               (Some 7%float) Demo.shop = (Ok (Some row), w')
             ∧ keys row = ["id"; "createdAt"; "updatedAt"; "name"; "creatorId"])
  ∧ create "Product" [("name", JStr "x"); ("hasOwnProperty", JNum 1%float)]
      (Some 7%float) Demo.shop
    = (Throw (TypeError "data.hasOwnProperty is not a function"), Demo.shop)
  ∧ update "Product" 1%float [("name", JStr "x"); ("hasOwnProperty", JNum 1%float)]
      Demo.shop
    = (Throw (TypeError "data.hasOwnProperty is not a function"), Demo.shop).
Proof.
  split; [| split].
  - vm_compute. eexists _, _. split; reflexivity.
  - vm_compute. reflexivity.
  - vm_compute. reflexivity.
Qed.

Example boolean_coercion_sample :
  ∃ sanitizedData,
    validateAndSanitizeData [("active", JStr "false")]
      [Demo.plainField "active" TBoolean] = Ok sanitizedData
    ∧ getProp sanitizedData "active" = Some (JBool true).
Proof.
  destruct (boolean_coercion [("active", JStr "false")]
              [Demo.plainField "active" TBoolean]
              (Demo.plainField "active" TBoolean) (JStr "false"))
    as (sanitizedData & Hs & Htrue & _); try done.
  - apply NoDup_singleton.
  - apply list_elem_of_here.
  - exists sanitizedData. split; [done |]. by apply (Htrue "false").
Qed.

Example undeclared_key_is_dropped_sample :
  let data := [("name", JStr "Manager Product"); ("price", JNum 100%float)] in
  createData Demo.product (deleteProp data "price") (Some 7%float)
  = createData Demo.product data (Some 7%float).
Proof.
  intros data.
  assert ("price" ∉ map fieldName (fields Demo.product)) as Hk.
  { apply arrayIncludes_false. reflexivity. }
  by apply (proj2 (undeclared_key_is_dropped Demo.product data "price" Hk)).
Qed.

End CoercionExamples.

(** ** The dynamic query engine: update (C4) *)

Section Update.
Context `{JsRuntime} `{PgServer}.
Import DynamicApiService.

(** On a registered model, every failure of [update] after the coercion
    reaches the caller as a BadRequest: the [catch] around the query also
    catches the NotFound thrown for an empty result.  The one other failure
    is the TypeError of the coercion, which runs before the [try]. *)
Lemma update_failures (w w' : World) (modelName : string)
    (model : ModelDefinition) (id : float) (data : JsObject) (e : Exception) :
  cache w !! modelName = Some model →
  update modelName id data w = (Throw e, w') →
  (∃ msg, e = BadRequestException msg)
  ∨ (e = TypeError "data.hasOwnProperty is not a function"
     ∧ is_Some (getProp data "hasOwnProperty")).
Proof.
  intros Hc. unfold update, getModel.
  unfold mbind, M_bind, getWorld, lift, ModelDefinitionCacheService.getModel.
  rewrite Hc. unfold updateData. rewrite validateAndSanitizeData_spec.
  destruct (hasOwn data "hasOwnProperty" && _) eqn:Hown.
  - intros [= <- _]. right. split; [done |].
    apply andb_true_iff in Hown as [Hown _]. unfold hasOwn in Hown.
    by destruct (getProp data "hasOwnProperty").
  - cbn [mbind result_bind]. intros Hupd. left. revert Hupd.
    destruct (Nat.leb _ 1); [intros [= <- _]; by eexists |].
    unfold tryCatch, throw, queryRaw.
    destruct (Pg.exec _ _ _) as [msg | rows db]; [intros [= <- _]; by eexists |].
    destruct rows as [| row rows]; [intros [= <- _]; by eexists | done].
Qed.

(** When the statement matches no row, the error is a BadRequest that
    carries the text of the NotFound. *)
Lemma update_missing_row (w : World) (modelName : string) (model : ModelDefinition)
    (id : float) (data sanitizedData : JsObject) (db : gmap string Table) :
  cache w !! modelName = Some model →
  updateData model data (now w) = Ok sanitizedData →
  Nat.leb (length (keys sanitizedData)) 1 = false →
  Pg.exec (now w) (updateQuery model id sanitizedData) (database w) = Pg.Done [] db →
  (update modelName id data w).1 =
    Throw (BadRequestException
             (trimmedMessage
                (NotFoundException ("Record with ID " +:+ NumberToString id
                                    +:+ " not found in " +:+ modelName
                                    +:+ " to update.")))).
Proof.
  intros Hc Hdata Hlen Hexec. unfold update, getModel.
  unfold mbind, M_bind, getWorld, lift, ModelDefinitionCacheService.getModel.
  rewrite Hc, Hdata, Hlen. unfold tryCatch, queryRaw. by rewrite Hexec.
Qed.

End Update.

Section UpdateExamples.
Import DynamicApiService.
#[local] Existing Instance Demo.runtime.
#[local] Existing Instance Demo.server.

(** C4, where the code departs from it.  [Product] is registered, its table
    holds the single row 1, and the payload has the declared field [name]:
    an update of row 999 fails, but with a BadRequest, not with the NotFound
    the [try] block throws. *)
Theorem update_of_missing_row_is_bad_request :
  (update "Product" 999%float [("name", JStr "x")] Demo.shop).1
  = Throw (BadRequestException "Record with ID 999 not found in Product to update.")
  ∧ (findOne "Product" 999%float Demo.shop).1
    = Throw (NotFoundException "Record with ID 999 not found in Product.").
Proof. split; vm_compute; reflexivity. Qed.

End UpdateExamples.

(** ** Publish: validation comes first (C7) *)

Section Validation.
Context `{JsRuntime} `{PgServer}.
Import ModelDefinitionsService.

Lemma validationError_cons (registry : gmap string ModelDefinition)
    (f : FieldDefinition) (fs : list FieldDefinition) (e : Exception) :
  validationError registry fs e → validationError registry (f :: fs) e.
Proof.
  intros [Hb | (msg & g & target & ? & ? & ?)]; [by left | right].
  exists msg, g, target. split; [done |]. split; [by right | done].
Qed.

Lemma validateRelation_throws (registry : gmap string ModelDefinition)
    (f : FieldDefinition) (e : Exception) :
  validateRelation registry f = Throw e → validationError registry [f] e.
Proof.
  unfold validateRelation. case_bool_decide as Hty; [| done].
  destruct (targetModel f) as [target |] eqn:Ht; simpl.
  - destruct (JsString.isEmpty target); simpl; [intros [= <-]; left; by eexists |].
    destruct (isValidIdentifier target); simpl; [| intros [= <-]; left; by eexists].
    unfold ModelDefinitionCacheService.getModel.
    destruct (registry !! target) eqn:Hr; simpl; [done |].
    intros [= <-]. right. eexists _, f, target. repeat split; try done. by left.
  - intros [= <-]. left. by eexists.
Qed.

Lemma validateFields_invalid_name (registry : gmap string ModelDefinition)
    (modelName : string) (fs : list FieldDefinition) (seen : gset string) :
  (∃ f, f ∈ fs ∧ isValidIdentifier (fieldName f) = false) →
  ∃ e, validateFields registry modelName seen fs = Throw e
       ∧ validationError registry fs e.
Proof.
  revert seen. induction fs as [| f fs IH]; intros seen (g & Hin & Hbad).
  { by apply elem_of_nil in Hin. }
  simpl. destruct (isValidIdentifier (fieldName f)) eqn:Hf; simpl.
  - assert (g ∈ fs) as Hin'.
    { apply elem_of_cons in Hin as [-> | ?]; [congruence | done]. }
    case_bool_decide; simpl; [eexists; split; [done | left; by eexists] |].
    destruct (validateRelation registry f) as [[] | e] eqn:Hrel; simpl.
    + destruct (negb (strictEq (fieldDefault f) JUndefined)
                && negb (isValidDefaultValue (fieldDefault f) (fieldType f))); simpl;
        [eexists; split; [done | left; by eexists] |].
      destruct (IH ({[JsString.toLowerCase (fieldName f)]} ∪ seen)) as (e & He & Hv);
        [by exists g |].
      exists e. split; [done | by apply validationError_cons].
    + exists e. split; [done |].
      apply validateRelation_throws in Hrel.
      destruct Hrel as [Hb | (msg & g' & target & ? & Hg' & ?)]; [by left | right].
      exists msg, g', target. split; [done |]. split; [| done].
      apply list_elem_of_singleton in Hg' as ->. by left.
  - eexists. split; [done | left; by eexists].
Qed.

Lemma validateModelDefinition_invalid (registry : gmap string ModelDefinition)
    (md : ModelDefinition) :
  isValidIdentifier (name md) = false
  ∨ (∃ t, tableName md = Some t ∧ t ≠ EmptyString ∧ isValidIdentifier t = false)
  ∨ (∃ f, f ∈ fields md ∧ isValidIdentifier (fieldName f) = false) →
  ∃ e, validateModelDefinition registry md = Throw e
       ∧ validationError registry (fields md) e.
Proof.
  intros Hbad. unfold validateModelDefinition.
  destruct (JsString.isEmpty (name md)); cbn [throwIf mbind result_bind];
    [eexists; split; [done | left; by eexists] |].
  destruct (isValidIdentifier (name md)) eqn:Hn; cbn [negb throwIf mbind result_bind];
    [| eexists; split; [done | left; by eexists]].
  destruct (JsString.arrayIncludes RESERVED_NAMES (JsString.toLowerCase (name md)));
    cbn [throwIf mbind result_bind];
    [eexists; split; [done | left; by eexists] |].
  destruct Hbad as [? | [(t & Ht & Hne & Hbad) | Hbad]]; [done | |].
  - rewrite Ht, truthyStr_Some by done. cbn [from_option id]. rewrite Hbad.
    cbn [negb andb throwIf mbind result_bind].
    eexists; split; [done | left; by eexists].
  - destruct (truthyStr (tableName md)
              && negb (isValidIdentifier (default EmptyString (tableName md))));
      cbn [throwIf mbind result_bind];
      [eexists; split; [done | left; by eexists] |].
    destruct (validateFields_invalid_name registry (name md) (fields md) ∅ Hbad)
      as (e & -> & He).
    by exists e.
Qed.

(** A definition that fails validation changes nothing. *)
Lemma publishModel_invalid (md : ModelDefinition) (w : World) (e : Exception) :
  validateModelDefinition (cache w) md = Throw e →
  publishModel md w = (Throw e, w).
Proof.
  intros Hv. unfold publishModel, mbind, M_bind, getWorld, lift. by rewrite Hv.
Qed.


(** When every relation target is registered, the error is a BadRequest. *)
Corollary identifier_safety_bad_request (md : ModelDefinition) (w : World) :
  (∀ g target, g ∈ fields md → fieldType g = TRelation →
               targetModel g = Some target → is_Some (cache w !! target)) →
  isValidIdentifier (name md) = false
  ∨ (∃ t, tableName md = Some t ∧ t ≠ EmptyString ∧ isValidIdentifier t = false)
  ∨ (∃ f, f ∈ fields md ∧ isValidIdentifier (fieldName f) = false) →
  ∃ msg, publishModel md w = (Throw (BadRequestException msg), w).
Proof.
  intros Hreg Hbad.
  destruct (validateModelDefinition_invalid (cache w) md Hbad)
    as (e & He & [(msg & ->) | (msg & g & target & -> & Hg & Hty & Ht & Hnone)]).
  - exists msg. by apply publishModel_invalid.
  - destruct (Hreg g target Hg Hty Ht) as [? Hsome]. congruence.
Qed.

End Validation.

(** ** Publish and delete: effects on the world (C3, C5, C10) *)

Section Effects.
Context `{JsRuntime} `{PgServer}.
Import ModelDefinitionsService.

Lemma runTransaction_throw (qs : list Sql) (w w' : World) (e : Exception) :
  runTransaction qs w = (Throw e, w') → w' = w.
Proof.
  unfold runTransaction. destruct (Pg.transaction _ _ _); [by intros [= _ <-] | done].
Qed.

Lemma createTable_throw (md : ModelDefinition) (w w' : World) (e : Exception) :
  createTable md w = (Throw e, w') → w' = w.
Proof.
  unfold createTable. destruct (Nat.eqb _ 0); [by intros [= _ <-] |].
  unfold mbind, M_bind, lift.
  destruct (mapResult mapFieldToSql (fields md)) as [cols | e0]; [| by intros [= _ <-]].
  unfold tryCatch.
  destruct (runTransaction _ w) as [[[] | e1] w1] eqn:Htx; [done |].
  apply runTransaction_throw in Htx as ->. by intros [= _ <-].
Qed.

Lemma migrateTable_throw (md : ModelDefinition) (currentSchema : list DbColumnInfo)
    (w w' : World) (e : Exception) :
  migrateTable md currentSchema w = (Throw e, w') → w' = w.
Proof.
  unfold migrateTable, mbind, M_bind, lift.
  destruct (migrationPlan md currentSchema) as [plan | e0]; [| by intros [= _ <-]].
  destruct (Nat.eqb _ 0); [done |].
  unfold tryCatch.
  destruct (runTransaction _ w) as [[[] | e1] w1] eqn:Htx; [done |].
  apply runTransaction_throw in Htx as ->. by intros [= _ <-].
Qed.

(** C5.  When the definition is valid and the convergence step of
    [publishModel] (creating the table when the catalog shows no column,
    migrating it otherwise) fails, [publishModel] fails with the same error
    and the world is the one before the call: no document is written, the
    registry is not refreshed and the database is unchanged. *)
Theorem publish_failure_is_atomic (md : ModelDefinition) (w w1 : World) (e : Exception) :
  validateModelDefinition (cache w) md = Ok () →
  (if negb (Nat.ltb 0 (length (default [] (Pg.selectColumns (database w)
                                   (tableNameText (completeDefinition md))))))
   then createTable (completeDefinition md)
   else migrateTable (completeDefinition md)
          (default [] (Pg.selectColumns (database w)
                         (tableNameText (completeDefinition md))))) w
  = (Throw e, w1) →
  publishModel md w = (Throw e, w).
Proof.
  intros Hv Hfail. unfold publishModel, getTableSchema.
  unfold mbind at 1 2 3 4. unfold M_bind, getWorld, lift, mret, M_ret.
  rewrite Hv. unfold mbind at 1. unfold M_bind.
  rewrite Hfail. f_equal.
  destruct (negb _).
  - by apply createTable_throw in Hfail.
  - by apply migrateTable_throw in Hfail.
Qed.

(** A failed publish of any kind leaves the world as it was. *)
Lemma publishModel_throw (md : ModelDefinition) (w w' : World) (e : Exception) :
  publishModel md w = (Throw e, w') → w' = w.
Proof.
  unfold publishModel, getTableSchema.
  unfold mbind at 1 2 3 4. unfold M_bind, getWorld, lift, mret, M_ret.
  destruct (validateModelDefinition (cache w) md) as [[] | e0]; [| by intros [= _ <-]].
  unfold mbind at 1. unfold M_bind.
  destruct (negb _).
  - destruct (createTable _ w) as [[r | e1] w1] eqn:Hc.
    + unfold writeDocument, ModelDefinitionCacheService.loadModel, setDocuments, setCache.
      unfold mbind, M_bind, getWorld, mret, M_ret. simpl.
      by destruct (_ !! name md).
    + apply createTable_throw in Hc as ->. by intros [= _ <-].
  - destruct (migrateTable _ _ w) as [[r | e1] w1] eqn:Hc.
    + unfold writeDocument, ModelDefinitionCacheService.loadModel, setDocuments, setCache.
      unfold mbind, M_bind, getWorld, mret, M_ret. simpl.
      by destruct (_ !! name md).
    + apply migrateTable_throw in Hc as ->. by intros [= _ <-].
Qed.

(** C10.  [deleteModel] of a stored definition drops the table whose name is
    the lower-cased model name, removes the document and the registry entry,
    and touches no other table: when the stored definition records a table
    name that is not the lower-cased model name, that table is in the
    database afterwards exactly as it was before. *)
Theorem deleteModel_ignores_tableName (w : World) (modelName : string) :
  isValidIdentifier modelName = true →
  is_Some (documents w !! modelName) →
  pg_rejects (database w) (DropTableIfExistsCascade (JsString.toLowerCase modelName))
    = None →
  ∃ msg w',
    deleteModel modelName w = (Ok msg, w')
    ∧ database w' = delete (JsString.toLowerCase modelName) (database w)
    ∧ documents w' = delete modelName (documents w)
    ∧ cache w' = delete modelName (cache w)
    ∧ ∀ md t, documents w !! modelName = Some md → tableName md = Some t →
              t ≠ JsString.toLowerCase modelName →
              database w' !! t = database w !! t.
Proof.
  intros Hvalid Hdoc Hrej. unfold deleteModel. rewrite Hvalid. cbn [negb].
  unfold mbind at 1. unfold M_bind, getWorld.
  rewrite bool_decide_eq_true_2 by done. cbn [negb].
  unfold tryCatch, queryRaw, Pg.exec, mbind, M_bind. rewrite Hrej.
  unfold getWorld, setDocuments, ModelDefinitionCacheService.removeModel, setCache,
    mbind, M_bind, getWorld, mret, M_ret. simpl.
  eexists _, _. split; [done |]. simpl. repeat split.
  intros md t _ _ Hne. by rewrite lookup_delete_ne.
Qed.

End Effects.

Section EffectsExamples.
Import ModelDefinitionsService.
#[local] Existing Instance Demo.runtime.
#[local] Existing Instance Demo.server.



Lemma publish_failure_is_atomic_witness :
  publishModel Demo.contract Demo.agency
  = (Throw (InternalServerError
              "Failed to create database table. Check field names, types, or if a table with this name already exists."),
     Demo.agency).
Proof.
  apply (publish_failure_is_atomic Demo.contract Demo.agency Demo.agency).
  - vm_compute. reflexivity.
  - vm_compute. reflexivity.
Defined.

Lemma deleteModel_ignores_tableName_witness :
  ∃ msg w',
    deleteModel "Client" Demo.agency = (Ok msg, w')
    ∧ documents w' !! "Client" = None
    ∧ cache w' !! "Client" = None
    ∧ database w' !! "clients_tbl" = database Demo.agency !! "clients_tbl"
    ∧ is_Some (database Demo.agency !! "clients_tbl").
Proof.
  destruct (deleteModel_ignores_tableName Demo.agency "Client")
    as (msg & w' & Hdel & Hdb & Hdocs & Hcache & Hkeep).
  - reflexivity.
  - vm_compute. by eexists.
  - reflexivity.
  - exists msg, w'. split; [exact Hdel |].
    split; [rewrite Hdocs; apply lookup_delete_eq |].
    split; [rewrite Hcache; apply lookup_delete_eq |].
    split.
    + apply (Hkeep (completeDefinition Demo.client) "clients_tbl").
      * vm_compute. reflexivity.
      * reflexivity.
      * discriminate.
    + vm_compute. by eexists.
Defined.

(** The catalog shows an INTEGER column as [integer], which reads back as a
    number: a relation field always differs from its own column. *)
Lemma relation_column_is_retyped (tableName : string) (field : FieldDefinition)
    (existingColumn : DbColumnInfo) :
  fieldType field = TRelation →
  data_type existingColumn = Pg.dataType "INTEGER" →
  typeChangePlan tableName field existingColumn
  = ([AlterColumnType tableName (fieldName field) "INTEGER" EmptyString],
     ["🔄 Changing column type: " +:+ fieldName field +:+ " (number → relation)"]).
Proof.
  intros Hty Hdt. unfold typeChangePlan, usingClauseFor. by rewrite Hty, Hdt.
Qed.

(** C3, where the code departs from it.  [Customer] and then [Invoice], a
    model with one relation field, are published on an empty database; the
    first publish of [Invoice] creates its table.  Publishing the same
    definition again, with nothing in between, does not give the
    up-to-date result: it reports one schema change and sends an
    ALTER COLUMN TYPE statement. *)
Theorem republish_with_relation_is_not_idempotent :
  (Demo.publish Demo.invoice (Demo.after (Demo.publish Demo.customer) Demo.emptyWorld)).1
  = Ok {| response := {| message := "Model 'Invoice' published and table created successfully!";
                         changes := None |};
          model := completeDefinition Demo.invoice |}
  ∧ (Demo.publish Demo.invoice Demo.ledger).1
    = Ok {| response :=
              {| message := "✅ Model 'Invoice' updated successfully with 1 schema change(s).";
                 changes := Some ["🔄 Changing column type: customer (number → relation)"] |};
            model := completeDefinition Demo.invoice |}
  ∧ migrationPlan (completeDefinition Demo.invoice)
      (default [] (Pg.selectColumns (database Demo.ledger) "invoice"))
    = Ok ([AlterColumnType "invoice" "customer" "INTEGER" EmptyString],
          ["🔄 Changing column type: customer (number → relation)"]).
Proof. repeat split; vm_compute; reflexivity. Qed.

End EffectsExamples.

(** ** The migration plan drops only the computed columns *)

Section MigrationPlan.
Context `{JsRuntime}.
Import ModelDefinitionsService.

Lemma mapResult_Forall {A B} (f : A → Result B) (P : B → Prop) (l : list A)
    (ys : list B) :
  (∀ x y, f x = Ok y → P y) →
  mapResult f l = Ok ys → Forall P ys.
Proof.
  intros Hf. revert ys. induction l as [| x l IH]; intros ys; simpl.
  - intros [= <-]. constructor.
  - destruct (f x) as [y | e] eqn:Hx; simpl; [| done].
    destruct (mapResult f l) as [ys' | e] eqn:Hl; simpl; [| done].
    intros [= <-]. constructor; [by eapply Hf | by apply IH].
Qed.

Lemma concatPlans_queries (Q : Sql → Prop) (ps : list Plan) :
  Forall (λ p : Plan, Forall Q p.1) ps → Forall Q (concatPlans ps).1.
Proof.
  induction 1 as [| p ps Hp _ IH]; simpl; [constructor |].
  apply Forall_app. by split.
Qed.

Lemma fieldPlan_never_drops (md : ModelDefinition) (currentSchema : list DbColumnInfo)
    (field : FieldDefinition) (p : Plan) :
  fieldPlan md currentSchema field = Ok p →
  Forall (λ q, ∀ t c, q ≠ DropColumnIfExistsCascade t c) p.1.
Proof.
  unfold fieldPlan, typeChangePlan, nullabilityPlan, defaultPlan, planApp.
  unfold mbind, result_bind.
  intros Hp. repeat case_match; simplify_eq; simpl;
    repeat constructor; intros; discriminate.
Qed.

(** Every DROP COLUMN of the plan is for a column of [columnsToDrop]; with
    [protected_columns_never_dropped], no statement of a migration drops a
    protected column. *)
Lemma migrationPlan_drops (md : ModelDefinition) (currentSchema : list DbColumnInfo)
    (plan : Plan) (t c : string) :
  migrationPlan md currentSchema = Ok plan →
  DropColumnIfExistsCascade t c ∈ plan.1 →
  c ∈ columnsToDrop md currentSchema.
Proof.
  unfold migrationPlan. unfold mbind, result_bind.
  destruct (mapResult (addColumnPlan _) _) as [adds |] eqn:Hadds; [| done].
  destruct (mapResult (fieldPlan _ _) _) as [changes |] eqn:Hchanges; [| done].
  intros [= <-]. unfold planApp. simpl. rewrite !elem_of_app.
  assert (Forall (λ q, ∀ t c, q ≠ DropColumnIfExistsCascade t c) (concatPlans adds).1)
    as Hadds'.
  { apply concatPlans_queries.
    apply (mapResult_Forall (addColumnPlan (tableNameText md)) _
             (columnsToAdd md currentSchema)); [| done].
    intros x y. unfold addColumnPlan, mbind, result_bind.
    destruct (mapFieldToSql x); [| done].
    intros [= <-]. simpl. repeat constructor; intros; discriminate. }
  assert (Forall (λ q, ∀ t c, q ≠ DropColumnIfExistsCascade t c)
                 (concatPlans changes).1) as Hchanges'.
  { apply concatPlans_queries.
    apply (mapResult_Forall (fieldPlan md currentSchema) _ (fields md)); [| done].
    intros x y. apply fieldPlan_never_drops. }
  rewrite Forall_forall in Hadds'. rewrite Forall_forall in Hchanges'.
  intros [Hin | [Hin | Hin]].
  - exfalso. by eapply Hadds'.
  - clear -Hin.
    induction (columnsToDrop md currentSchema) as [| col cols IH]; simpl in Hin.
    + by apply elem_of_nil in Hin.
    + apply elem_of_cons in Hin as [Heq | Hin]; [| right; by apply IH].
      injection Heq as _ ->. by left.
  - exfalso. by eapply Hchanges'.
Qed.

End MigrationPlan.

(** ** The rest of the update contract *)

Section UpdateContract.
Context `{JsRuntime} `{PgServer}.
Import DynamicApiService.

(** [update] always stamps [updatedAt], over whatever the payload gave. *)
Lemma update_stamps_updatedAt (model : ModelDefinition) (data sanitizedData : JsObject)
    (stamp : float) :
  updateData model data stamp = Ok sanitizedData →
  getProp sanitizedData "updatedAt" = Some (JDate stamp).
Proof.
  unfold updateData. destruct (validateAndSanitizeData _ _); [| done].
  intros [= <-]. by apply getProp_setProp_eq.
Qed.

(** No field left by the coercion: a BadRequest, and no statement. *)
Lemma update_without_fields (w : World) (modelName : string) (model : ModelDefinition)
    (id : float) (data : JsObject) :
  cache w !! modelName = Some model →
  validateAndSanitizeData data (fields model) = Ok [] →
  update modelName id data w
  = (Throw (BadRequestException "No valid fields provided for update."), w).
Proof.
  intros Hc Hempty. unfold update, getModel.
  unfold mbind, M_bind, getWorld, lift, ModelDefinitionCacheService.getModel.
  rewrite Hc. unfold updateData. by rewrite Hempty.
Qed.

(** A row matched: the first row the statement returns is the result. *)
Lemma update_existing_row (w : World) (modelName : string) (model : ModelDefinition)
    (id : float) (data sanitizedData : JsObject) (row : JsObject)
    (rows : list JsObject) (db : gmap string Table) :
  cache w !! modelName = Some model →
  updateData model data (now w) = Ok sanitizedData →
  Nat.leb (length (keys sanitizedData)) 1 = false →
  Pg.exec (now w) (updateQuery model id sanitizedData) (database w)
  = Pg.Done (row :: rows) db →
  (update modelName id data w).1 = Ok row.
Proof.
  intros Hc Hdata Hlen Hexec. unfold update, getModel.
  unfold mbind, M_bind, getWorld, lift, ModelDefinitionCacheService.getModel.
  rewrite Hc, Hdata, Hlen. unfold tryCatch, queryRaw. by rewrite Hexec.
Qed.

End UpdateContract.

(** ** Republishing a definition without relation fields and defaults *)

Section Idempotence.
Context `{JsRuntime} `{PgServer}.
Import ModelDefinitionsService.

Lemma mapFieldToSql_plain (f : FieldDefinition) (c : ColumnSql) :
  fieldType f ≠ TRelation → hasDefault (fieldDefault f) = false →
  mapFieldToSql f = Ok c →
  col_name c = fieldName f ∧ Pg.columnInfo c = createdColumn f.
Proof.
  intros Hty Hdef. unfold mapFieldToSql, createdColumn, Pg.columnInfo. rewrite Hdef.
  destruct (isValidIdentifier (fieldName f)); [| done]. simpl.
  rewrite bool_decide_eq_false_2 by done.
  destruct (fieldType f) eqn:E; try done; simpl; by intros [= <-].
Qed.

Lemma mapFieldToSql_columns (fs : list FieldDefinition) (cols : list ColumnSql) :
  (∀ f, f ∈ fs → fieldType f ≠ TRelation ∧ hasDefault (fieldDefault f) = false) →
  mapResult mapFieldToSql fs = Ok cols →
  map col_name cols = map fieldName fs
  ∧ map Pg.columnInfo cols = map createdColumn fs.
Proof.
  revert cols. induction fs as [| f fs IH]; intros cols Hplain; simpl.
  - by intros [= <-].
  - destruct (mapFieldToSql f) as [c |] eqn:Hc; [| done]. simpl.
    destruct (mapResult mapFieldToSql fs) as [cs |] eqn:Hcs; [| done]. simpl.
    intros [= <-]. simpl.
    destruct (Hplain f) as [Hty Hdef]; [by left |].
    destruct (mapFieldToSql_plain f c Hty Hdef Hc) as [-> ->].
    destruct (IH cs) as [-> ->]; [| done | done].
    intros g Hg. apply Hplain. by right.
Qed.

(** The catalog after a successful [createTable] on a database without the
    table. *)
Lemma createTable_catalog (md : ModelDefinition) (w w1 : World) (r : Response) :
  (∀ f, f ∈ fields md → fieldType f ≠ TRelation ∧ hasDefault (fieldDefault f) = false) →
  database w !! tableNameText md = None →
  createTable md w = (Ok r, w1) →
  ∃ t, database w1 !! tableNameText md = Some t
       ∧ tbl_columns t = Pg.systemColumns (tableNameText md)
                         ++ map createdColumn (fields md)
       ∧ Pg.noDuplicates (Pg.columnNames (Pg.systemColumns (tableNameText md))
                          ++ map fieldName (fields md)) = true
       ∧ fields md ≠ [].
Proof.
  intros Hplain Hnone. unfold createTable.
  destruct (fields md) as [| f0 fs0] eqn:Hfs; [done |].
  rewrite <- Hfs in *. replace (Nat.eqb (length (fields md)) 0) with false
    by (by rewrite Hfs).
  unfold mbind at 1. unfold M_bind, lift.
  destruct (mapResult mapFieldToSql (fields md)) as [cols |] eqn:Hcols; [| done].
  destruct (mapFieldToSql_columns _ _ Hplain Hcols) as [Hnames Hinfos].
  unfold tryCatch, mbind, M_bind, runTransaction. simpl.
  unfold Pg.exec at 1.
  destruct (pg_rejects _ (CreateTableIfNotExists _ _)); [done |].
  rewrite Hnone.
  destruct (negb (forallb _ cols)); [done |].
  destruct (Pg.noDuplicates _) eqn:Hnd; [| done]. cbn [negb].
  unfold Pg.exec at 1.
  destruct (pg_rejects _ CreateUpdatedAtFunction); [done |].
  unfold Pg.exec at 1.
  destruct (pg_rejects _ (DropTriggerIfExists _)); [done |].
  rewrite lookup_insert_eq.
  unfold Pg.exec at 1.
  destruct (pg_rejects _ (CreateTrigger _)); [done |].
  rewrite lookup_insert_eq. cbn [Pg.withTrigger tbl_trigger].
  intros [= _ <-]. cbn [database].
  rewrite lookup_insert_eq. eexists. split; [done |].
  cbn [tbl_columns Pg.withTrigger]. rewrite Hinfos, <- Hnames.
  split; [done |]. split; [done |]. by rewrite Hfs.
Qed.

Lemma noDuplicates_NoDup (l : list string) : Pg.noDuplicates l = true → NoDup l.
Proof.
  induction l as [| x l IH]; simpl; [constructor |].
  rewrite andb_true_iff, negb_true_iff, arrayIncludes_false.
  intros [Hx Hl]. constructor; [done | by apply IH].
Qed.

Lemma find_by_name (schema : list DbColumnInfo) (ci : DbColumnInfo) :
  NoDup (map column_name schema) → ci ∈ schema →
  List.find (λ c, String.eqb (column_name c) (column_name ci)) schema = Some ci.
Proof.
  induction schema as [| c schema IH]; simpl; intros Hnd Hin.
  { by apply elem_of_nil in Hin. }
  apply NoDup_cons in Hnd as [Hc Hnd].
  apply elem_of_cons in Hin as [-> | Hin]; [by rewrite String.eqb_refl |].
  destruct (String.eqb (column_name c) (column_name ci)) eqn:E; [| by apply IH].
  apply String.eqb_eq in E. exfalso. apply Hc. rewrite E.
  apply list_elem_of_fmap. by exists ci.
Qed.

Lemma filter_none {A} (f : A → bool) (l : list A) :
  (∀ x, x ∈ l → f x = false) → List.filter f l = [].
Proof.
  induction l as [| x l IH]; intros Hf; simpl; [done |].
  rewrite (Hf x) by by left. apply IH. intros y Hy. apply Hf. by right.
Qed.

Lemma mapResult_const {A B} (f : A → Result B) (b : B) (l : list A) :
  (∀ x, x ∈ l → f x = Ok b) → mapResult f l = Ok (map (λ _, b) l).
Proof.
  induction l as [| x l IH]; intros Hf; simpl; [done |].
  rewrite (Hf x) by by left. simpl. rewrite IH; [done |].
  intros y Hy. apply Hf. by right.
Qed.

Lemma concatPlans_empty {A} (l : list A) :
  concatPlans (map (λ _, ([], []) : Plan) l) = ([], []).
Proof. induction l as [| x l IH]; simpl; [done |]. by rewrite IH. Qed.

(** The catalog row of a column that was created for a field without relation
    and default asks for no change of that field. *)
Lemma created_column_needs_no_change (tn : string) (f : FieldDefinition) :
  fieldType f ≠ TRelation → hasDefault (fieldDefault f) = false →
  typeChangePlan tn f (createdColumn f) = ([], [])
  ∧ nullabilityPlan tn f (createdColumn f) = Ok ([], [])
  ∧ defaultPlan tn f (createdColumn f) = Ok ([], []).
Proof.
  intros Hty Hdef. split; [| split].
  - unfold typeChangePlan, createdColumn. simpl.
    destruct (fieldType f); try done; reflexivity.
  - unfold nullabilityPlan, createdColumn. simpl.
    destruct (required f) as [[|] |]; reflexivity.
  - unfold defaultPlan. rewrite Hdef. reflexivity.
Qed.

(** The plan computed against the catalog of a table that [createTable] has
    just made of the same definition is empty. *)
Lemma migrationPlan_after_create (md : ModelDefinition) :
  (∀ f, f ∈ fields md → fieldType f ≠ TRelation ∧ hasDefault (fieldDefault f) = false) →
  Pg.noDuplicates (Pg.columnNames (Pg.systemColumns (tableNameText md))
                   ++ map fieldName (fields md)) = true →
  migrationPlan md (Pg.systemColumns (tableNameText md) ++ map createdColumn (fields md))
  = Ok ([], []).
Proof.
  intros Hplain Hnd. apply noDuplicates_NoDup in Hnd.
  set (schema := Pg.systemColumns (tableNameText md) ++ map createdColumn (fields md)).
  assert (map column_name schema
          = Pg.columnNames (Pg.systemColumns (tableNameText md))
            ++ map fieldName (fields md)) as Hnames.
  { unfold schema. rewrite map_app, map_map. done. }
  unfold migrationPlan.
  assert (columnsToAdd md schema = []) as ->.
  { apply filter_none. intros f Hf. apply negb_false_iff, arrayIncludes_true.
    unfold existingColumnNames. rewrite Hnames. apply elem_of_app. right.
    apply list_elem_of_fmap. by exists f. }
  assert (columnsToDrop md schema = []) as ->.
  { apply filter_none. intros col Hcol. unfold existingColumnNames in Hcol.
    rewrite Hnames in Hcol. apply elem_of_app in Hcol as [Hsys | Hfield].
    - apply andb_false_iff. right. apply negb_false_iff, arrayIncludes_true.
      unfold protectedColumns. apply elem_of_app. by left.
    - apply andb_false_iff. left. by apply negb_false_iff, arrayIncludes_true. }
  simpl.
  rewrite (mapResult_const (fieldPlan md schema) ([], [])).
  { simpl. by rewrite concatPlans_empty. }
  intros f Hf. destruct (Hplain f Hf) as [Hty Hdef].
  unfold fieldPlan.
  assert (List.find (λ c, String.eqb (column_name c) (fieldName f)) schema
          = Some (createdColumn f)) as ->.
  { apply (find_by_name schema (createdColumn f)); [by rewrite Hnames |].
    unfold schema. apply elem_of_app. right. apply list_elem_of_fmap. by exists f. }
  destruct (negb _); [| done].
  destruct (created_column_needs_no_change (tableNameText md) f Hty Hdef)
    as (-> & -> & ->). done.
Qed.

Lemma validateFields_registry (r1 r2 : gmap string ModelDefinition)
    (modelName : string) (fs : list FieldDefinition) (seen : gset string) :
  (∀ f, f ∈ fs → fieldType f ≠ TRelation) →
  validateFields r1 modelName seen fs = validateFields r2 modelName seen fs.
Proof.
  revert seen. induction fs as [| f fs IH]; intros seen Hplain; [done |].
  simpl. unfold validateRelation.
  rewrite bool_decide_eq_false_2 by (apply Hplain; by left).
  rewrite IH; [done |]. intros g Hg. apply Hplain. by right.
Qed.

Lemma validateModelDefinition_registry (r1 r2 : gmap string ModelDefinition)
    (md : ModelDefinition) :
  (∀ f, f ∈ fields md → fieldType f ≠ TRelation) →
  validateModelDefinition r1 md = validateModelDefinition r2 md.
Proof.
  intros Hplain. unfold validateModelDefinition.
  by rewrite (validateFields_registry r1 r2).
Qed.

Lemma fields_completeDefinition (md : ModelDefinition) (f : FieldDefinition) :
  f ∈ fields md → f ∈ fields (completeDefinition md).
Proof.
  intros Hf. unfold completeDefinition. simpl.
  destruct (_ && _); [apply elem_of_app; by left | done].
Qed.

(** Publishing a second time, right after a publish that created the table,
    a definition without relation fields and default values: the result is
    the up-to-date one, with an empty change list, and the database is the
    same. *)
Lemma republish_without_relation_is_idempotent (md : ModelDefinition) (w w1 : World)
    (r : PublishResponse) :
  (∀ f, f ∈ fields (completeDefinition md) →
        fieldType f ≠ TRelation ∧ hasDefault (fieldDefault f) = false) →
  database w !! tableNameText (completeDefinition md) = None →
  publishModel md w = (Ok r, w1) →
  pg_rejects (database w1) (SelectColumns (tableNameText (completeDefinition md))) = None →
  ∃ w2, publishModel md w1
        = (Ok {| response := upToDate (completeDefinition md);
                 model := completeDefinition md |}, w2)
        ∧ database w2 = database w1.
Proof.
  intros Hplain Hnone Hfirst Hrej.
  set (md' := completeDefinition md) in *.
  (* the first publish *)
  unfold publishModel, getTableSchema in Hfirst.
  unfold mbind at 1 2 3 4 in Hfirst. unfold M_bind, getWorld, lift, mret, M_ret in Hfirst.
  destruct (validateModelDefinition (cache w) md) as [[] |] eqn:Hvalid; [| done].
  unfold mbind at 1 in Hfirst. unfold M_bind in Hfirst. fold md' in Hfirst.
  assert (default [] (Pg.selectColumns (database w) (tableNameText md')) = []) as Hschema0.
  { unfold Pg.selectColumns. destruct (pg_rejects (database w) _); [done |].
    by rewrite Hnone. }
  rewrite Hschema0 in Hfirst. cbn [length Nat.ltb Nat.leb negb] in Hfirst.
  destruct (createTable md' w) as [[resp |] wc] eqn:Hcreate; [| done].
  destruct (createTable_catalog md' w wc resp Hplain Hnone Hcreate)
    as (t & Ht & Hcols & Hnd & Hne).
  assert (database w1 = database wc) as Hdb.
  { revert Hfirst. unfold writeDocument, ModelDefinitionCacheService.loadModel,
      setDocuments, setCache, mbind, M_bind, getWorld, mret, M_ret. simpl.
    destruct (_ !! name md); by intros [= _ <-]. }
  (* the second publish *)
  unfold publishModel, getTableSchema.
  unfold mbind at 1 2 3 4. unfold M_bind, getWorld, lift, mret, M_ret.
  rewrite (validateModelDefinition_registry (cache w1) (cache w) md), Hvalid
    by (intros f Hf; by apply Hplain, fields_completeDefinition).
  unfold mbind at 1. unfold M_bind. fold md'.
  assert (default [] (Pg.selectColumns (database w1) (tableNameText md'))
          = Pg.systemColumns (tableNameText md') ++ map createdColumn (fields md'))
    as ->.
  { unfold Pg.selectColumns. by rewrite Hrej, Hdb, Ht, Hcols. }
  cbn [app length Pg.systemColumns Nat.ltb Nat.leb negb].
  unfold migrateTable. unfold mbind at 1. unfold M_bind, lift.
  change ({| column_name := "id"; data_type := "integer"; is_nullable := "NO";
             column_default := Some ("nextval('" +:+ tableNameText md'
                                     +:+ "_id_seq'::regclass)") |}
          :: {| column_name := "createdAt"; data_type := "timestamp with time zone";
                is_nullable := "YES"; column_default := Some "CURRENT_TIMESTAMP" |}
          :: {| column_name := "updatedAt"; data_type := "timestamp with time zone";
                is_nullable := "YES"; column_default := Some "CURRENT_TIMESTAMP" |}
          :: map createdColumn (fields md'))
    with (Pg.systemColumns (tableNameText md') ++ map createdColumn (fields md')).
  rewrite (migrationPlan_after_create md' Hplain Hnd).
  cbn [fst snd length Nat.eqb].
  unfold writeDocument, ModelDefinitionCacheService.loadModel,
    setDocuments, setCache, mbind, M_bind, getWorld, mret, M_ret. simpl.
  rewrite lookup_insert_eq. simpl.
  eexists. split; [done |]. done.
Qed.

End Idempotence.

Section IdempotenceExamples.
Import ModelDefinitionsService.
#[local] Existing Instance Demo.runtime.
#[local] Existing Instance Demo.server.

(** [Customer] has one text field: its second publish is the up-to-date one. *)
Example republish_customer :
  ∃ w2, publishModel Demo.customer (Demo.after (Demo.publish Demo.customer) Demo.emptyWorld)
        = (Ok {| response := upToDate (completeDefinition Demo.customer);
                 model := completeDefinition Demo.customer |}, w2)
        ∧ database w2 = database (Demo.after (Demo.publish Demo.customer) Demo.emptyWorld).
Proof.
  assert (∃ r, publishModel Demo.customer Demo.emptyWorld
               = (Ok r, Demo.after (Demo.publish Demo.customer) Demo.emptyWorld))
    as [r Hfirst] by (vm_compute; by eexists).
  apply (republish_without_relation_is_idempotent Demo.customer Demo.emptyWorld _ r).
  - intros f Hf. apply list_elem_of_singleton in Hf as ->. by split.
  - reflexivity.
  - exact Hfirst.
  - reflexivity.
Defined.

End IdempotenceExamples.

(** ** The helpers on sample inputs *)

Section Samples.
#[local] Existing Instance Demo.runtime.

Example isValidIdentifier_samples :
  isValidIdentifier "creator_Id2" = true ∧ isValidIdentifier "_" = true
  ∧ isValidIdentifier "2fast" = false ∧ isValidIdentifier "bad-name" = false
  ∧ isValidIdentifier EmptyString = false.
Proof. repeat split. Qed.

Example mapDbTypeToFieldType_samples :
  mapDbTypeToFieldType "text" = Some TString
  ∧ mapDbTypeToFieldType "double precision" = Some TNumber
  ∧ mapDbTypeToFieldType "integer" = Some TNumber
  ∧ mapDbTypeToFieldType "boolean" = Some TBoolean
  ∧ mapDbTypeToFieldType "timestamp with time zone" = Some TDate
  ∧ mapDbTypeToFieldType "bytea" = None.
Proof. repeat split. Qed.

Example forbidden_keyword_samples :
  mentionsForbiddenKeyword "x'; drop table users" = true
  ∧ mentionsForbiddenKeyword "dropped" = false
  ∧ isValidDefaultValue (JStr "a;b") TString = false
  ∧ isValidDefaultValue (JStr "12") TNumber = true
  ∧ isValidDefaultValue (JStr "twelve") TNumber = false
  ∧ isValidDefaultValue (JStr "TRUE") TBoolean = true.
Proof. repeat split. Qed.

Example trimmedMessage_samples :
  DynamicApiService.trimmedMessage
    (PrismaError "Raw query failed. ERROR: duplicate key value
DETAIL: Key (name) already exists.")
  = "duplicate key value"
  ∧ DynamicApiService.trimmedMessage (NotFoundException "Record with ID 9 not found.")
    = "Record with ID 9 not found.".
Proof. repeat split. Qed.

End Samples.

(** * Further properties of the code *)

(** ** The guard and findOne *)

Section GuardBehaviour.
Context `{JsRuntime} `{PgServer}.
Import RbacGuard.


Lemma findOne_read_only (w : World) (modelName : string) (id : float) :
  (DynamicApiService.findOne modelName id w).2 = w.
Proof.
  unfold DynamicApiService.findOne, DynamicApiService.getModel.
  unfold mbind, M_bind, getWorld, lift, ModelDefinitionCacheService.getModel.
  destruct (cache w !! modelName) as [modelDef |]; [| done].
  unfold queryRaw, Pg.exec.
  destruct (pg_rejects _ _); [done |].
  destruct (database w !! _) as [t |]; [| done].
  rewrite world_eta. by destruct (List.filter _ _).
Qed.


(** The access decision reads the registry and the database and changes
    neither: whatever the request and whatever the outcome, the world after
    [canActivate] is the world before. *)
Theorem canActivate_is_read_only (request : Request) (w : World) :
  (canActivate request w).2 = w.
Proof.
  unfold canActivate.
  destruct (isPublic request); [done |].
  destruct (authenticationMissing (user request)); [done |].
  destruct (user request) as [u |]; [| done].
  destruct (negb (truthyStr (paramModelName request))); [done |].
  destruct (requiredPermissionOf (method request)) as [permission |]; [| done].
  unfold mbind at 1. unfold M_bind, getWorld.
  unfold mbind at 1. unfold M_bind, lift.
  destruct (ModelDefinitionCacheService.getModel _ _) as [modelDef |]; [| done].
  destruct (negb (hasRolePermission _ _ _)); [done |].
  destruct (_ && _); [| done].
  unfold ownershipCheck. destruct (negb (truthy _)); [done |].
  unfold mbind, M_bind.
  pose proof (findOne_read_only w (default EmptyString (paramModelName request))
                (ToNumber (recordIdOf (paramId request)))) as Hro.
  destruct (DynamicApiService.findOne _ _ w) as [[record |] w']; simpl in Hro;
    subst w'; [| done].
  by destruct (negb (strictEq _ _)).
Qed.

(** Ownership restricts neither creating nor reading: a POST or GET on a
    registered model is allowed as soon as the role holds the permission (or
    [all]), whatever the owner field, the id parameter and the rows are. *)
Theorem create_and_read_skip_the_ownership_check (request : Request) (w : World)
    (u : User) (modelName permission : string) (modelDef : ModelDefinition) :
  isPublic request = false →
  user request = Some u →
  authenticationMissing (Some u) = false →
  paramModelName request = Some modelName → modelName ≠ EmptyString →
  method request = "POST" ∨ method request = "GET" →
  requiredPermissionOf (method request) = Some permission →
  cache w !! modelName = Some modelDef →
  permission ∈ rolePermissionsOf modelDef (role u)
  ∨ "all" ∈ rolePermissionsOf modelDef (role u) →
  canActivate request w = (Ok true, w).
Proof.
  intros Hpub Hu Hauth Hm Hne Hmethod Hperm Hc Hhas.
  erewrite canActivate_resource by done.
  apply hasRolePermission_true in Hhas. rewrite Hhas. cbn [negb].
  assert (permission = "create" ∨ permission = "read") as Hkind.
  { destruct Hmethod as [Hx | Hx]; rewrite Hx in Hperm; injection Hperm as <-; auto. }
  by destruct Hkind as [-> | ->].
Qed.


End GuardBehaviour.

Section GuardBehaviourExamples.
Import RbacGuard.
#[local] Existing Instance Demo.runtime.
#[local] Existing Instance Demo.server.


Lemma create_and_read_skip_the_ownership_check_witness :
  canActivate (Demo.request "GET" "Viewer" 9%float (Some "1")) Demo.shop
  = (Ok true, Demo.shop).
Proof.
  apply (create_and_read_skip_the_ownership_check
           (Demo.request "GET" "Viewer" 9%float (Some "1")) Demo.shop
           {| role := "Viewer"; sub := 9%float |} "Product" "read"
           (ModelDefinitionsService.completeDefinition Demo.product));
    try reflexivity; try discriminate.
  - by right.
  - left. apply arrayIncludes_true. vm_compute. reflexivity.
Defined.


End GuardBehaviourExamples.

(** ** The dynamic query engine: payloads *)

Section Payloads.
Context `{JsRuntime} `{PgServer}.
Import DynamicApiService.




(** A field the payload does not have is absent from the coerced payload. *)
Lemma coerced_absent (data : JsObject) (fs : list FieldDefinition) (k : string) :
  getProp data k = None → getProp (coerced data fs) k = None.
Proof.
  intros Hk. destruct (getProp (coerced data fs) k) eqn:E; [| done].
  assert (k ∈ keys (coerced data fs)) as Hin
    by (apply getProp_keys; by rewrite E).
  apply coerced_keys in Hin as [_ Hown]. unfold hasOwn in Hown.
  by rewrite Hk in Hown.
Qed.

Lemma coerced_nothing_declared (data : JsObject) (fs : list FieldDefinition) :
  (∀ f, f ∈ fs → getProp data (fieldName f) = None) →
  coerced data fs = [].
Proof.
  unfold coerced. generalize ([] : JsObject).
  induction fs as [| f fs IH]; intros acc Hnone; [done |].
  simpl. assert (coerceField data acc f = acc) as ->.
  { unfold coerceField, hasOwn. by rewrite (Hnone f) by by left. }
  apply IH. intros g Hg. apply Hnone. by right.
Qed.

(** A payload that has none of the declared fields, and no own property
    [hasOwnProperty], is refused by [update] with a BadRequest, before any
    statement is sent, whatever else it holds. *)
Theorem update_without_declared_field (w : World) (modelName : string)
    (model : ModelDefinition) (id : float) (data : JsObject) :
  cache w !! modelName = Some model →
  getProp data "hasOwnProperty" = None →
  (∀ f, f ∈ fields model → getProp data (fieldName f) = None) →
  update modelName id data w
  = (Throw (BadRequestException "No valid fields provided for update."), w).
Proof.
  intros Hc Hown Hnone. apply (update_without_fields w modelName model); [done |].
  rewrite coerced_spec by done. by rewrite coerced_nothing_declared.
Qed.

(** The same payload is refused by [create] when there is no owner to
    record: the model has no owner field, or no owner id is given. *)
Theorem create_without_declared_field (w : World) (modelName : string)
    (model : ModelDefinition) (data : JsObject) (ownerId : option float) :
  cache w !! modelName = Some model →
  getProp data "hasOwnProperty" = None →
  (∀ f, f ∈ fields model → getProp data (fieldName f) = None) →
  truthyStr (ownerField model) = false ∨ ownerId = None →
  create modelName data ownerId w
  = (Throw (BadRequestException "Cannot create record with empty data."), w).
Proof.
  intros Hc Hown Hnone Howner. unfold create, getModel.
  unfold mbind, M_bind, getWorld, lift, ModelDefinitionCacheService.getModel.
  rewrite Hc. unfold createData. rewrite coerced_spec by done.
  rewrite (coerced_nothing_declared data (fields model) Hnone).
  cbn [mbind result_bind]. unfold withOwner.
  destruct Howner as [-> | ->]; [by destruct ownerId | done].
Qed.


End Payloads.

Section PayloadsExamples.
Import DynamicApiService.
#[local] Existing Instance Demo.runtime.
#[local] Existing Instance Demo.server.



Lemma update_without_declared_field_witness :
  update "Product" 1%float [("price", JNum 5%float); ("id", JNum 2%float)] Demo.shop
  = (Throw (BadRequestException "No valid fields provided for update."), Demo.shop).
Proof.
  apply (update_without_declared_field Demo.shop "Product"
           (ModelDefinitionsService.completeDefinition Demo.product)).
  - vm_compute. reflexivity.
  - reflexivity.
  - intros f Hf. apply list_elem_of_In in Hf.
    destruct Hf as [<- | [<- | []]]; reflexivity.
Defined.

Lemma create_without_declared_field_witness :
  create "Customer" [("price", JNum 5%float)] (Some 7%float)
    (Demo.after (Demo.publish Demo.customer) Demo.emptyWorld)
  = (Throw (BadRequestException "Cannot create record with empty data."),
     Demo.after (Demo.publish Demo.customer) Demo.emptyWorld).
Proof.
  apply (create_without_declared_field _ "Customer"
           (ModelDefinitionsService.completeDefinition Demo.customer)).
  - vm_compute. reflexivity.
  - reflexivity.
  - intros f Hf. apply list_elem_of_In in Hf. destruct Hf as [<- | []]; reflexivity.
  - by left.
Defined.


End PayloadsExamples.

(** ** The dynamic query engine: delete *)

Section Delete.
Context `{JsRuntime} `{PgServer}.
Import DynamicApiService.








End Delete.

Section DeleteExamples.
Import DynamicApiService.
#[local] Existing Instance Demo.runtime.
#[local] Existing Instance Demo.server.


End DeleteExamples.

(** ** Validation and completion of a definition *)

Section ValidDefinitions.
Context `{JsRuntime} `{PgServer}.
Import ModelDefinitionsService.

Lemma lowerChar_upper (c : ascii) :
  JsString.isUpper c = true → JsString.isLower (JsString.lowerChar c) = true.
Proof.
  unfold JsString.lowerChar. intros Hu. rewrite Hu.
  unfold JsString.isUpper, JsString.isLower, JsString.code in *.
  apply andb_true_iff in Hu as [H1 H2].
  apply Nat.leb_le in H1. apply Nat.leb_le in H2.
  rewrite nat_ascii_embedding by lia.
  apply andb_true_iff. split; apply Nat.leb_le; lia.
Qed.

Lemma lowerChar_start (c : ascii) :
  JsString.isUpper c || JsString.isLower c || JsString.isUnderscore c = true →
  JsString.isUpper (JsString.lowerChar c) || JsString.isLower (JsString.lowerChar c)
  || JsString.isUnderscore (JsString.lowerChar c) = true.
Proof.
  intros Hc. destruct (JsString.isUpper c) eqn:Hu.
  - rewrite (lowerChar_upper c Hu). by rewrite orb_true_r.
  - unfold JsString.lowerChar. by rewrite Hu, Hu.
Qed.

Lemma lowerChar_word (c : ascii) :
  JsString.isWordChar c = true → JsString.isWordChar (JsString.lowerChar c) = true.
Proof.
  unfold JsString.isWordChar. intros Hc. destruct (JsString.isUpper c) eqn:Hu.
  - rewrite (lowerChar_upper c Hu). by rewrite orb_true_r.
  - unfold JsString.lowerChar. by rewrite Hu, Hu.
Qed.

Lemma toLowerCase_length (s : string) :
  String.length (JsString.toLowerCase s) = String.length s.
Proof.
  unfold JsString.toLowerCase.
  induction s as [| c s IH]; simpl; [done | by rewrite IH].
Qed.

(** Lower-casing keeps an identifier an identifier. *)
Lemma isValidIdentifier_toLowerCase (s : string) :
  isValidIdentifier s = true → isValidIdentifier (JsString.toLowerCase s) = true.
Proof.
  unfold isValidIdentifier. destruct s as [| c s]; [done |].
  rewrite !andb_true_iff. intros [[Hc Hs] _]. simpl.
  rewrite !andb_true_iff. split; [split |]; [| | done].
  - by apply lowerChar_start.
  - clear Hc. induction s as [| d s IH]; [done |]. simpl in *.
    apply andb_true_iff in Hs as [Hd Hs]. apply andb_true_iff.
    split; [by apply lowerChar_word | by apply IH].
Qed.

Lemma isValidIdentifier_not_empty (s : string) :
  isValidIdentifier s = true → s ≠ EmptyString.
Proof. by destruct s. Qed.

Lemma throwIf_Ok (cond : bool) (e : Exception) (k : Result unit) :
  (throwIf cond e;; k) = Ok () → cond = false ∧ k = Ok ().
Proof. by destruct cond. Qed.

Lemma validateFields_sound (registry : gmap string ModelDefinition)
    (modelName : string) (fs : list FieldDefinition) (seen : gset string) :
  validateFields registry modelName seen fs = Ok () →
  (∀ f, f ∈ fs →
        isValidIdentifier (fieldName f) = true
        ∧ (JsString.toLowerCase (fieldName f) ∉ seen)
        ∧ (fieldType f = TRelation →
           ∃ target, targetModel f = Some target
                     ∧ isValidIdentifier target = true
                     ∧ is_Some (registry !! target))
        ∧ (strictEq (fieldDefault f) JUndefined = false →
           isValidDefaultValue (fieldDefault f) (fieldType f) = true))
  ∧ NoDup (map (λ f, JsString.toLowerCase (fieldName f)) fs).
Proof.
  revert seen. induction fs as [| f fs IH]; intros seen; simpl.
  { intros _. split; [by intros f ?%elem_of_nil | constructor]. }
  intros Hok. apply throwIf_Ok in Hok as [Hname Hok].
  apply throwIf_Ok in Hok as [Hdup Hok].
  destruct (validateRelation registry f) as [[] |] eqn:Hrel; [| done]. simpl in Hok.
  apply throwIf_Ok in Hok as [Hdef Hok].
  apply IH in Hok as [Hall Hnd].
  apply negb_false_iff in Hname. apply bool_decide_eq_false in Hdup.
  split.
  - intros g [-> | Hg]%elem_of_cons.
    + split; [done |]. split; [done |]. split.
      * intros Hty. unfold validateRelation in Hrel.
        rewrite bool_decide_eq_true_2 in Hrel by done.
        destruct (targetModel f) as [target |]; [| done]. simpl in Hrel.
        destruct (JsString.isEmpty target); [done |]. simpl in Hrel.
        destruct (isValidIdentifier target) eqn:Hv; [| done]. simpl in Hrel.
        unfold ModelDefinitionCacheService.getModel in Hrel.
        destruct (registry !! target) eqn:Hr; [| done].
        exists target. by split; [| split].
      * intros Hu. rewrite Hu in Hdef. simpl in Hdef. by apply negb_false_iff in Hdef.
    + destruct (Hall g Hg) as (? & Hseen & ? & ?).
      split; [done |]. split; [| done].
      intros Hx. apply Hseen, elem_of_union. by right.
  - constructor; [| done]. intros Hin.
    apply list_elem_of_fmap in Hin as (g & Heq & Hg).
    destruct (Hall g Hg) as (_ & Hseen & _). rewrite <- Heq in Hseen.
    apply Hseen, elem_of_union. left. by apply elem_of_singleton.
Qed.

(** The checks of [validateModelDefinition], read off a successful run. *)
Lemma validateModelDefinition_checks (registry : gmap string ModelDefinition)
    (md : ModelDefinition) :
  validateModelDefinition registry md = Ok () →
  isValidIdentifier (name md) = true
  ∧ (JsString.toLowerCase (name md) ∉ RESERVED_NAMES)
  ∧ (∀ t, tableName md = Some t → t ≠ EmptyString → isValidIdentifier t = true)
  ∧ (∀ f, f ∈ fields md → isValidIdentifier (fieldName f) = true)
  ∧ NoDup (map (λ f, JsString.toLowerCase (fieldName f)) (fields md))
  ∧ (∀ f, f ∈ fields md → fieldType f = TRelation →
          ∃ target, targetModel f = Some target
                    ∧ isValidIdentifier target = true
                    ∧ is_Some (registry !! target))
  ∧ (∀ f, f ∈ fields md → strictEq (fieldDefault f) JUndefined = false →
          isValidDefaultValue (fieldDefault f) (fieldType f) = true)
  ∧ (∀ owner, ownerField md = Some owner → owner ≠ EmptyString →
              isValidIdentifier owner = true
              ∧ ∀ f, findField (fields md) owner = Some f → fieldType f = TNumber).
Proof.
  unfold validateModelDefinition. intros Hok.
  apply throwIf_Ok in Hok as [_ Hok].
  apply throwIf_Ok in Hok as [Hname Hok]. apply negb_false_iff in Hname.
  apply throwIf_Ok in Hok as [Hres Hok]. apply arrayIncludes_false in Hres.
  apply throwIf_Ok in Hok as [Htable Hok].
  destruct (validateFields registry (name md) ∅ (fields md)) as [[] |] eqn:Hfs;
    [| done].
  simpl in Hok. apply validateFields_sound in Hfs as [Hall Hnd].
  split; [done |]. split; [done |]. split; [| split; [| split; [| split; [| split]]]].
  - intros t Ht Hne. rewrite Ht, truthyStr_Some in Htable by done.
    simpl in Htable. by apply negb_false_iff in Htable.
  - intros f Hf. by destruct (Hall f Hf) as (? & _).
  - done.
  - intros f Hf. by destruct (Hall f Hf) as (_ & _ & ? & _).
  - intros f Hf. by destruct (Hall f Hf) as (_ & _ & _ & ?).
  - intros owner Ho Hne. unfold validateOwnerField in Hok.
    rewrite Ho, truthyStr_Some in Hok by done. cbn [from_option id] in Hok.
    apply throwIf_Ok in Hok as [Hov Hok]. apply negb_false_iff in Hov.
    split; [done |]. intros f Hf. rewrite Hf in Hok.
    unfold throwIf in Hok. by case_bool_decide.
Qed.

(** What a definition that passes [validateModelDefinition] is: its name is
    an identifier and not reserved (up to case), its table name, when given,
    is an identifier, its field names are identifiers that differ even up
    to case, every relation field names a registered model by an identifier,
    every default value present passed [isValidDefaultValue], and the owner
    field, when set, is an identifier that names no field or a number
    field. *)
Theorem validateModelDefinition_sound (registry : gmap string ModelDefinition)
    (md : ModelDefinition) :
  validateModelDefinition registry md = Ok () →
  isValidIdentifier (name md) = true
  ∧ (JsString.toLowerCase (name md) ∉ RESERVED_NAMES)
  ∧ (∀ t, tableName md = Some t → t ≠ EmptyString → isValidIdentifier t = true)
  ∧ (∀ f, f ∈ fields md → isValidIdentifier (fieldName f) = true)
  ∧ NoDup (map (λ f, JsString.toLowerCase (fieldName f)) (fields md))
  ∧ (∀ f, f ∈ fields md → fieldType f = TRelation →
          ∃ target, targetModel f = Some target
                    ∧ isValidIdentifier target = true
                    ∧ is_Some (registry !! target))
  ∧ (∀ f, f ∈ fields md → strictEq (fieldDefault f) JUndefined = false →
          isValidDefaultValue (fieldDefault f) (fieldType f) = true)
  ∧ (∀ owner, ownerField md = Some owner → owner ≠ EmptyString →
              isValidIdentifier owner = true
              ∧ ∀ f, findField (fields md) owner = Some f → fieldType f = TNumber).
Proof. apply validateModelDefinition_checks. Qed.

Lemma validated_name (registry : gmap string ModelDefinition) (md : ModelDefinition) :
  validateModelDefinition registry md = Ok () → isValidIdentifier (name md) = true.
Proof.
  unfold validateModelDefinition. intros Hok.
  apply throwIf_Ok in Hok as [_ Hok].
  apply throwIf_Ok in Hok as [Hname _]. by apply negb_false_iff in Hname.
Qed.

Lemma completeDefinition_tableName (md : ModelDefinition) :
  name md ≠ EmptyString → truthyStr (tableName (completeDefinition md)) = true.
Proof.
  intros Hne. unfold completeDefinition. simpl.
  destruct (truthyStr (tableName md)) eqn:E; [done |].
  simpl. destruct (name md); [done | done].
Qed.

End ValidDefinitions.

(** ** What a successful publish leaves *)

Section Published.
Context `{JsRuntime} `{PgServer}.
Import ModelDefinitionsService.

Lemma createTable_frame (md : ModelDefinition) (w : World) :
  documents (createTable md w).2 = documents w
  ∧ cache (createTable md w).2 = cache w.
Proof.
  unfold createTable. destruct (Nat.eqb _ 0); [done |].
  unfold mbind at 1. unfold M_bind, lift.
  destruct (mapResult mapFieldToSql (fields md)); [| done].
  unfold tryCatch, mbind, M_bind, runTransaction.
  by destruct (Pg.transaction _ _ _).
Qed.

Lemma migrateTable_frame (md : ModelDefinition) (currentSchema : list DbColumnInfo)
    (w : World) :
  documents (migrateTable md currentSchema w).2 = documents w
  ∧ cache (migrateTable md currentSchema w).2 = cache w.
Proof.
  unfold migrateTable, mbind, M_bind, lift.
  destruct (migrationPlan md currentSchema); [| done].
  destruct (Nat.eqb _ 0); [done |].
  unfold tryCatch, runTransaction.
  by destruct (Pg.transaction _ _ _).
Qed.

Lemma publishModel_ok (md : ModelDefinition) (w w1 : World) (r : PublishResponse) :
  publishModel md w = (Ok r, w1) →
  validateModelDefinition (cache w) md = Ok ()
  ∧ model r = completeDefinition md
  ∧ documents w1 = <[name md := completeDefinition md]> (documents w)
  ∧ cache w1 = <[name md := completeDefinition md]> (cache w).
Proof.
  unfold publishModel, getTableSchema.
  unfold mbind at 1 2 3 4. unfold M_bind, getWorld, lift, mret, M_ret.
  destruct (validateModelDefinition (cache w) md) as [[] |] eqn:Hvalid; [| done].
  pose proof (validated_name _ _ Hvalid) as Hname.
  apply isValidIdentifier_not_empty in Hname.
  pose proof (completeDefinition_tableName md Hname) as Htn.
  unfold mbind at 1. unfold M_bind.
  set (schema := default [] (Pg.selectColumns _ _)).
  intros Hpub. split; [done |].
  destruct (negb (Nat.ltb 0 (length schema))).
  - pose proof (createTable_frame (completeDefinition md) w) as [Hd Hc].
    destruct (createTable (completeDefinition md) w) as [[a |] wc]; [| done].
    simpl in Hd, Hc. revert Hpub.
    unfold writeDocument, ModelDefinitionCacheService.loadModel, setDocuments,
      setCache, mbind, M_bind, getWorld, mret, M_ret. simpl.
    rewrite lookup_insert_eq, Htn. simpl. intros [= <- <-]. simpl.
    by rewrite Hd, Hc.
  - pose proof (migrateTable_frame (completeDefinition md) schema w) as [Hd Hc].
    destruct (migrateTable (completeDefinition md) schema w) as [[a |] wc]; [| done].
    simpl in Hd, Hc. revert Hpub.
    unfold writeDocument, ModelDefinitionCacheService.loadModel, setDocuments,
      setCache, mbind, M_bind, getWorld, mret, M_ret. simpl.
    rewrite lookup_insert_eq, Htn. simpl. intros [= <- <-]. simpl.
    by rewrite Hd, Hc.
Qed.


Lemma findField_app_new (fs : list FieldDefinition) (f : FieldDefinition) :
  findField fs (fieldName f) = None → findField (fs ++ [f]) (fieldName f) = Some f.
Proof.
  unfold findField. induction fs as [| g fs IH]; simpl.
  - by rewrite String.eqb_refl.
  - destruct (String.eqb (fieldName g) (fieldName f)); [done | apply IH].
Qed.

Lemma findField_app_old (fs : list FieldDefinition) (f g : FieldDefinition) (n : string) :
  findField fs n = Some g → findField (fs ++ [f]) n = Some g.
Proof.
  unfold findField. induction fs as [| h fs IH]; simpl; [done |].
  destruct (String.eqb (fieldName h) n); [done | apply IH].
Qed.

(** The definition a successful publish stores always has its owner field
    among its fields, as a number field: the declared one, which validation
    requires to be a number, or the one [publishModel] adds. *)
Theorem published_owner_field_is_a_number (md : ModelDefinition) (w w1 : World)
    (r : PublishResponse) (owner : string) :
  publishModel md w = (Ok r, w1) →
  ownerField md = Some owner → owner ≠ EmptyString →
  ownerField (model r) = Some owner
  ∧ ∃ f, findField (fields (model r)) owner = Some f ∧ fieldType f = TNumber.
Proof.
  intros (Hvalid & -> & _)%publishModel_ok Ho Hne.
  apply validateModelDefinition_checks in Hvalid
    as (_ & _ & _ & _ & _ & _ & _ & Howner).
  destruct (Howner owner Ho Hne) as [_ Hnum].
  unfold completeDefinition. simpl. split; [done |].
  rewrite Ho, truthyStr_Some by done. cbn [from_option id andb].
  destruct (findField (fields md) owner) as [f |] eqn:Hf.
  - rewrite bool_decide_eq_true_2 by by eexists. cbn [negb].
    exists f. split; [done | by apply Hnum].
  - rewrite bool_decide_eq_false_2 by by intros [? ?]. cbn [negb].
    exists {| fieldName := owner; fieldType := TNumber; required := Some false;
              unique := None; fieldDefault := JUndefined; targetModel := None |}.
    split; [| reflexivity].
    by apply (findField_app_new (fields md)
                {| fieldName := owner; fieldType := TNumber; required := Some false;
                   unique := None; fieldDefault := JUndefined; targetModel := None |}).
Qed.

(** Completing a definition twice is completing it once: publishing the
    definition a publish returned completes to the same definition. *)
Theorem completeDefinition_idempotent (md : ModelDefinition) :
  completeDefinition (completeDefinition md) = completeDefinition md.
Proof.
  unfold completeDefinition. cbn [name tableName ownerField fields rbac]. f_equal.
  - destruct (truthyStr (tableName md)) eqn:E; [by rewrite E |].
    by destruct (truthyStr (Some (JsString.toLowerCase (name md)))).
  - destruct (truthyStr (ownerField md)) eqn:Ho; [| done]. cbn [andb].
    rewrite (bool_decide_eq_true_2 (is_Some (findField (if negb _ then _ else _) _)));
      [done |].
    case_bool_decide as Hold; cbn [negb]; [done |].
    eexists.
    apply (findField_app_new (fields md)
             {| fieldName := default EmptyString (ownerField md);
                fieldType := TNumber; required := Some false; unique := None;
                fieldDefault := JUndefined; targetModel := None |}).
    destruct (findField (fields md) _) eqn:Hf; [| done].
    exfalso. apply Hold. by eexists.
  - by destruct (rbac md).
Qed.

(** Every identifier that [publishModel] hands to the schema synthesis has
    passed [isValidIdentifier]: the table name (given, or the lower-cased
    model name), every field name, the added owner field among them, and the
    lower-cased target of every relation. *)
Theorem published_identifiers_are_valid (md : ModelDefinition)
    (registry : gmap string ModelDefinition) :
  validateModelDefinition registry md = Ok () →
  isValidIdentifier (tableNameText (completeDefinition md)) = true
  ∧ (∀ f, f ∈ fields (completeDefinition md) →
          isValidIdentifier (fieldName f) = true
          ∧ (fieldType f = TRelation →
             ∃ target, targetModel f = Some target
                       ∧ isValidIdentifier (JsString.toLowerCase target) = true)).
Proof.
  intros Hvalid. pose proof Hvalid as Hname%validated_name.
  apply validateModelDefinition_checks in Hvalid
    as (_ & _ & Htable & Hfields & _ & Hrel & _ & Howner).
  split.
  - unfold tableNameText, completeDefinition. simpl.
    destruct (tableName md) as [t |] eqn:Ht; simpl.
    + destruct (JsString.isEmpty t) eqn:E; simpl.
      * by apply isValidIdentifier_toLowerCase.
      * apply (Htable t eq_refl). by apply isEmpty_false.
    + by apply isValidIdentifier_toLowerCase.
  - intros f Hf. unfold completeDefinition in Hf. simpl in Hf.
    assert (f ∈ fields md
            ∨ (∃ owner, ownerField md = Some owner ∧ owner ≠ EmptyString
                        ∧ fieldName f = owner ∧ fieldType f = TNumber)) as [Hin | Hnew].
    { destruct (truthyStr (ownerField md) && _) eqn:E; [| by left].
      apply elem_of_app in Hf as [? | Hf]; [by left | right].
      apply list_elem_of_singleton in Hf as ->.
      apply andb_true_iff in E as [E _].
      destruct (ownerField md) as [owner |]; [| done].
      exists owner. simpl in E. apply negb_true_iff, isEmpty_false in E. done. }
    + split; [by apply Hfields |]. intros Hty.
      destruct (Hrel f Hin Hty) as (target & Ht & Hv & _).
      exists target. split; [done | by apply isValidIdentifier_toLowerCase].
    + destruct Hnew as (owner & Ho & Hne & Hfn & Hty).
      split; [rewrite Hfn; by apply (Howner owner Ho Hne) |].
      intros Hrel'. congruence.
Qed.

End Published.

Section PublishedExamples.
Import ModelDefinitionsService.
#[local] Existing Instance Demo.runtime.
#[local] Existing Instance Demo.server.

Lemma validateModelDefinition_sound_witness :
  isValidIdentifier (name Demo.product) = true
  ∧ NoDup (map (λ f, JsString.toLowerCase (fieldName f)) (fields Demo.product)).
Proof.
  destruct (validateModelDefinition_sound ∅ Demo.product)
    as (Hname & _ & _ & _ & Hnd & _); [reflexivity |].
  by split.
Defined.


Lemma published_owner_field_is_a_number_witness :
  ∃ r w1, publishModel Demo.product Demo.emptyWorld = (Ok r, w1)
          ∧ ∃ f, findField (fields (model r)) "creatorId" = Some f
                 ∧ fieldType f = TNumber.
Proof.
  assert (∃ r, publishModel Demo.product Demo.emptyWorld
               = (Ok r, Demo.after (Demo.publish Demo.product) Demo.emptyWorld))
    as [r Hpub] by (vm_compute; by eexists).
  exists r, (Demo.after (Demo.publish Demo.product) Demo.emptyWorld).
  split; [exact Hpub |].
  destruct (published_owner_field_is_a_number Demo.product Demo.emptyWorld _ r
              "creatorId" Hpub) as [_ Hf]; [reflexivity | discriminate |].
  exact Hf.
Defined.

Lemma published_identifiers_are_valid_witness :
  isValidIdentifier (tableNameText (completeDefinition Demo.invoice)) = true.
Proof.
  destruct (published_identifiers_are_valid Demo.invoice
              (cache (Demo.after (Demo.publish Demo.customer) Demo.emptyWorld)))
    as [Ht _]; [vm_compute; reflexivity |].
  exact Ht.
Defined.

End PublishedExamples.

(** ** The migration plan *)

Section PlanInvariants.
Context `{JsRuntime}.
Import ModelDefinitionsService.

Lemma mapResult_Forall_in {A B} (f : A → Result B) (P : B → Prop) (l : list A)
    (ys : list B) :
  (∀ x y, x ∈ l → f x = Ok y → P y) →
  mapResult f l = Ok ys → Forall P ys.
Proof.
  revert ys. induction l as [| x l IH]; intros ys Hf; simpl.
  - intros [= <-]. constructor.
  - destruct (f x) as [y | e] eqn:Hx; simpl; [| done].
    destruct (mapResult f l) as [ys' | e] eqn:Hl; simpl; [| done].
    intros [= <-]. constructor; [apply (Hf x); [by left | done] |].
    apply IH; [| done]. intros x' y' Hx'. apply Hf. by right.
Qed.

Lemma mapFieldToSql_name (f : FieldDefinition) (c : ColumnSql) :
  mapFieldToSql f = Ok c → col_name c = fieldName f.
Proof.
  unfold mapFieldToSql, mbind, result_bind.
  intros Hc. repeat case_match; simplify_eq; done.
Qed.

Lemma concatPlans_lengths (ps : list Plan) :
  Forall (λ p : Plan, length p.1 = length p.2) ps →
  length (concatPlans ps).1 = length (concatPlans ps).2.
Proof.
  induction 1 as [| p ps Hp _ IH]; simpl; [done |].
  rewrite !length_app. by rewrite Hp, IH.
Qed.

Lemma fieldPlan_lengths (md : ModelDefinition) (currentSchema : list DbColumnInfo)
    (field : FieldDefinition) (p : Plan) :
  fieldPlan md currentSchema field = Ok p → length p.1 = length p.2.
Proof.
  unfold fieldPlan, typeChangePlan, nullabilityPlan, defaultPlan, planApp.
  unfold mbind, result_bind.
  intros Hp. repeat case_match; simplify_eq; reflexivity.
Qed.

(** Every statement of a migration is reported: the plan has as many log
    entries as statements. *)
Theorem migrationPlan_reports_every_statement (md : ModelDefinition)
    (currentSchema : list DbColumnInfo) (plan : Plan) :
  migrationPlan md currentSchema = Ok plan →
  length plan.1 = length plan.2.
Proof.
  unfold migrationPlan. unfold mbind, result_bind.
  destruct (mapResult (addColumnPlan _) _) as [adds |] eqn:Hadds; [| done].
  destruct (mapResult (fieldPlan _ _) _) as [changes |] eqn:Hchanges; [| done].
  intros [= <-]. unfold planApp. simpl. rewrite !length_app.
  f_equal; [| f_equal].
  - apply concatPlans_lengths.
    apply (mapResult_Forall (addColumnPlan (tableNameText md)) _
             (columnsToAdd md currentSchema)); [| done].
    intros x y. unfold addColumnPlan, mbind, result_bind.
    destruct (mapFieldToSql x); [| done]. by intros [= <-].
  - apply concatPlans_lengths. apply Forall_fmap. by apply Forall_true.
  - apply concatPlans_lengths.
    apply (mapResult_Forall (fieldPlan md currentSchema) _ (fields md)); [| done].
    intros x y. apply fieldPlan_lengths.
Qed.

Lemma fieldPlan_statements (md : ModelDefinition) (currentSchema : list DbColumnInfo)
    (field : FieldDefinition) (p : Plan) :
  fieldPlan md currentSchema field = Ok p →
  Forall (λ q, addedColumn q = None
               ∧ ∀ c, alteredColumn q = Some c →
                      c = fieldName field
                      ∧ (fieldName field ∉ protectedColumns md)
                      ∧ fieldName field ∈ existingColumnNames currentSchema) p.1.
Proof.
  unfold fieldPlan.
  destruct (List.find _ currentSchema) as [existingColumn |] eqn:Hfind;
    [| intros [= <-]; constructor].
  destruct (negb (JsString.arrayIncludes _ _)) eqn:Hprot;
    [| intros [= <-]; constructor].
  apply negb_true_iff, arrayIncludes_false in Hprot.
  assert (fieldName field ∈ existingColumnNames currentSchema) as Hex.
  { apply find_some in Hfind as [Hin Heq]. apply String.eqb_eq in Heq.
    rewrite <- Heq. apply list_elem_of_fmap. exists existingColumn.
    split; [done | by apply list_elem_of_In]. }
  unfold typeChangePlan, nullabilityPlan, defaultPlan, planApp.
  unfold mbind, result_bind.
  intros Hp. repeat case_match; simplify_eq; simpl;
    repeat (apply Forall_cons; split;
            [split; [reflexivity | intros c' [= <-]; by repeat split] |]);
    constructor.
Qed.

(** No statement of a migration alters a protected column: every ALTER COLUMN
    and every backfill of the plan is for the column of a declared field
    that exists in the table and is none of [id], [createdAt], [updatedAt]
    and the owner field. *)
Theorem migration_never_alters_a_protected_column (md : ModelDefinition)
    (currentSchema : list DbColumnInfo) (plan : Plan) (q : Sql) (c : string) :
  migrationPlan md currentSchema = Ok plan →
  q ∈ plan.1 → alteredColumn q = Some c →
  (c ∉ protectedColumns md)
  ∧ c ∈ newFieldNames md
  ∧ c ∈ existingColumnNames currentSchema.
Proof.
  unfold migrationPlan. unfold mbind, result_bind.
  destruct (mapResult (addColumnPlan _) _) as [adds |] eqn:Hadds; [| done].
  destruct (mapResult (fieldPlan _ _) _) as [changes |] eqn:Hchanges; [| done].
  intros [= <-]. unfold planApp. simpl. rewrite !elem_of_app.
  intros [Hin | [Hin | Hin]] Halt.
  - exfalso.
    assert (Forall (λ q, alteredColumn q = None) (concatPlans adds).1) as Hall.
    { apply concatPlans_queries.
      apply (mapResult_Forall (addColumnPlan (tableNameText md)) _
               (columnsToAdd md currentSchema)); [| done].
      intros x y. unfold addColumnPlan, mbind, result_bind.
      destruct (mapFieldToSql x); [| done].
      intros [= <-]. by repeat constructor. }
    rewrite Forall_forall in Hall. rewrite (Hall q Hin) in Halt. done.
  - exfalso. clear -Hin Halt.
    induction (columnsToDrop md currentSchema) as [| col cols IH]; simpl in Hin.
    + by apply elem_of_nil in Hin.
    + apply elem_of_cons in Hin as [-> | Hin]; [done | by apply IH].
  - assert (Forall (λ q, ∀ c, alteredColumn q = Some c →
                              (c ∉ protectedColumns md) ∧ c ∈ newFieldNames md
                              ∧ c ∈ existingColumnNames currentSchema)
                   (concatPlans changes).1) as Hall.
    { apply concatPlans_queries.
      apply (mapResult_Forall_in (fieldPlan md currentSchema) _ (fields md)); [| done].
      intros f p Hf Hp. apply fieldPlan_statements in Hp.
      eapply Forall_impl; [exact Hp |]. intros q' [_ Hq'] c' Hc'.
      destruct (Hq' c' Hc') as (-> & ? & ?). split; [done |]. split; [| done].
      apply list_elem_of_fmap. by exists f. }
    rewrite Forall_forall in Hall. by apply (Hall q Hin).
Qed.

(** A migration adds only what is missing and drops only what is gone: every
    ADD COLUMN of the plan is for a declared field that the table does not
    have, and every DROP COLUMN is for a column of the table that no
    declared field names. *)
Theorem migration_adds_missing_and_drops_undeclared (md : ModelDefinition)
    (currentSchema : list DbColumnInfo) (plan : Plan) :
  migrationPlan md currentSchema = Ok plan →
  (∀ q c, q ∈ plan.1 → addedColumn q = Some c →
          c ∈ newFieldNames md ∧ c ∉ existingColumnNames currentSchema)
  ∧ (∀ t c, DropColumnIfExistsCascade t c ∈ plan.1 →
            c ∈ existingColumnNames currentSchema ∧ c ∉ newFieldNames md).
Proof.
  intros Hplan. split.
  - revert Hplan. unfold migrationPlan. unfold mbind, result_bind.
    destruct (mapResult (addColumnPlan _) _) as [adds |] eqn:Hadds; [| done].
    destruct (mapResult (fieldPlan _ _) _) as [changes |] eqn:Hchanges; [| done].
    intros [= <-] q c. unfold planApp. simpl. rewrite !elem_of_app.
    intros [Hin | [Hin | Hin]] Hadd.
    + assert (Forall (λ q, ∀ c, addedColumn q = Some c →
                                c ∈ newFieldNames md
                                ∧ c ∉ existingColumnNames currentSchema)
                     (concatPlans adds).1) as Hall.
      { apply concatPlans_queries.
        apply (mapResult_Forall_in (addColumnPlan (tableNameText md)) _
                 (columnsToAdd md currentSchema)); [| done].
        intros f p Hf. unfold addColumnPlan, mbind, result_bind.
        destruct (mapFieldToSql f) as [col |] eqn:Hcol; [| done].
        intros [= <-]. simpl. apply Forall_cons. split; [| constructor].
        intros c' [= <-]. rewrite (mapFieldToSql_name f col Hcol).
        unfold columnsToAdd in Hf. apply list_elem_of_In, filter_In in Hf
          as [Hf Hnew]. apply negb_true_iff, arrayIncludes_false in Hnew.
        split; [| done]. apply list_elem_of_fmap. exists f.
        split; [done | by apply list_elem_of_In]. }
      rewrite Forall_forall in Hall. by apply (Hall q Hin).
    + exfalso. clear -Hin Hadd.
      induction (columnsToDrop md currentSchema) as [| col cols IH]; simpl in Hin.
      * by apply elem_of_nil in Hin.
      * apply elem_of_cons in Hin as [-> | Hin]; [done | by apply IH].
    + exfalso.
      assert (Forall (λ q, addedColumn q = None) (concatPlans changes).1) as Hall.
      { apply concatPlans_queries.
        apply (mapResult_Forall (fieldPlan md currentSchema) _ (fields md)); [| done].
        intros x y Hxy. apply fieldPlan_statements in Hxy.
        eapply Forall_impl; [exact Hxy |]. by intros ? [? _]. }
      rewrite Forall_forall in Hall. rewrite (Hall q Hin) in Hadd. done.
  - intros t c Hin.
    apply (migrationPlan_drops md currentSchema plan t c Hplan) in Hin.
    apply columnsToDrop_spec in Hin as (? & ? & _). done.
Qed.

End PlanInvariants.

Section PlanInvariantsExamples.
Import ModelDefinitionsService.
#[local] Existing Instance Demo.runtime.

Lemma migrationPlan_reports_every_statement_witness :
  ∃ plan, migrationPlan (completeDefinition Demo2.repriced) Demo2.productSchema = Ok plan
          ∧ plan.2 = ["➕ Adding column: price (number)"; "➖ Removing column: name"]
          ∧ length plan.1 = length plan.2.
Proof.
  eexists. split; [vm_compute; reflexivity |]. split; [reflexivity |].
  apply (migrationPlan_reports_every_statement (completeDefinition Demo2.repriced)
           Demo2.productSchema).
  vm_compute. reflexivity.
Defined.

Lemma migration_never_alters_a_protected_column_witness :
  ∃ plan, migrationPlan (completeDefinition Demo2.retyped) Demo2.productSchema = Ok plan
          ∧ SetNotNull "product" "name" ∈ plan.1
          ∧ "name" ∉ protectedColumns (completeDefinition Demo2.retyped).
Proof.
  pose (plan := ([AlterColumnType "product" "name" "FLOAT"
                    (usingClauseFor (Demo.plainField "name" TNumber));
                  UpdateWhereNull "product" "name" "0"; SetNotNull "product" "name";
                  SetDefault "product" "name" "5"],
                 ["🔄 Changing column type: name (string → number)";
                  "➡️ Setting default for NULLs before making 'name' NOT NULL.";
                  "🔒 Making column required: name";
                  "➡️ Setting default for 'name' to 5."]) : Plan).
  assert (migrationPlan (completeDefinition Demo2.retyped) Demo2.productSchema = Ok plan)
    as Hplan by (vm_compute; reflexivity).
  assert (SetNotNull "product" "name" ∈ plan.1) as Hin.
  { apply list_elem_of_In. right. right. by left. }
  exists plan. split; [exact Hplan |]. split; [exact Hin |].
  by destruct (migration_never_alters_a_protected_column
                 (completeDefinition Demo2.retyped) Demo2.productSchema plan
                 (SetNotNull "product" "name") "name" Hplan Hin eq_refl).
Defined.

Lemma migration_adds_missing_and_drops_undeclared_witness :
  ∃ plan, migrationPlan (completeDefinition Demo2.repriced) Demo2.productSchema = Ok plan
          ∧ DropColumnIfExistsCascade "product" "name" ∈ plan.1
          ∧ "name" ∉ newFieldNames (completeDefinition Demo2.repriced).
Proof.
  pose (plan := ([AddColumn "product"
                    {| col_name := "price"; col_type := "FLOAT"; col_references := None;
                       col_not_null := false; col_unique := false;
                       col_default := None |};
                  DropColumnIfExistsCascade "product" "name"],
                 ["➕ Adding column: price (number)"; "➖ Removing column: name"])
                : Plan).
  assert (migrationPlan (completeDefinition Demo2.repriced) Demo2.productSchema = Ok plan)
    as Hplan by (vm_compute; reflexivity).
  assert (DropColumnIfExistsCascade "product" "name" ∈ plan.1) as Hin.
  { apply list_elem_of_In. right. by left. }
  exists plan. split; [exact Hplan |]. split; [exact Hin |].
  destruct (migration_adds_missing_and_drops_undeclared
              (completeDefinition Demo2.repriced) Demo2.productSchema plan Hplan)
    as [_ Hdrops].
  by destruct (Hdrops "product" "name" Hin).
Defined.

End PlanInvariantsExamples.

(** ** Creating the table, deleting the model, the registry *)

Section TablesAndRegistry.
Context `{JsRuntime} `{PgServer}.
Import ModelDefinitionsService.

Lemma mapFieldToSql_names (fs : list FieldDefinition) (cols : list ColumnSql) :
  mapResult mapFieldToSql fs = Ok cols → map col_name cols = map fieldName fs.
Proof.
  revert cols. induction fs as [| f fs IH]; intros cols; simpl.
  - by intros [= <-].
  - destruct (mapFieldToSql f) as [c |] eqn:Hc; [| done]. simpl.
    destruct (mapResult mapFieldToSql fs) as [cs |] eqn:Hcs; [| done]. simpl.
    intros [= <-]. simpl. by rewrite (mapFieldToSql_name f c Hc), (IH cs).
Qed.

(** A successful [createTable] on a database without the table leaves a
    table of that name with the three system columns followed by one column
    per field, named after the field and in the order of the fields, no
    row, and the [updatedAt] trigger installed; no other table changes. *)
Theorem createTable_makes_one_column_per_field (md : ModelDefinition) (w w1 : World)
    (r : Response) :
  database w !! tableNameText md = None →
  createTable md w = (Ok r, w1) →
  ∃ t, database w1 = <[tableNameText md := t]> (database w)
       ∧ Pg.columnNames (tbl_columns t)
         = ["id"; "createdAt"; "updatedAt"] ++ map fieldName (fields md)
       ∧ tbl_rows t = [] ∧ tbl_trigger t = true.
Proof.
  intros Hnone. unfold createTable.
  destruct (Nat.eqb _ 0); [done |].
  unfold mbind at 1. unfold M_bind, lift.
  destruct (mapResult mapFieldToSql (fields md)) as [cols |] eqn:Hcols; [| done].
  apply mapFieldToSql_names in Hcols.
  unfold tryCatch, mbind, M_bind, runTransaction. simpl.
  unfold Pg.exec at 1.
  destruct (pg_rejects _ (CreateTableIfNotExists _ _)); [done |].
  rewrite Hnone.
  destruct (negb (forallb _ cols)); [done |].
  destruct (Pg.noDuplicates _); [| done]. cbn [negb].
  unfold Pg.exec at 1.
  destruct (pg_rejects _ CreateUpdatedAtFunction); [done |].
  unfold Pg.exec at 1.
  destruct (pg_rejects _ (DropTriggerIfExists _)); [done |].
  rewrite lookup_insert_eq.
  unfold Pg.exec at 1.
  destruct (pg_rejects _ (CreateTrigger _)); [done |].
  rewrite lookup_insert_eq. cbn [Pg.withTrigger tbl_trigger].
  intros [= _ <-]. cbn [database].
  eexists. split; [by rewrite !insert_insert_eq |].
  cbn [tbl_columns tbl_rows tbl_trigger]. split; [| done].
  unfold Pg.columnNames. simpl. do 3 f_equal. by rewrite <- Hcols, map_map.
Qed.

(** [deleteModel] fails in three ways, and none of them changes anything:
    BadRequest for a name that is not an identifier, NotFound for a name
    without a document, and an internal error when the server rejects the
    DROP TABLE, in which case the document and the registry entry stay. *)
Theorem deleteModel_failure_changes_nothing (modelName : string) (w w' : World)
    (e : Exception) :
  deleteModel modelName w = (Throw e, w') →
  w' = w
  ∧ ((isValidIdentifier modelName = false
      ∧ e = BadRequestException "Invalid model name provided.")
     ∨ (isValidIdentifier modelName = true ∧ documents w !! modelName = None
        ∧ ∃ msg, e = NotFoundException msg)
     ∨ (isValidIdentifier modelName = true ∧ is_Some (documents w !! modelName)
        ∧ is_Some (pg_rejects (database w)
                     (DropTableIfExistsCascade (JsString.toLowerCase modelName)))
        ∧ e = InternalServerError
                "Failed to delete model and table due to a database error.")).
Proof.
  unfold deleteModel. destruct (isValidIdentifier modelName) eqn:Hv; cbn [negb].
  - unfold mbind at 1. unfold M_bind, getWorld.
    case_bool_decide as Hdoc; cbn [negb].
    + unfold tryCatch, queryRaw, Pg.exec, mbind, M_bind.
      destruct (pg_rejects _ _) as [msg |] eqn:Hrej.
      * intros [= <- <-]. split; [done |]. right. right.
        split; [done |]. split; [done |]. split; [by eexists | done].
      * unfold getWorld, setDocuments, ModelDefinitionCacheService.removeModel,
          setCache, mbind, M_bind, getWorld, mret, M_ret. simpl. done.
    + intros [= <- <-]. split; [done |]. right. left.
      split; [done |]. split; [| by eexists].
      destruct (documents w !! modelName) eqn:E; [| done].
      exfalso. apply Hdoc. by eexists.
  - intros [= <- <-]. split; [done |]. by left.
Qed.

(** The registry: loading a model whose document exists makes the registry
    resolve the name to that document, with the table name filled in with
    the lower-cased model name when the document has none; loading a name
    without a document leaves the registry as it is; after [removeModel]
    the name is not found.  No other entry is touched. *)
Theorem registry_load_and_evict (modelName : string) (w : World) :
  (∀ d, documents w !! modelName = Some d →
        ModelDefinitionCacheService.getModel
          (cache (ModelDefinitionCacheService.loadModel modelName w).2) modelName
        = Ok (if truthyStr (tableName d) then d
              else ModelDefinitionCacheService.withTableName d
                     (JsString.toLowerCase (name d))))
  ∧ (documents w !! modelName = None →
     (ModelDefinitionCacheService.loadModel modelName w).2 = w)
  ∧ (∃ msg, ModelDefinitionCacheService.getModel
              (cache (ModelDefinitionCacheService.removeModel modelName w).2) modelName
            = Throw (NotFoundException msg))
  ∧ (∀ other, other ≠ modelName →
              cache (ModelDefinitionCacheService.loadModel modelName w).2 !! other
              = cache w !! other
              ∧ cache (ModelDefinitionCacheService.removeModel modelName w).2 !! other
                = cache w !! other).
Proof.
  unfold ModelDefinitionCacheService.loadModel, ModelDefinitionCacheService.removeModel,
    ModelDefinitionCacheService.getModel, setCache, mbind, M_bind, getWorld, mret, M_ret.
  split; [| split; [| split]].
  - intros d ->. simpl. rewrite lookup_insert_eq. by destruct (truthyStr (tableName d)).
  - by intros ->.
  - simpl. rewrite lookup_delete_eq. by eexists.
  - intros other Hne. simpl. rewrite lookup_delete_ne by done.
    split; [| done]. destruct (documents w !! modelName); simpl; [| done].
    by rewrite lookup_insert_ne.
Qed.


End TablesAndRegistry.

(** ** The two type tables *)

(** The SQL type a field type is created with reads back as the same field
    type, from the SQL name and from the name the catalog gives it, for
    every field type but [relation], which reads back as [number]. *)
Theorem type_mapping_round_trip (t : FieldType) :
  mapFieldTypeToSqlType t ≫= mapDbTypeToFieldType
  = Some (if bool_decide (t = TRelation) then TNumber else t)
  ∧ (Pg.dataType <$> mapFieldTypeToSqlType t) ≫= mapDbTypeToFieldType
    = Some (if bool_decide (t = TRelation) then TNumber else t).
Proof. destruct t; split; reflexivity. Qed.

Section TablesAndRegistryExamples.
Import ModelDefinitionsService.
#[local] Existing Instance Demo.runtime.
#[local] Existing Instance Demo.server.

Lemma createTable_makes_one_column_per_field_witness :
  ∃ t, database (createTable (completeDefinition Demo.product) Demo.emptyWorld).2
       = <["product" := t]> (database Demo.emptyWorld)
       ∧ Pg.columnNames (tbl_columns t)
         = ["id"; "createdAt"; "updatedAt"; "name"; "creatorId"].
Proof.
  assert (∃ r, createTable (completeDefinition Demo.product) Demo.emptyWorld
               = (Ok r, (createTable (completeDefinition Demo.product)
                           Demo.emptyWorld).2))
    as [r Hcreate] by (vm_compute; by eexists).
  destruct (createTable_makes_one_column_per_field (completeDefinition Demo.product)
              Demo.emptyWorld _ r eq_refl Hcreate) as (t & Hdb & Hcols & _).
  exists t. by split.
Defined.

Lemma deleteModel_failure_changes_nothing_witness :
  deleteModel "Customer" Demo.agency
  = (Throw (NotFoundException "Model definition file for 'Customer' not found."),
     Demo.agency)
  ∧ documents Demo.agency !! "Customer" = None.
Proof.
  assert (deleteModel "Customer" Demo.agency
          = (Throw (NotFoundException "Model definition file for 'Customer' not found."),
             Demo.agency)) as Hdel by (vm_compute; reflexivity).
  split; [exact Hdel |].
  destruct (deleteModel_failure_changes_nothing "Customer" Demo.agency _ _ Hdel)
    as [_ [[Hbad _] | [(_ & Hnone & _) | (_ & _ & [msg Hrej] & _)]]].
  - discriminate Hbad.
  - exact Hnone.
  - discriminate Hrej.
Defined.

Lemma registry_load_and_evict_witness :
  ModelDefinitionCacheService.getModel
    (cache (ModelDefinitionCacheService.loadModel "Customer"
              {| database := ∅; documents := {["Customer" := Demo.customer]};
                 cache := ∅; now := 0%float |}).2) "Customer"
  = Ok (ModelDefinitionCacheService.withTableName Demo.customer "customer").
Proof.
  apply (proj1 (registry_load_and_evict "Customer"
                  {| database := ∅; documents := {["Customer" := Demo.customer]};
                     cache := ∅; now := 0%float |}) Demo.customer).
  vm_compute. reflexivity.
Defined.


Lemma publishModel_throw_witness :
  (publishModel Demo.broken Demo.agency).2 = Demo.agency.
Proof.
  destruct (publishModel Demo.broken Demo.agency) as [[r | e] w'] eqn:Hpub;
    [vm_compute in Hpub; discriminate |].
  exact (publishModel_throw Demo.broken Demo.agency w' e Hpub).
Defined.

End TablesAndRegistryExamples.

(** ** The record form and the coercion of the backend *)

Section FormAndCoercion.
Context `{JsRuntime}.
Import Frontend DynamicApiService.

Lemma convertFieldValue_submitted (value : JsValue) (t : FieldType) (c : JsValue) :
  (∃ s, value = JStr s) ∨ (∃ b, value = JBool b) →
  convertFieldValue value t = Value c →
  strictEq c JUndefined = false → submitted t c.
Proof.
  intros Hform. unfold convertFieldValue.
  destruct (strictEq value (JStr EmptyString) || strictEq value JNull
            || strictEq value JUndefined) eqn:Hblank; [by intros [= <-] |].
  destruct t; simpl.
  - intros [= <-] _. destruct Hform as [[s ->] | [b ->]]; simpl.
    + exists s. split; [done |]. simpl in Hblank. destruct s; done.
    + exists (if b then "true" else "false"). split; [done | by destruct b].
  - destruct (isNaN (ToNumber value)) eqn:E; [done |]. intros [= <-] _. by eexists.
  - intros [= <-] _. by eexists.
  - destruct (isNaN (ToNumber value)) eqn:E; [done |]. intros [= <-] _. by eexists.
  - intros [= <-] _. destruct Hform as [[s ->] | [b ->]]; simpl.
    + exists s. split; [done |]. simpl in Hblank. destruct s; done.
    + exists (if b then "true" else "false"). split; [done | by destruct b].
Qed.

(** For a name that [Object.prototype] does not have, a read finds the own
    property or nothing. *)
Lemma lookupProp_plain (o : JsObject) (k : string) :
  k ∉ objectPrototypeMembers → lookupProp o k = readProp o k.
Proof.
  intros Hk. unfold lookupProp, readProp, inheritedProp.
  destruct (getProp o k); [done |].
  apply arrayIncludes_false in Hk. rewrite Hk.
  destruct (String.eqb k "__proto__") eqn:E; [| done].
  apply String.eqb_eq in E. subst k. done.
Qed.

Lemma not_proto (k : string) : k ∉ objectPrototypeMembers → k ≠ "__proto__".
Proof. intros Hk ->. apply arrayIncludes_false in Hk. done. Qed.

Lemma submitField_invariant (formData acc acc' : JsObject) (field : FieldDefinition)
    (P : string → JsValue → Prop) :
  fieldName field ∉ objectPrototypeMembers →
  (∀ k v, getProp formData k = Some v → (∃ s, v = JStr s) ∨ (∃ b, v = JBool b)) →
  (∀ c, submitted (fieldType field) c → P (fieldName field) c) →
  (∀ k c, getProp acc k = Some c → P k c) →
  submitField formData acc field = Value acc' →
  ∀ k c, getProp acc' k = Some c → P k c.
Proof.
  intros Hname Hform Hnew Hacc. unfold submitField.
  rewrite lookupProp_plain by done.
  repeat (match goal with
          | |- context [if ?b then Value acc else _] => destruct b; [by intros [= <-] |]
          end).
  destruct (convertFieldValue _ _) as [c0 |] eqn:Hconv; [| done].
  destruct (negb (strictEq c0 JUndefined)) eqn:Hdef; [| by intros [= <-]].
  apply negb_true_iff in Hdef. intros [= <-] k c.
  destruct (decide (fieldName field = k)) as [<- | Hne].
  - rewrite getProp_setProp_eq by by apply not_proto. intros [= <-]. apply Hnew.
    apply (convertFieldValue_submitted (readProp formData (fieldName field)));
      [| done | done].
    unfold readProp. destruct (getProp formData (fieldName field)) eqn:E.
    + by apply (Hform (fieldName field)).
    + exfalso. unfold convertFieldValue, readProp in Hconv. rewrite E in Hconv.
      simpl in Hconv. by injection Hconv as <-.
  - rewrite getProp_setProp_ne by done. apply Hacc.
Qed.

Lemma submitFields_invariant (formData : JsObject) (fs : list FieldDefinition)
    (acc submit : JsObject) (P : string → JsValue → Prop) :
  (∀ f, f ∈ fs → fieldName f ∉ objectPrototypeMembers) →
  (∀ k v, getProp formData k = Some v → (∃ s, v = JStr s) ∨ (∃ b, v = JBool b)) →
  (∀ f c, f ∈ fs → submitted (fieldType f) c → P (fieldName f) c) →
  (∀ k c, getProp acc k = Some c → P k c) →
  submitFields formData acc fs = Value submit →
  ∀ k c, getProp submit k = Some c → P k c.
Proof.
  intros Hnames Hform. revert acc.
  induction fs as [| f fs IH]; intros acc Hnew Hacc; simpl.
  - by intros [= <-].
  - destruct (submitField formData acc f) as [acc' |] eqn:Hstep; [| done].
    apply IH.
    + intros g Hg. apply Hnames. by right.
    + intros g c Hg. apply Hnew. by right.
    + apply (submitField_invariant formData acc acc' f P); [| done | | done | done].
      * apply Hnames. by left.
      * intros c. apply Hnew. by left.
Qed.

Lemma coerceField_submitted (data acc : JsObject) (field : FieldDefinition)
    (c : JsValue) :
  fieldName field ≠ "__proto__" →
  getProp data (fieldName field) = Some c →
  submitted (fieldType field) c →
  getProp (coerceField data acc field) (fieldName field) = Some c.
Proof.
  intros Hname Hc Hsub. unfold coerceField, hasOwn, readProp. rewrite Hc.
  destruct (fieldType field); simpl in Hsub.
  - destruct Hsub as (s & -> & Hs). simpl. destruct s; [done |]. simpl.
    by apply getProp_setProp_eq.
  - destruct Hsub as (n & -> & Hn). simpl. rewrite Hn. by apply getProp_setProp_eq.
  - destruct Hsub as (b & ->). simpl. by apply getProp_setProp_eq.
  - destruct Hsub as (n & -> & Hn). simpl. rewrite Hn. by apply getProp_setProp_eq.
  - destruct Hsub as (s & -> & Hs). simpl. destruct s; [done |]. simpl.
    by apply getProp_setProp_eq.
Qed.

(** What the record form submits is what the backend stores.  When the field
    names of the model are distinct and none is the name of a member of
    [Object.prototype], and the form holds strings and booleans, the payload
    [handleSubmit] builds has only declared fields other than the owner
    field, and the coercion of the backend succeeds on it, returns every one
    of its entries unchanged and adds none. *)
Theorem form_payload_survives_coercion (model : ModelDefinition)
    (formData submit : JsObject) :
  NoDup (map fieldName (fields model)) →
  (∀ f, f ∈ fields model → fieldName f ∉ objectPrototypeMembers) →
  (∀ k v, getProp formData k = Some v → (∃ s, v = JStr s) ∨ (∃ b, v = JBool b)) →
  submitDataOf model formData = Value submit →
  (∀ k, k ∈ keys submit →
        k ∈ map fieldName (fields model) ∧ ownerField model ≠ Some k)
  ∧ ∃ sanitizedData,
      validateAndSanitizeData submit (fields model) = Ok sanitizedData
      ∧ ∀ k, getProp sanitizedData k = getProp submit k.
Proof.
  intros Hnd Hnames Hform Hsubmit. unfold submitDataOf in Hsubmit.
  assert (∀ k c, getProp submit k = Some c →
                 ∃ f, f ∈ fields model ∧ fieldName f = k
                      ∧ ownerField model ≠ Some k
                      ∧ submitted (fieldType f) c) as Hinv.
  { apply (submitFields_invariant formData
             (List.filter (λ field, negb (bool_decide (ownerField model
                                                         = Some (fieldName field))))
                          (fields model)) [] submit _);
      [| exact Hform | | | exact Hsubmit].
    - intros f Hf. apply list_elem_of_In, filter_In in Hf as [Hf _].
      by apply Hnames, list_elem_of_In.
    - intros f c Hf Hs. apply list_elem_of_In, filter_In in Hf as [Hf Hown].
      exists f. split; [by apply list_elem_of_In |]. split; [done |].
      split; [| done]. by apply negb_true_iff, bool_decide_eq_false in Hown.
    - intros k c [=]. }
  split.
  - intros k Hk. apply getProp_keys in Hk as [c Hc].
    destruct (Hinv k c Hc) as (f & Hf & <- & Hown & _).
    split; [apply list_elem_of_fmap; by exists f | done].
  - assert (getProp submit "hasOwnProperty" = None) as Hplain.
    { destruct (getProp submit "hasOwnProperty") as [c |] eqn:Hc; [| done].
      destruct (Hinv _ c Hc) as (f & Hf & Hname & _).
      exfalso. apply (Hnames f Hf). rewrite Hname.
      apply arrayIncludes_true. reflexivity. }
    exists (coerced submit (fields model)). split; [by apply coerced_spec |].
    intros k. destruct (getProp submit k) as [c |] eqn:Hc.
    + destruct (Hinv k c Hc) as (f & Hf & <- & _ & Hs).
      destruct (coerced_field submit (fields model) f Hnd Hf) as (acc & _ & ->).
      apply coerceField_submitted; [| done | done].
      by apply not_proto, Hnames.
    + by apply coerced_absent.
Qed.

End FormAndCoercion.

Section FormAndCoercionExamples.
Import Frontend DynamicApiService.
#[local] Existing Instance Demo.runtime.

Lemma form_payload_survives_coercion_witness :
  let formData := [("name", JStr "Lamp"); ("price", JStr "12"); ("active", JStr "false")] in
  let submit := [("name", JStr "Lamp"); ("price", JNum 12%float); ("active", JBool false)] in
  submitDataOf Demo2.item formData = Value submit
  ∧ ∃ sanitizedData,
      validateAndSanitizeData submit (fields Demo2.item) = Ok sanitizedData
      ∧ getProp sanitizedData "active" = Some (JBool false).
Proof.
  intros formData submit.
  assert (submitDataOf Demo2.item formData = Value submit) as Hsubmit by reflexivity.
  split; [exact Hsubmit |].
  destruct (form_payload_survives_coercion Demo2.item formData submit)
    as [_ (sanitizedData & Hs & Hsame)].
  - apply noDuplicates_NoDup. reflexivity.
  - intros f Hf. apply arrayIncludes_false. apply list_elem_of_In in Hf.
    destruct Hf as [<- | [<- | [<- | []]]]; reflexivity.
  - intros k v Hv. left. unfold formData in Hv. cbn [getProp] in Hv.
    repeat (destruct (String.eqb _ k); [injection Hv as <-; by eexists |]).
    discriminate.
  - exact Hsubmit.
  - exists sanitizedData. split; [exact Hs |]. rewrite (Hsame "active"). reflexivity.
Defined.

End FormAndCoercionExamples.

(** ** The queries of findAll *)

Section FindAllQueries.
Context `{JsRuntime}.
Variable trim : string → string.
Import FindAll.

(** The search of [findAll] looks at the text and number fields only.  Every
    condition of the WHERE clause is an ILIKE of the trimmed search text
    between two [%] on a declared field of type string or number, a number
    being cast to text; and there is no WHERE clause at all, so every row
    matches, exactly when the trimmed search text is empty or the model has
    no such field. *)
Theorem search_covers_text_and_number_fields (model : ModelDefinition)
    (options : Options) :
  (∀ c, c ∈ q_where (queriesOf trim model options) →
        ∃ f, f ∈ fields model ∧ cond_column c = fieldName f
             ∧ (fieldType f = TString ∨ fieldType f = TNumber)
             ∧ cond_as_text c = bool_decide (fieldType f = TNumber)
             ∧ cond_pattern c = "%" +:+ searchOf trim options +:+ "%")
  ∧ (q_where (queriesOf trim model options) = []
     ↔ searchOf trim options = EmptyString
       ∨ ∀ f, f ∈ fields model → fieldType f ≠ TString ∧ fieldType f ≠ TNumber).
Proof.
  unfold queriesOf, whereClauseOf. cbn [q_where]. split.
  - intros c Hc. destruct (truthy (JStr (searchOf trim options))); [| by apply elem_of_nil in Hc].
    apply list_elem_of_fmap in Hc as (f & -> & Hf).
    unfold searchableFields in Hf. apply list_elem_of_In, filter_In in Hf as [Hf Hty].
    exists f. split; [by apply list_elem_of_In |]. split; [done |].
    split; [| done]. apply orb_true_iff in Hty as [Hty | Hty];
      apply bool_decide_eq_true in Hty; auto.
  - destruct (searchOf trim options) as [| ch rest] eqn:Hs; simpl.
    { split; [by left | done]. }
    split.
    + intros Hnil. right. intros f Hf.
      apply map_eq_nil in Hnil. unfold searchableFields in Hnil.
      assert (bool_decide (fieldType f = TString) || bool_decide (fieldType f = TNumber)
              = false) as Hty.
      { destruct (bool_decide (fieldType f = TString)
                  || bool_decide (fieldType f = TNumber)) eqn:E; [| done].
        assert (In f (List.filter (λ field, bool_decide (fieldType field = TString)
                                           || bool_decide (fieldType field = TNumber))
                                  (fields model))) as Hin
          by (apply filter_In; split; [by apply list_elem_of_In | done]).
        rewrite Hnil in Hin. done. }
      apply orb_false_iff in Hty as [H1 H2].
      by apply bool_decide_eq_false in H1; apply bool_decide_eq_false in H2.
    + intros [? | Hnone]; [done |].
      unfold searchableFields. rewrite filter_none; [done |].
      intros f Hf. destruct (Hnone f Hf) as [H1 H2].
      by rewrite !bool_decide_eq_false_2.
Qed.

(** Paging falls back to the first ten rows: when [Number(page)] and
    [Number(limit)] are both falsy (the parameter is absent, is not a number
    or is zero), the data query is bound with LIMIT 10 and OFFSET 0. *)
Theorem paging_defaults (model : ModelDefinition) (options : Options) :
  truthy (JNum (numberOf (page options))) = false →
  truthy (JNum (numberOf (limit options))) = false →
  q_limit (queriesOf trim model options) = 10%float
  ∧ q_offset (queriesOf trim model options) = 0%float.
Proof.
  intros Hp Hl. unfold queriesOf, pageOf, limitOf. cbn [q_limit q_offset].
  rewrite Hp, Hl. split; reflexivity.
Qed.

End FindAllQueries.

Section FindAllQueriesExamples.
Import FindAll.
#[local] Existing Instance Demo.runtime.

Lemma search_covers_text_and_number_fields_witness :
  q_where (queriesOf Demo2.trim Demo2.flags
             {| page := None; limit := None; search := Some " lamp " |}) = []
  ∧ map cond_column
      (q_where (queriesOf Demo2.trim Demo2.item
                  {| page := None; limit := None; search := Some " lamp " |}))
    = ["name"; "price"].
Proof.
  split; [| reflexivity].
  apply (proj2 (search_covers_text_and_number_fields Demo2.trim Demo2.flags
                  {| page := None; limit := None; search := Some " lamp " |})).
  right. intros f Hf. apply list_elem_of_In in Hf.
  destruct Hf as [<- | [<- | []]]; by split.
Defined.

Lemma paging_defaults_witness :
  q_limit (queriesOf Demo2.trim Demo2.item
             {| page := Some "abc"; limit := None; search := None |}) = 10%float
  ∧ q_offset (queriesOf Demo2.trim Demo2.item
                {| page := Some "abc"; limit := None; search := None |}) = 0%float.
Proof.
  apply (paging_defaults Demo2.trim Demo2.item
           {| page := Some "abc"; limit := None; search := None |});
    reflexivity.
Defined.

End FindAllQueriesExamples.

(** ** The column clause of mapFieldToSql *)

Section ColumnClauses.
Context `{JsRuntime}.
Import ModelDefinitionsService.

(** Every piece of a column clause that [mapFieldToSql] returns has been
    screened.  The column name is the field name and is an identifier; a
    REFERENCES part only comes with a relation field and names an
    identifier; a DEFAULT part comes from a default value whose text has no
    semicolon, no [--] and no forbidden keyword, and is, by the type of the
    field, that text between quotes with every quote doubled (string, date),
    TRUE or FALSE for the texts true and false up to case (boolean), or the
    text of a number that is not NaN (number, relation). *)
Theorem column_clause_is_screened (field : FieldDefinition) (c : ColumnSql) :
  mapFieldToSql field = Ok c →
  col_name c = fieldName field
  ∧ isValidIdentifier (col_name c) = true
  ∧ (∀ t, col_references c = Some t →
          fieldType field = TRelation ∧ isValidIdentifier t = true)
  ∧ (∀ lit, col_default c = Some lit →
       let valueStr := ToString (fieldDefault field) in
       JsString.includes valueStr ";" = false
       ∧ JsString.includes valueStr "--" = false
       ∧ mentionsForbiddenKeyword valueStr = false
       ∧ match fieldType field with
         | TString | TDate => lit = "'" +:+ JsString.doubleQuotes valueStr +:+ "'"
         | TBoolean =>
             (JsString.toLowerCase valueStr = "true" ∧ lit = "TRUE")
             ∨ (JsString.toLowerCase valueStr = "false" ∧ lit = "FALSE")
         | TNumber | TRelation =>
             ∃ n, lit = NumberToString n ∧ isNaN n = false
         end).
Proof.
  unfold mapFieldToSql. intros Hc.
  destruct (isValidIdentifier (fieldName field)) eqn:Hname; [| done].
  cbn [negb throwIf mbind result_bind] in Hc.
  destruct (mapFieldTypeToSqlType (fieldType field)) as [sqlType |]; [| done].
  destruct (if bool_decide (fieldType field = TRelation) then _ else _)
    as [references |] eqn:Href; [| done].
  cbn [mbind result_bind] in Hc.
  destruct (if hasDefault (fieldDefault field) then _ else _)
    as [defaultSql |] eqn:Hdef; [| done].
  cbn [mbind result_bind] in Hc. injection Hc as <-. cbn [col_name col_references col_default].
  split; [done |]. split; [done |]. split.
  - intros t ->. case_bool_decide as Hty; [| done]. split; [done |].
    destruct (truthyStr (targetModel field)); [| done].
    cbn [negb throwIf mbind result_bind] in Href.
    destruct (isValidIdentifier (default EmptyString (targetModel field))) eqn:Ht; [| done].
    cbn [negb throwIf mbind result_bind] in Href. injection Href as <-.
    by apply isValidIdentifier_toLowerCase.
  - intros lit ->. cbn zeta.
    destruct (hasDefault (fieldDefault field)) eqn:Hhas; [| done].
    destruct (isValidDefaultValue (fieldDefault field) (fieldType field)) eqn:Hvalid;
      [| done].
    cbn [negb throwIf mbind result_bind] in Hdef.
    destruct (quoteDefaultValue (fieldDefault field) (fieldType field))
      as [d |] eqn:Hquote; [| done].
    cbn [mbind result_bind] in Hdef. injection Hdef as <-.
    unfold isValidDefaultValue in Hvalid. unfold hasDefault in Hhas.
    apply andb_true_iff in Hhas as [[Hu Hn]%andb_true_iff Hs].
    apply negb_true_iff in Hu, Hn, Hs. rewrite Hu, Hn, Hs in Hvalid.
    cbn [orb] in Hvalid.
    destruct (JsString.includes (ToString (fieldDefault field)) ";") eqn:Hsemi; [done |].
    destruct (JsString.includes (ToString (fieldDefault field)) "--") eqn:Hdash; [done |].
    cbn [orb] in Hvalid.
    destruct (mentionsForbiddenKeyword (ToString (fieldDefault field))) eqn:Hkw; [done |].
    split; [done |]. split; [done |]. split; [done |].
    unfold quoteDefaultValue in Hquote.
    destruct (fieldType field) eqn:Hty.
    + by injection Hquote as <-.
    + destruct (isNaN (ToNumber (fieldDefault field))) eqn:Hnan; [done |].
      injection Hquote as <-. by eexists.
    + injection Hquote as <-.
      rewrite bool_decide_eq_false_2 in Hvalid by done.
      rewrite bool_decide_eq_true_2 in Hvalid by done.
      rewrite bool_decide_eq_false_2 in Hvalid by done.
      cbn [andb] in Hvalid.
      destruct (String.eqb (JsString.toLowerCase (ToString (fieldDefault field))) "true")
        eqn:Htrue.
      * left. by apply String.eqb_eq in Htrue.
      * right. cbn [negb andb] in Hvalid.
        destruct (String.eqb (JsString.toLowerCase (ToString (fieldDefault field))) "false")
          eqn:Hfalse; [| done].
        by apply String.eqb_eq in Hfalse.
    + destruct (isNaN (ToNumber (fieldDefault field))) eqn:Hnan; [done |].
      injection Hquote as <-. by eexists.
    + by injection Hquote as <-.
Qed.

End ColumnClauses.

Section ColumnClausesExamples.
Import ModelDefinitionsService.
#[local] Existing Instance Demo.runtime.

Lemma column_clause_is_screened_witness :
  ∃ c, mapFieldToSql Demo2.nickname = Ok c
       ∧ col_default c = Some "'it''s'"
       ∧ isValidIdentifier (col_name c) = true.
Proof.
  pose (c := {| col_name := "nickname"; col_type := "TEXT"; col_references := None;
                col_not_null := false; col_unique := false;
                col_default := Some "'it''s'" |}).
  assert (mapFieldToSql Demo2.nickname = Ok c) as Hc by reflexivity.
  exists c. split; [exact Hc |]. split; [reflexivity |].
  by destruct (column_clause_is_screened Demo2.nickname c Hc) as (_ & ? & _).
Defined.

End ColumnClausesExamples.
